(** * Company matching on URL-derived keys: a shallow embedding

    The development follows the Python sources
    - [preprocessor.py] (class [URLPreprocessor]): key extraction and the
      exact / fuzzy key matchers,
    - [matcher.py] (class [Matcher]): load, key annotation, join, set
      difference, persistence,
    - [postprocess.py]: the duplicate-resolution pass over a matched table.

    Conventions.
    - The texts the program reads (URLs, column names, paths) are ASCII: a
      Python [str] is a Rocq [string], one character per byte, and the string
      functions of [PyStr] are the ASCII ones.
    - Percent-decoding is the one place where the program leaves ASCII.  The
      decoded text is a list of code points ([Unicode.str]), with Python's
      Unicode lowercasing and the class [\w] of [re]; a company key made of
      it is stored as its UTF-8 encoding.
    - A pandas cell is [option string]: [Some s] is a text value, [None] is
      the null value (NaN / None).  Numeric dtype inference is not modelled.
    - A [DataFrame] is an ordered list of column names and a list of rows,
      each row a finite map from column name to cell.
    - Files are a finite map from path to table; reading and writing CSV text
      is not modelled beyond that.  Whether a path can be written is a
      parameter of [Matcher].
    - Exceptions are values of [exn]; a function that may raise returns a
      [result]. *)

From Stdlib Require Import Ascii String NArith.
From stdpp Require Import base option list strings gmap sorting.

(** ** Python string primitives *)

Module PyStr.

Definition lower_char (c : ascii) : ascii :=
  let n := nat_of_ascii c in
  if (65 <=? n)%nat && (n <=? 90)%nat then ascii_of_nat (n + 32) else c.

(** [s.lower()] *)
Fixpoint lower (s : string) : string :=
  match s with
  | EmptyString => EmptyString
  | String c s' => String (lower_char c) (lower s')
  end.

(** [s.startswith(p)] *)
Fixpoint startswith (p s : string) : bool :=
  match p, s with
  | EmptyString, _ => true
  | String a p', String b s' => if decide (a = b) then startswith p' s' else false
  | String _ _, EmptyString => false
  end.

(** [sub in s] *)
Fixpoint contains (sub s : string) : bool :=
  startswith sub s ||
  match s with
  | EmptyString => false
  | String _ s' => contains sub s'
  end.

(** [s[n:]] *)
Fixpoint drop (n : nat) (s : string) : string :=
  match n, s with
  | O, _ => s
  | S n', String _ s' => drop n' s'
  | S _, EmptyString => EmptyString
  end.

(** [s.split(c)] for a one-character separator: never the empty list. *)
Fixpoint split (c : ascii) (s : string) : list string :=
  match s with
  | EmptyString => [EmptyString]
  | String a s' =>
      if decide (a = c) then EmptyString :: split c s'
      else match split c s' with
           | h :: t => String a h :: t
           | [] => [String a EmptyString]
           end
  end.

(** [sep.join(parts)] *)
Fixpoint join (sep : string) (parts : list string) : string :=
  match parts with
  | [] => EmptyString
  | [p] => p
  | p :: ps => p +:+ sep +:+ join sep ps
  end.

(** [s.rstrip(c)] for a one-character set *)
Fixpoint rstrip (c : ascii) (s : string) : string :=
  match s with
  | EmptyString => EmptyString
  | String a s' =>
      match rstrip c s' with
      | EmptyString => if decide (a = c) then EmptyString else String a EmptyString
      | r => String a r
      end
  end.

(** [s.partition(c)[0]]: the part before the first [c], all of [s] when
    there is none. *)
Fixpoint before (c : ascii) (s : string) : string :=
  match s with
  | EmptyString => EmptyString
  | String a s' => if decide (a = c) then EmptyString else String a (before c s')
  end.

(** [s.rpartition(c)[-1]]: the part after the last [c], all of [s] when
    there is none. *)
Definition after_last (c : ascii) (s : string) : string :=
  List.last (split c s) s.

(** [c.isspace()] on ASCII: the characters 9 to 13, 28 to 31 and the space *)
Definition is_space (c : ascii) : bool :=
  let n := nat_of_ascii c in
  ((9 <=? n)%nat && (n <=? 13)%nat) || ((28 <=? n)%nat && (n <=? 32)%nat).

(** [s.strip()] *)
Fixpoint lstrip_space (s : string) : string :=
  match s with
  | EmptyString => EmptyString
  | String a s' => if is_space a then lstrip_space s' else s
  end.

Fixpoint rstrip_space (s : string) : string :=
  match s with
  | EmptyString => EmptyString
  | String a s' =>
      match rstrip_space s' with
      | EmptyString => if is_space a then EmptyString else String a EmptyString
      | r => String a r
      end
  end.

Definition strip (s : string) : string := rstrip_space (lstrip_space s).

(** [s.find(sub)], [None] for -1 *)
Fixpoint find (sub s : string) : option nat :=
  if startswith sub s then Some 0
  else match s with
       | EmptyString => None
       | String _ s' => S <$> find sub s'
       end.

(** [s[:n]] *)
Fixpoint take (n : nat) (s : string) : string :=
  match n, s with
  | S n', String a s' => String a (take n' s')
  | _, _ => EmptyString
  end.

Fixpoint forallb (p : ascii → bool) (s : string) : bool :=
  match s with
  | EmptyString => true
  | String a s' => p a && forallb p s'
  end.

Fixpoint filter (p : ascii → bool) (s : string) : string :=
  match s with
  | EmptyString => EmptyString
  | String a s' => if p a then String a (filter p s') else filter p s'
  end.

Definition in_range (lo hi : nat) (c : ascii) : bool :=
  let n := nat_of_ascii c in (lo <=? n)%nat && (n <=? hi)%nat.

Definition is_digit (c : ascii) : bool := in_range 48 57 c.
Definition is_alpha (c : ascii) : bool := in_range 65 90 c || in_range 97 122 c.
Definition is_alnum (c : ascii) : bool := is_alpha c || is_digit c.

(** the class [\w]: letters, digits and the underscore *)
Definition is_word (c : ascii) : bool := is_alnum c || bool_decide (c = "_"%char).

(** [s.endswith(p)] *)
Fixpoint endswith (p s : string) : bool :=
  bool_decide (s = p) ||
  match s with
  | EmptyString => false
  | String _ s' => endswith p s'
  end.

(** [s.replace(old, new)] for a non-empty [old]: the occurrences are taken
    from left to right and do not overlap; [skip] counts the characters of
    the occurrence just replaced that are still to be passed over. *)
Fixpoint replace_from (old new : string) (skip : nat) (s : string) : string :=
  match s with
  | EmptyString => EmptyString
  | String c rest =>
      match skip with
      | S k => replace_from old new k rest
      | O =>
          if startswith old s
          then new +:+ replace_from old new (String.length old - 1) rest
          else String c (replace_from old new 0 rest)
      end
  end.

Definition replace (old new s : string) : string := replace_from old new 0 s.

(** [re.split] on a class of single characters *)
Fixpoint split_any (sep : ascii → bool) (s : string) : list string :=
  match s with
  | EmptyString => [EmptyString]
  | String a s' =>
      if sep a then EmptyString :: split_any sep s'
      else match split_any sep s' with
           | h :: t => String a h :: t
           | [] => [String a EmptyString]
           end
  end.

End PyStr.

(** ** Python's Unicode strings

    A [str] that may hold any character is the list of its code points.  The
    tables are those of the Unicode character database 14.0.0 (CPython
    3.11), as [str.isalnum], [str.lower] and [str.title] answer on every code
    point. *)

Module Unicode.

(** a [str]: its code points *)
Abbreviation str := (list N).

(** the [str] of an ASCII literal *)
Definition of_ascii (s : string) : str := N_of_ascii <$> list_ascii_of_string s.

Definition in_ranges (table : list (N * N)) (c : N) : bool :=
  existsb (λ range, (range.1 <=? c)%N && (c <=? range.2)%N) table.

(** [str.isalnum] on one code point: the letters and the decimal, digit and
    numeric characters, as inclusive ranges *)
Definition alnum_ranges : list (N * N) :=
  [ (48, 57); (65, 90); (97, 122); (170, 170); (178, 179); (181, 181); (185, 186); (188, 190);
    (192, 214); (216, 246); (248, 705); (710, 721); (736, 740); (748, 748); (750, 750);
    (880, 884); (886, 887); (890, 893); (895, 895); (902, 902); (904, 906); (908, 908);
    (910, 929); (931, 1013); (1015, 1153); (1162, 1327); (1329, 1366); (1369, 1369);
    (1376, 1416); (1488, 1514); (1519, 1522); (1568, 1610); (1632, 1641); (1646, 1647);
    (1649, 1747); (1749, 1749); (1765, 1766); (1774, 1788); (1791, 1791); (1808, 1808);
    (1810, 1839); (1869, 1957); (1969, 1969); (1984, 2026); (2036, 2037); (2042, 2042);
    (2048, 2069); (2074, 2074); (2084, 2084); (2088, 2088); (2112, 2136); (2144, 2154);
    (2160, 2183); (2185, 2190); (2208, 2249); (2308, 2361); (2365, 2365); (2384, 2384);
    (2392, 2401); (2406, 2415); (2417, 2432); (2437, 2444); (2447, 2448); (2451, 2472);
    (2474, 2480); (2482, 2482); (2486, 2489); (2493, 2493); (2510, 2510); (2524, 2525);
    (2527, 2529); (2534, 2545); (2548, 2553); (2556, 2556); (2565, 2570); (2575, 2576);
    (2579, 2600); (2602, 2608); (2610, 2611); (2613, 2614); (2616, 2617); (2649, 2652);
    (2654, 2654); (2662, 2671); (2674, 2676); (2693, 2701); (2703, 2705); (2707, 2728);
    (2730, 2736); (2738, 2739); (2741, 2745); (2749, 2749); (2768, 2768); (2784, 2785);
    (2790, 2799); (2809, 2809); (2821, 2828); (2831, 2832); (2835, 2856); (2858, 2864);
    (2866, 2867); (2869, 2873); (2877, 2877); (2908, 2909); (2911, 2913); (2918, 2927);
    (2929, 2935); (2947, 2947); (2949, 2954); (2958, 2960); (2962, 2965); (2969, 2970);
    (2972, 2972); (2974, 2975); (2979, 2980); (2984, 2986); (2990, 3001); (3024, 3024);
    (3046, 3058); (3077, 3084); (3086, 3088); (3090, 3112); (3114, 3129); (3133, 3133);
    (3160, 3162); (3165, 3165); (3168, 3169); (3174, 3183); (3192, 3198); (3200, 3200);
    (3205, 3212); (3214, 3216); (3218, 3240); (3242, 3251); (3253, 3257); (3261, 3261);
    (3293, 3294); (3296, 3297); (3302, 3311); (3313, 3314); (3332, 3340); (3342, 3344);
    (3346, 3386); (3389, 3389); (3406, 3406); (3412, 3414); (3416, 3425); (3430, 3448);
    (3450, 3455); (3461, 3478); (3482, 3505); (3507, 3515); (3517, 3517); (3520, 3526);
    (3558, 3567); (3585, 3632); (3634, 3635); (3648, 3654); (3664, 3673); (3713, 3714);
    (3716, 3716); (3718, 3722); (3724, 3747); (3749, 3749); (3751, 3760); (3762, 3763);
    (3773, 3773); (3776, 3780); (3782, 3782); (3792, 3801); (3804, 3807); (3840, 3840);
    (3872, 3891); (3904, 3911); (3913, 3948); (3976, 3980); (4096, 4138); (4159, 4169);
    (4176, 4181); (4186, 4189); (4193, 4193); (4197, 4198); (4206, 4208); (4213, 4225);
    (4238, 4238); (4240, 4249); (4256, 4293); (4295, 4295); (4301, 4301); (4304, 4346);
    (4348, 4680); (4682, 4685); (4688, 4694); (4696, 4696); (4698, 4701); (4704, 4744);
    (4746, 4749); (4752, 4784); (4786, 4789); (4792, 4798); (4800, 4800); (4802, 4805);
    (4808, 4822); (4824, 4880); (4882, 4885); (4888, 4954); (4969, 4988); (4992, 5007);
    (5024, 5109); (5112, 5117); (5121, 5740); (5743, 5759); (5761, 5786); (5792, 5866);
    (5870, 5880); (5888, 5905); (5919, 5937); (5952, 5969); (5984, 5996); (5998, 6000);
    (6016, 6067); (6103, 6103); (6108, 6108); (6112, 6121); (6128, 6137); (6160, 6169);
    (6176, 6264); (6272, 6276); (6279, 6312); (6314, 6314); (6320, 6389); (6400, 6430);
    (6470, 6509); (6512, 6516); (6528, 6571); (6576, 6601); (6608, 6618); (6656, 6678);
    (6688, 6740); (6784, 6793); (6800, 6809); (6823, 6823); (6917, 6963); (6981, 6988);
    (6992, 7001); (7043, 7072); (7086, 7141); (7168, 7203); (7232, 7241); (7245, 7293);
    (7296, 7304); (7312, 7354); (7357, 7359); (7401, 7404); (7406, 7411); (7413, 7414);
    (7418, 7418); (7424, 7615); (7680, 7957); (7960, 7965); (7968, 8005); (8008, 8013);
    (8016, 8023); (8025, 8025); (8027, 8027); (8029, 8029); (8031, 8061); (8064, 8116);
    (8118, 8124); (8126, 8126); (8130, 8132); (8134, 8140); (8144, 8147); (8150, 8155);
    (8160, 8172); (8178, 8180); (8182, 8188); (8304, 8305); (8308, 8313); (8319, 8329);
    (8336, 8348); (8450, 8450); (8455, 8455); (8458, 8467); (8469, 8469); (8473, 8477);
    (8484, 8484); (8486, 8486); (8488, 8488); (8490, 8493); (8495, 8505); (8508, 8511);
    (8517, 8521); (8526, 8526); (8528, 8585); (9312, 9371); (9450, 9471); (10102, 10131);
    (11264, 11492); (11499, 11502); (11506, 11507); (11517, 11517); (11520, 11557);
    (11559, 11559); (11565, 11565); (11568, 11623); (11631, 11631); (11648, 11670);
    (11680, 11686); (11688, 11694); (11696, 11702); (11704, 11710); (11712, 11718);
    (11720, 11726); (11728, 11734); (11736, 11742); (11823, 11823); (12293, 12295);
    (12321, 12329); (12337, 12341); (12344, 12348); (12353, 12438); (12445, 12447);
    (12449, 12538); (12540, 12543); (12549, 12591); (12593, 12686); (12690, 12693);
    (12704, 12735); (12784, 12799); (12832, 12841); (12872, 12879); (12881, 12895);
    (12928, 12937); (12977, 12991); (13312, 19903); (19968, 42124); (42192, 42237);
    (42240, 42508); (42512, 42539); (42560, 42606); (42623, 42653); (42656, 42735);
    (42775, 42783); (42786, 42888); (42891, 42954); (42960, 42961); (42963, 42963);
    (42965, 42969); (42994, 43009); (43011, 43013); (43015, 43018); (43020, 43042);
    (43056, 43061); (43072, 43123); (43138, 43187); (43216, 43225); (43250, 43255);
    (43259, 43259); (43261, 43262); (43264, 43301); (43312, 43334); (43360, 43388);
    (43396, 43442); (43471, 43481); (43488, 43492); (43494, 43518); (43520, 43560);
    (43584, 43586); (43588, 43595); (43600, 43609); (43616, 43638); (43642, 43642);
    (43646, 43695); (43697, 43697); (43701, 43702); (43705, 43709); (43712, 43712);
    (43714, 43714); (43739, 43741); (43744, 43754); (43762, 43764); (43777, 43782);
    (43785, 43790); (43793, 43798); (43808, 43814); (43816, 43822); (43824, 43866);
    (43868, 43881); (43888, 44002); (44016, 44025); (44032, 55203); (55216, 55238);
    (55243, 55291); (63744, 64109); (64112, 64217); (64256, 64262); (64275, 64279);
    (64285, 64285); (64287, 64296); (64298, 64310); (64312, 64316); (64318, 64318);
    (64320, 64321); (64323, 64324); (64326, 64433); (64467, 64829); (64848, 64911);
    (64914, 64967); (65008, 65019); (65136, 65140); (65142, 65276); (65296, 65305);
    (65313, 65338); (65345, 65370); (65382, 65470); (65474, 65479); (65482, 65487);
    (65490, 65495); (65498, 65500); (65536, 65547); (65549, 65574); (65576, 65594);
    (65596, 65597); (65599, 65613); (65616, 65629); (65664, 65786); (65799, 65843);
    (65856, 65912); (65930, 65931); (66176, 66204); (66208, 66256); (66273, 66299);
    (66304, 66339); (66349, 66378); (66384, 66421); (66432, 66461); (66464, 66499);
    (66504, 66511); (66513, 66517); (66560, 66717); (66720, 66729); (66736, 66771);
    (66776, 66811); (66816, 66855); (66864, 66915); (66928, 66938); (66940, 66954);
    (66956, 66962); (66964, 66965); (66967, 66977); (66979, 66993); (66995, 67001);
    (67003, 67004); (67072, 67382); (67392, 67413); (67424, 67431); (67456, 67461);
    (67463, 67504); (67506, 67514); (67584, 67589); (67592, 67592); (67594, 67637);
    (67639, 67640); (67644, 67644); (67647, 67669); (67672, 67702); (67705, 67742);
    (67751, 67759); (67808, 67826); (67828, 67829); (67835, 67867); (67872, 67897);
    (67968, 68023); (68028, 68047); (68050, 68096); (68112, 68115); (68117, 68119);
    (68121, 68149); (68160, 68168); (68192, 68222); (68224, 68255); (68288, 68295);
    (68297, 68324); (68331, 68335); (68352, 68405); (68416, 68437); (68440, 68466);
    (68472, 68497); (68521, 68527); (68608, 68680); (68736, 68786); (68800, 68850);
    (68858, 68899); (68912, 68921); (69216, 69246); (69248, 69289); (69296, 69297);
    (69376, 69415); (69424, 69445); (69457, 69460); (69488, 69505); (69552, 69579);
    (69600, 69622); (69635, 69687); (69714, 69743); (69745, 69746); (69749, 69749);
    (69763, 69807); (69840, 69864); (69872, 69881); (69891, 69926); (69942, 69951);
    (69956, 69956); (69959, 69959); (69968, 70002); (70006, 70006); (70019, 70066);
    (70081, 70084); (70096, 70106); (70108, 70108); (70113, 70132); (70144, 70161);
    (70163, 70187); (70272, 70278); (70280, 70280); (70282, 70285); (70287, 70301);
    (70303, 70312); (70320, 70366); (70384, 70393); (70405, 70412); (70415, 70416);
    (70419, 70440); (70442, 70448); (70450, 70451); (70453, 70457); (70461, 70461);
    (70480, 70480); (70493, 70497); (70656, 70708); (70727, 70730); (70736, 70745);
    (70751, 70753); (70784, 70831); (70852, 70853); (70855, 70855); (70864, 70873);
    (71040, 71086); (71128, 71131); (71168, 71215); (71236, 71236); (71248, 71257);
    (71296, 71338); (71352, 71352); (71360, 71369); (71424, 71450); (71472, 71483);
    (71488, 71494); (71680, 71723); (71840, 71922); (71935, 71942); (71945, 71945);
    (71948, 71955); (71957, 71958); (71960, 71983); (71999, 71999); (72001, 72001);
    (72016, 72025); (72096, 72103); (72106, 72144); (72161, 72161); (72163, 72163);
    (72192, 72192); (72203, 72242); (72250, 72250); (72272, 72272); (72284, 72329);
    (72349, 72349); (72368, 72440); (72704, 72712); (72714, 72750); (72768, 72768);
    (72784, 72812); (72818, 72847); (72960, 72966); (72968, 72969); (72971, 73008);
    (73030, 73030); (73040, 73049); (73056, 73061); (73063, 73064); (73066, 73097);
    (73112, 73112); (73120, 73129); (73440, 73458); (73648, 73648); (73664, 73684);
    (73728, 74649); (74752, 74862); (74880, 75075); (77712, 77808); (77824, 78894);
    (82944, 83526); (92160, 92728); (92736, 92766); (92768, 92777); (92784, 92862);
    (92864, 92873); (92880, 92909); (92928, 92975); (92992, 92995); (93008, 93017);
    (93019, 93025); (93027, 93047); (93053, 93071); (93760, 93846); (93952, 94026);
    (94032, 94032); (94099, 94111); (94176, 94177); (94179, 94179); (94208, 100343);
    (100352, 101589); (101632, 101640); (110576, 110579); (110581, 110587); (110589, 110590);
    (110592, 110882); (110928, 110930); (110948, 110951); (110960, 111355); (113664, 113770);
    (113776, 113788); (113792, 113800); (113808, 113817); (119520, 119539); (119648, 119672);
    (119808, 119892); (119894, 119964); (119966, 119967); (119970, 119970); (119973, 119974);
    (119977, 119980); (119982, 119993); (119995, 119995); (119997, 120003); (120005, 120069);
    (120071, 120074); (120077, 120084); (120086, 120092); (120094, 120121); (120123, 120126);
    (120128, 120132); (120134, 120134); (120138, 120144); (120146, 120485); (120488, 120512);
    (120514, 120538); (120540, 120570); (120572, 120596); (120598, 120628); (120630, 120654);
    (120656, 120686); (120688, 120712); (120714, 120744); (120746, 120770); (120772, 120779);
    (120782, 120831); (122624, 122654); (123136, 123180); (123191, 123197); (123200, 123209);
    (123214, 123214); (123536, 123565); (123584, 123627); (123632, 123641); (124896, 124902);
    (124904, 124907); (124909, 124910); (124912, 124926); (124928, 125124); (125127, 125135);
    (125184, 125251); (125259, 125259); (125264, 125273); (126065, 126123); (126125, 126127);
    (126129, 126132); (126209, 126253); (126255, 126269); (126464, 126467); (126469, 126495);
    (126497, 126498); (126500, 126500); (126503, 126503); (126505, 126514); (126516, 126519);
    (126521, 126521); (126523, 126523); (126530, 126530); (126535, 126535); (126537, 126537);
    (126539, 126539); (126541, 126543); (126545, 126546); (126548, 126548); (126551, 126551);
    (126553, 126553); (126555, 126555); (126557, 126557); (126559, 126559); (126561, 126562);
    (126564, 126564); (126567, 126570); (126572, 126578); (126580, 126583); (126585, 126588);
    (126590, 126590); (126592, 126601); (126603, 126619); (126625, 126627); (126629, 126633);
    (126635, 126651); (127232, 127244); (130032, 130041); (131072, 173791); (173824, 177976);
    (177984, 178205); (178208, 183969); (183984, 191456); (194560, 195101); (196608, 201546) ]%N.

(** the property Cased, as inclusive ranges *)
Definition cased_ranges : list (N * N) :=
  [ (65, 90); (97, 122); (170, 170); (181, 181); (186, 186); (192, 214); (216, 246);
    (248, 442); (444, 447); (452, 659); (661, 696); (704, 705); (736, 740); (837, 837);
    (880, 883); (886, 887); (890, 893); (895, 895); (902, 902); (904, 906); (908, 908);
    (910, 929); (931, 1013); (1015, 1153); (1162, 1327); (1329, 1366); (1376, 1416);
    (4256, 4293); (4295, 4295); (4301, 4301); (4304, 4346); (4349, 4351); (5024, 5109);
    (5112, 5117); (7296, 7304); (7312, 7354); (7357, 7359); (7424, 7615); (7680, 7957);
    (7960, 7965); (7968, 8005); (8008, 8013); (8016, 8023); (8025, 8025); (8027, 8027);
    (8029, 8029); (8031, 8061); (8064, 8116); (8118, 8124); (8126, 8126); (8130, 8132);
    (8134, 8140); (8144, 8147); (8150, 8155); (8160, 8172); (8178, 8180); (8182, 8188);
    (8305, 8305); (8319, 8319); (8336, 8348); (8450, 8450); (8455, 8455); (8458, 8467);
    (8469, 8469); (8473, 8477); (8484, 8484); (8486, 8486); (8488, 8488); (8490, 8493);
    (8495, 8500); (8505, 8505); (8508, 8511); (8517, 8521); (8526, 8526); (8544, 8575);
    (8579, 8580); (9398, 9449); (11264, 11492); (11499, 11502); (11506, 11507); (11520, 11557);
    (11559, 11559); (11565, 11565); (42560, 42605); (42624, 42653); (42786, 42887);
    (42891, 42894); (42896, 42954); (42960, 42961); (42963, 42963); (42965, 42969);
    (42997, 42998); (43000, 43002); (43824, 43866); (43868, 43880); (43888, 43967);
    (64256, 64262); (64275, 64279); (65313, 65338); (65345, 65370); (66560, 66639);
    (66736, 66771); (66776, 66811); (66928, 66938); (66940, 66954); (66956, 66962);
    (66964, 66965); (66967, 66977); (66979, 66993); (66995, 67001); (67003, 67004);
    (67456, 67456); (67459, 67461); (67463, 67504); (67506, 67514); (68736, 68786);
    (68800, 68850); (71840, 71903); (93760, 93823); (119808, 119892); (119894, 119964);
    (119966, 119967); (119970, 119970); (119973, 119974); (119977, 119980); (119982, 119993);
    (119995, 119995); (119997, 120003); (120005, 120069); (120071, 120074); (120077, 120084);
    (120086, 120092); (120094, 120121); (120123, 120126); (120128, 120132); (120134, 120134);
    (120138, 120144); (120146, 120485); (120488, 120512); (120514, 120538); (120540, 120570);
    (120572, 120596); (120598, 120628); (120630, 120654); (120656, 120686); (120688, 120712);
    (120714, 120744); (120746, 120770); (120772, 120779); (122624, 122633); (122635, 122654);
    (125184, 125251); (127280, 127305); (127312, 127337); (127344, 127369) ]%N.

(** the property Case_Ignorable, as inclusive ranges *)
Definition case_ignorable_ranges : list (N * N) :=
  [ (39, 39); (46, 46); (58, 58); (94, 94); (96, 96); (168, 168); (173, 173); (175, 175);
    (180, 180); (183, 184); (688, 879); (884, 885); (890, 890); (900, 901); (903, 903);
    (1155, 1161); (1369, 1369); (1375, 1375); (1425, 1469); (1471, 1471); (1473, 1474);
    (1476, 1477); (1479, 1479); (1524, 1524); (1536, 1541); (1552, 1562); (1564, 1564);
    (1600, 1600); (1611, 1631); (1648, 1648); (1750, 1757); (1759, 1768); (1770, 1773);
    (1807, 1807); (1809, 1809); (1840, 1866); (1958, 1968); (2027, 2037); (2042, 2042);
    (2045, 2045); (2070, 2093); (2137, 2139); (2184, 2184); (2192, 2193); (2200, 2207);
    (2249, 2306); (2362, 2362); (2364, 2364); (2369, 2376); (2381, 2381); (2385, 2391);
    (2402, 2403); (2417, 2417); (2433, 2433); (2492, 2492); (2497, 2500); (2509, 2509);
    (2530, 2531); (2558, 2558); (2561, 2562); (2620, 2620); (2625, 2626); (2631, 2632);
    (2635, 2637); (2641, 2641); (2672, 2673); (2677, 2677); (2689, 2690); (2748, 2748);
    (2753, 2757); (2759, 2760); (2765, 2765); (2786, 2787); (2810, 2815); (2817, 2817);
    (2876, 2876); (2879, 2879); (2881, 2884); (2893, 2893); (2901, 2902); (2914, 2915);
    (2946, 2946); (3008, 3008); (3021, 3021); (3072, 3072); (3076, 3076); (3132, 3132);
    (3134, 3136); (3142, 3144); (3146, 3149); (3157, 3158); (3170, 3171); (3201, 3201);
    (3260, 3260); (3263, 3263); (3270, 3270); (3276, 3277); (3298, 3299); (3328, 3329);
    (3387, 3388); (3393, 3396); (3405, 3405); (3426, 3427); (3457, 3457); (3530, 3530);
    (3538, 3540); (3542, 3542); (3633, 3633); (3636, 3642); (3654, 3662); (3761, 3761);
    (3764, 3772); (3782, 3782); (3784, 3789); (3864, 3865); (3893, 3893); (3895, 3895);
    (3897, 3897); (3953, 3966); (3968, 3972); (3974, 3975); (3981, 3991); (3993, 4028);
    (4038, 4038); (4141, 4144); (4146, 4151); (4153, 4154); (4157, 4158); (4184, 4185);
    (4190, 4192); (4209, 4212); (4226, 4226); (4229, 4230); (4237, 4237); (4253, 4253);
    (4348, 4348); (4957, 4959); (5906, 5908); (5938, 5939); (5970, 5971); (6002, 6003);
    (6068, 6069); (6071, 6077); (6086, 6086); (6089, 6099); (6103, 6103); (6109, 6109);
    (6155, 6159); (6211, 6211); (6277, 6278); (6313, 6313); (6432, 6434); (6439, 6440);
    (6450, 6450); (6457, 6459); (6679, 6680); (6683, 6683); (6742, 6742); (6744, 6750);
    (6752, 6752); (6754, 6754); (6757, 6764); (6771, 6780); (6783, 6783); (6823, 6823);
    (6832, 6862); (6912, 6915); (6964, 6964); (6966, 6970); (6972, 6972); (6978, 6978);
    (7019, 7027); (7040, 7041); (7074, 7077); (7080, 7081); (7083, 7085); (7142, 7142);
    (7144, 7145); (7149, 7149); (7151, 7153); (7212, 7219); (7222, 7223); (7288, 7293);
    (7376, 7378); (7380, 7392); (7394, 7400); (7405, 7405); (7412, 7412); (7416, 7417);
    (7468, 7530); (7544, 7544); (7579, 7679); (8125, 8125); (8127, 8129); (8141, 8143);
    (8157, 8159); (8173, 8175); (8189, 8190); (8203, 8207); (8216, 8217); (8228, 8228);
    (8231, 8231); (8234, 8238); (8288, 8292); (8294, 8303); (8305, 8305); (8319, 8319);
    (8336, 8348); (8400, 8432); (11388, 11389); (11503, 11505); (11631, 11631); (11647, 11647);
    (11744, 11775); (11823, 11823); (12293, 12293); (12330, 12333); (12337, 12341);
    (12347, 12347); (12441, 12446); (12540, 12542); (40981, 40981); (42232, 42237);
    (42508, 42508); (42607, 42610); (42612, 42621); (42623, 42623); (42652, 42655);
    (42736, 42737); (42752, 42785); (42864, 42864); (42888, 42890); (42994, 42996);
    (43000, 43001); (43010, 43010); (43014, 43014); (43019, 43019); (43045, 43046);
    (43052, 43052); (43204, 43205); (43232, 43249); (43263, 43263); (43302, 43309);
    (43335, 43345); (43392, 43394); (43443, 43443); (43446, 43449); (43452, 43453);
    (43471, 43471); (43493, 43494); (43561, 43566); (43569, 43570); (43573, 43574);
    (43587, 43587); (43596, 43596); (43632, 43632); (43644, 43644); (43696, 43696);
    (43698, 43700); (43703, 43704); (43710, 43711); (43713, 43713); (43741, 43741);
    (43756, 43757); (43763, 43764); (43766, 43766); (43867, 43871); (43881, 43883);
    (44005, 44005); (44008, 44008); (44013, 44013); (64286, 64286); (64434, 64450);
    (65024, 65039); (65043, 65043); (65056, 65071); (65106, 65106); (65109, 65109);
    (65279, 65279); (65287, 65287); (65294, 65294); (65306, 65306); (65342, 65342);
    (65344, 65344); (65392, 65392); (65438, 65439); (65507, 65507); (65529, 65531);
    (66045, 66045); (66272, 66272); (66422, 66426); (67456, 67461); (67463, 67504);
    (67506, 67514); (68097, 68099); (68101, 68102); (68108, 68111); (68152, 68154);
    (68159, 68159); (68325, 68326); (68900, 68903); (69291, 69292); (69446, 69456);
    (69506, 69509); (69633, 69633); (69688, 69702); (69744, 69744); (69747, 69748);
    (69759, 69761); (69811, 69814); (69817, 69818); (69821, 69821); (69826, 69826);
    (69837, 69837); (69888, 69890); (69927, 69931); (69933, 69940); (70003, 70003);
    (70016, 70017); (70070, 70078); (70089, 70092); (70095, 70095); (70191, 70193);
    (70196, 70196); (70198, 70199); (70206, 70206); (70367, 70367); (70371, 70378);
    (70400, 70401); (70459, 70460); (70464, 70464); (70502, 70508); (70512, 70516);
    (70712, 70719); (70722, 70724); (70726, 70726); (70750, 70750); (70835, 70840);
    (70842, 70842); (70847, 70848); (70850, 70851); (71090, 71093); (71100, 71101);
    (71103, 71104); (71132, 71133); (71219, 71226); (71229, 71229); (71231, 71232);
    (71339, 71339); (71341, 71341); (71344, 71349); (71351, 71351); (71453, 71455);
    (71458, 71461); (71463, 71467); (71727, 71735); (71737, 71738); (71995, 71996);
    (71998, 71998); (72003, 72003); (72148, 72151); (72154, 72155); (72160, 72160);
    (72193, 72202); (72243, 72248); (72251, 72254); (72263, 72263); (72273, 72278);
    (72281, 72283); (72330, 72342); (72344, 72345); (72752, 72758); (72760, 72765);
    (72767, 72767); (72850, 72871); (72874, 72880); (72882, 72883); (72885, 72886);
    (73009, 73014); (73018, 73018); (73020, 73021); (73023, 73029); (73031, 73031);
    (73104, 73105); (73109, 73109); (73111, 73111); (73459, 73460); (78896, 78904);
    (92912, 92916); (92976, 92982); (92992, 92995); (94031, 94031); (94095, 94111);
    (94176, 94177); (94179, 94180); (110576, 110579); (110581, 110587); (110589, 110590);
    (113821, 113822); (113824, 113827); (118528, 118573); (118576, 118598); (119143, 119145);
    (119155, 119170); (119173, 119179); (119210, 119213); (119362, 119364); (121344, 121398);
    (121403, 121452); (121461, 121461); (121476, 121476); (121499, 121503); (121505, 121519);
    (122880, 122886); (122888, 122904); (122907, 122913); (122915, 122916); (122918, 122922);
    (123184, 123197); (123566, 123566); (123628, 123631); (125136, 125142); (125252, 125259);
    (127995, 127999); (917505, 917505); (917536, 917631); (917760, 917999) ]%N.

(** The lowercase mapping, for every code point whose lowercase is another
    single code point: the code point and its image. *)
Definition simple_lowercase : list (N * N) :=
  [ (65, 97); (66, 98); (67, 99); (68, 100); (69, 101); (70, 102); (71, 103); (72, 104);
    (73, 105); (74, 106); (75, 107); (76, 108); (77, 109); (78, 110); (79, 111); (80, 112);
    (81, 113); (82, 114); (83, 115); (84, 116); (85, 117); (86, 118); (87, 119); (88, 120);
    (89, 121); (90, 122); (192, 224); (193, 225); (194, 226); (195, 227); (196, 228);
    (197, 229); (198, 230); (199, 231); (200, 232); (201, 233); (202, 234); (203, 235);
    (204, 236); (205, 237); (206, 238); (207, 239); (208, 240); (209, 241); (210, 242);
    (211, 243); (212, 244); (213, 245); (214, 246); (216, 248); (217, 249); (218, 250);
    (219, 251); (220, 252); (221, 253); (222, 254); (256, 257); (258, 259); (260, 261);
    (262, 263); (264, 265); (266, 267); (268, 269); (270, 271); (272, 273); (274, 275);
    (276, 277); (278, 279); (280, 281); (282, 283); (284, 285); (286, 287); (288, 289);
    (290, 291); (292, 293); (294, 295); (296, 297); (298, 299); (300, 301); (302, 303);
    (306, 307); (308, 309); (310, 311); (313, 314); (315, 316); (317, 318); (319, 320);
    (321, 322); (323, 324); (325, 326); (327, 328); (330, 331); (332, 333); (334, 335);
    (336, 337); (338, 339); (340, 341); (342, 343); (344, 345); (346, 347); (348, 349);
    (350, 351); (352, 353); (354, 355); (356, 357); (358, 359); (360, 361); (362, 363);
    (364, 365); (366, 367); (368, 369); (370, 371); (372, 373); (374, 375); (376, 255);
    (377, 378); (379, 380); (381, 382); (385, 595); (386, 387); (388, 389); (390, 596);
    (391, 392); (393, 598); (394, 599); (395, 396); (398, 477); (399, 601); (400, 603);
    (401, 402); (403, 608); (404, 611); (406, 617); (407, 616); (408, 409); (412, 623);
    (413, 626); (415, 629); (416, 417); (418, 419); (420, 421); (422, 640); (423, 424);
    (425, 643); (428, 429); (430, 648); (431, 432); (433, 650); (434, 651); (435, 436);
    (437, 438); (439, 658); (440, 441); (444, 445); (452, 454); (453, 454); (455, 457);
    (456, 457); (458, 460); (459, 460); (461, 462); (463, 464); (465, 466); (467, 468);
    (469, 470); (471, 472); (473, 474); (475, 476); (478, 479); (480, 481); (482, 483);
    (484, 485); (486, 487); (488, 489); (490, 491); (492, 493); (494, 495); (497, 499);
    (498, 499); (500, 501); (502, 405); (503, 447); (504, 505); (506, 507); (508, 509);
    (510, 511); (512, 513); (514, 515); (516, 517); (518, 519); (520, 521); (522, 523);
    (524, 525); (526, 527); (528, 529); (530, 531); (532, 533); (534, 535); (536, 537);
    (538, 539); (540, 541); (542, 543); (544, 414); (546, 547); (548, 549); (550, 551);
    (552, 553); (554, 555); (556, 557); (558, 559); (560, 561); (562, 563); (570, 11365);
    (571, 572); (573, 410); (574, 11366); (577, 578); (579, 384); (580, 649); (581, 652);
    (582, 583); (584, 585); (586, 587); (588, 589); (590, 591); (880, 881); (882, 883);
    (886, 887); (895, 1011); (902, 940); (904, 941); (905, 942); (906, 943); (908, 972);
    (910, 973); (911, 974); (913, 945); (914, 946); (915, 947); (916, 948); (917, 949);
    (918, 950); (919, 951); (920, 952); (921, 953); (922, 954); (923, 955); (924, 956);
    (925, 957); (926, 958); (927, 959); (928, 960); (929, 961); (931, 963); (932, 964);
    (933, 965); (934, 966); (935, 967); (936, 968); (937, 969); (938, 970); (939, 971);
    (975, 983); (984, 985); (986, 987); (988, 989); (990, 991); (992, 993); (994, 995);
    (996, 997); (998, 999); (1000, 1001); (1002, 1003); (1004, 1005); (1006, 1007);
    (1012, 952); (1015, 1016); (1017, 1010); (1018, 1019); (1021, 891); (1022, 892);
    (1023, 893); (1024, 1104); (1025, 1105); (1026, 1106); (1027, 1107); (1028, 1108);
    (1029, 1109); (1030, 1110); (1031, 1111); (1032, 1112); (1033, 1113); (1034, 1114);
    (1035, 1115); (1036, 1116); (1037, 1117); (1038, 1118); (1039, 1119); (1040, 1072);
    (1041, 1073); (1042, 1074); (1043, 1075); (1044, 1076); (1045, 1077); (1046, 1078);
    (1047, 1079); (1048, 1080); (1049, 1081); (1050, 1082); (1051, 1083); (1052, 1084);
    (1053, 1085); (1054, 1086); (1055, 1087); (1056, 1088); (1057, 1089); (1058, 1090);
    (1059, 1091); (1060, 1092); (1061, 1093); (1062, 1094); (1063, 1095); (1064, 1096);
    (1065, 1097); (1066, 1098); (1067, 1099); (1068, 1100); (1069, 1101); (1070, 1102);
    (1071, 1103); (1120, 1121); (1122, 1123); (1124, 1125); (1126, 1127); (1128, 1129);
    (1130, 1131); (1132, 1133); (1134, 1135); (1136, 1137); (1138, 1139); (1140, 1141);
    (1142, 1143); (1144, 1145); (1146, 1147); (1148, 1149); (1150, 1151); (1152, 1153);
    (1162, 1163); (1164, 1165); (1166, 1167); (1168, 1169); (1170, 1171); (1172, 1173);
    (1174, 1175); (1176, 1177); (1178, 1179); (1180, 1181); (1182, 1183); (1184, 1185);
    (1186, 1187); (1188, 1189); (1190, 1191); (1192, 1193); (1194, 1195); (1196, 1197);
    (1198, 1199); (1200, 1201); (1202, 1203); (1204, 1205); (1206, 1207); (1208, 1209);
    (1210, 1211); (1212, 1213); (1214, 1215); (1216, 1231); (1217, 1218); (1219, 1220);
    (1221, 1222); (1223, 1224); (1225, 1226); (1227, 1228); (1229, 1230); (1232, 1233);
    (1234, 1235); (1236, 1237); (1238, 1239); (1240, 1241); (1242, 1243); (1244, 1245);
    (1246, 1247); (1248, 1249); (1250, 1251); (1252, 1253); (1254, 1255); (1256, 1257);
    (1258, 1259); (1260, 1261); (1262, 1263); (1264, 1265); (1266, 1267); (1268, 1269);
    (1270, 1271); (1272, 1273); (1274, 1275); (1276, 1277); (1278, 1279); (1280, 1281);
    (1282, 1283); (1284, 1285); (1286, 1287); (1288, 1289); (1290, 1291); (1292, 1293);
    (1294, 1295); (1296, 1297); (1298, 1299); (1300, 1301); (1302, 1303); (1304, 1305);
    (1306, 1307); (1308, 1309); (1310, 1311); (1312, 1313); (1314, 1315); (1316, 1317);
    (1318, 1319); (1320, 1321); (1322, 1323); (1324, 1325); (1326, 1327); (1329, 1377);
    (1330, 1378); (1331, 1379); (1332, 1380); (1333, 1381); (1334, 1382); (1335, 1383);
    (1336, 1384); (1337, 1385); (1338, 1386); (1339, 1387); (1340, 1388); (1341, 1389);
    (1342, 1390); (1343, 1391); (1344, 1392); (1345, 1393); (1346, 1394); (1347, 1395);
    (1348, 1396); (1349, 1397); (1350, 1398); (1351, 1399); (1352, 1400); (1353, 1401);
    (1354, 1402); (1355, 1403); (1356, 1404); (1357, 1405); (1358, 1406); (1359, 1407);
    (1360, 1408); (1361, 1409); (1362, 1410); (1363, 1411); (1364, 1412); (1365, 1413);
    (1366, 1414); (4256, 11520); (4257, 11521); (4258, 11522); (4259, 11523); (4260, 11524);
    (4261, 11525); (4262, 11526); (4263, 11527); (4264, 11528); (4265, 11529); (4266, 11530);
    (4267, 11531); (4268, 11532); (4269, 11533); (4270, 11534); (4271, 11535); (4272, 11536);
    (4273, 11537); (4274, 11538); (4275, 11539); (4276, 11540); (4277, 11541); (4278, 11542);
    (4279, 11543); (4280, 11544); (4281, 11545); (4282, 11546); (4283, 11547); (4284, 11548);
    (4285, 11549); (4286, 11550); (4287, 11551); (4288, 11552); (4289, 11553); (4290, 11554);
    (4291, 11555); (4292, 11556); (4293, 11557); (4295, 11559); (4301, 11565); (5024, 43888);
    (5025, 43889); (5026, 43890); (5027, 43891); (5028, 43892); (5029, 43893); (5030, 43894);
    (5031, 43895); (5032, 43896); (5033, 43897); (5034, 43898); (5035, 43899); (5036, 43900);
    (5037, 43901); (5038, 43902); (5039, 43903); (5040, 43904); (5041, 43905); (5042, 43906);
    (5043, 43907); (5044, 43908); (5045, 43909); (5046, 43910); (5047, 43911); (5048, 43912);
    (5049, 43913); (5050, 43914); (5051, 43915); (5052, 43916); (5053, 43917); (5054, 43918);
    (5055, 43919); (5056, 43920); (5057, 43921); (5058, 43922); (5059, 43923); (5060, 43924);
    (5061, 43925); (5062, 43926); (5063, 43927); (5064, 43928); (5065, 43929); (5066, 43930);
    (5067, 43931); (5068, 43932); (5069, 43933); (5070, 43934); (5071, 43935); (5072, 43936);
    (5073, 43937); (5074, 43938); (5075, 43939); (5076, 43940); (5077, 43941); (5078, 43942);
    (5079, 43943); (5080, 43944); (5081, 43945); (5082, 43946); (5083, 43947); (5084, 43948);
    (5085, 43949); (5086, 43950); (5087, 43951); (5088, 43952); (5089, 43953); (5090, 43954);
    (5091, 43955); (5092, 43956); (5093, 43957); (5094, 43958); (5095, 43959); (5096, 43960);
    (5097, 43961); (5098, 43962); (5099, 43963); (5100, 43964); (5101, 43965); (5102, 43966);
    (5103, 43967); (5104, 5112); (5105, 5113); (5106, 5114); (5107, 5115); (5108, 5116);
    (5109, 5117); (7312, 4304); (7313, 4305); (7314, 4306); (7315, 4307); (7316, 4308);
    (7317, 4309); (7318, 4310); (7319, 4311); (7320, 4312); (7321, 4313); (7322, 4314);
    (7323, 4315); (7324, 4316); (7325, 4317); (7326, 4318); (7327, 4319); (7328, 4320);
    (7329, 4321); (7330, 4322); (7331, 4323); (7332, 4324); (7333, 4325); (7334, 4326);
    (7335, 4327); (7336, 4328); (7337, 4329); (7338, 4330); (7339, 4331); (7340, 4332);
    (7341, 4333); (7342, 4334); (7343, 4335); (7344, 4336); (7345, 4337); (7346, 4338);
    (7347, 4339); (7348, 4340); (7349, 4341); (7350, 4342); (7351, 4343); (7352, 4344);
    (7353, 4345); (7354, 4346); (7357, 4349); (7358, 4350); (7359, 4351); (7680, 7681);
    (7682, 7683); (7684, 7685); (7686, 7687); (7688, 7689); (7690, 7691); (7692, 7693);
    (7694, 7695); (7696, 7697); (7698, 7699); (7700, 7701); (7702, 7703); (7704, 7705);
    (7706, 7707); (7708, 7709); (7710, 7711); (7712, 7713); (7714, 7715); (7716, 7717);
    (7718, 7719); (7720, 7721); (7722, 7723); (7724, 7725); (7726, 7727); (7728, 7729);
    (7730, 7731); (7732, 7733); (7734, 7735); (7736, 7737); (7738, 7739); (7740, 7741);
    (7742, 7743); (7744, 7745); (7746, 7747); (7748, 7749); (7750, 7751); (7752, 7753);
    (7754, 7755); (7756, 7757); (7758, 7759); (7760, 7761); (7762, 7763); (7764, 7765);
    (7766, 7767); (7768, 7769); (7770, 7771); (7772, 7773); (7774, 7775); (7776, 7777);
    (7778, 7779); (7780, 7781); (7782, 7783); (7784, 7785); (7786, 7787); (7788, 7789);
    (7790, 7791); (7792, 7793); (7794, 7795); (7796, 7797); (7798, 7799); (7800, 7801);
    (7802, 7803); (7804, 7805); (7806, 7807); (7808, 7809); (7810, 7811); (7812, 7813);
    (7814, 7815); (7816, 7817); (7818, 7819); (7820, 7821); (7822, 7823); (7824, 7825);
    (7826, 7827); (7828, 7829); (7838, 223); (7840, 7841); (7842, 7843); (7844, 7845);
    (7846, 7847); (7848, 7849); (7850, 7851); (7852, 7853); (7854, 7855); (7856, 7857);
    (7858, 7859); (7860, 7861); (7862, 7863); (7864, 7865); (7866, 7867); (7868, 7869);
    (7870, 7871); (7872, 7873); (7874, 7875); (7876, 7877); (7878, 7879); (7880, 7881);
    (7882, 7883); (7884, 7885); (7886, 7887); (7888, 7889); (7890, 7891); (7892, 7893);
    (7894, 7895); (7896, 7897); (7898, 7899); (7900, 7901); (7902, 7903); (7904, 7905);
    (7906, 7907); (7908, 7909); (7910, 7911); (7912, 7913); (7914, 7915); (7916, 7917);
    (7918, 7919); (7920, 7921); (7922, 7923); (7924, 7925); (7926, 7927); (7928, 7929);
    (7930, 7931); (7932, 7933); (7934, 7935); (7944, 7936); (7945, 7937); (7946, 7938);
    (7947, 7939); (7948, 7940); (7949, 7941); (7950, 7942); (7951, 7943); (7960, 7952);
    (7961, 7953); (7962, 7954); (7963, 7955); (7964, 7956); (7965, 7957); (7976, 7968);
    (7977, 7969); (7978, 7970); (7979, 7971); (7980, 7972); (7981, 7973); (7982, 7974);
    (7983, 7975); (7992, 7984); (7993, 7985); (7994, 7986); (7995, 7987); (7996, 7988);
    (7997, 7989); (7998, 7990); (7999, 7991); (8008, 8000); (8009, 8001); (8010, 8002);
    (8011, 8003); (8012, 8004); (8013, 8005); (8025, 8017); (8027, 8019); (8029, 8021);
    (8031, 8023); (8040, 8032); (8041, 8033); (8042, 8034); (8043, 8035); (8044, 8036);
    (8045, 8037); (8046, 8038); (8047, 8039); (8072, 8064); (8073, 8065); (8074, 8066);
    (8075, 8067); (8076, 8068); (8077, 8069); (8078, 8070); (8079, 8071); (8088, 8080);
    (8089, 8081); (8090, 8082); (8091, 8083); (8092, 8084); (8093, 8085); (8094, 8086);
    (8095, 8087); (8104, 8096); (8105, 8097); (8106, 8098); (8107, 8099); (8108, 8100);
    (8109, 8101); (8110, 8102); (8111, 8103); (8120, 8112); (8121, 8113); (8122, 8048);
    (8123, 8049); (8124, 8115); (8136, 8050); (8137, 8051); (8138, 8052); (8139, 8053);
    (8140, 8131); (8152, 8144); (8153, 8145); (8154, 8054); (8155, 8055); (8168, 8160);
    (8169, 8161); (8170, 8058); (8171, 8059); (8172, 8165); (8184, 8056); (8185, 8057);
    (8186, 8060); (8187, 8061); (8188, 8179); (8486, 969); (8490, 107); (8491, 229);
    (8498, 8526); (8544, 8560); (8545, 8561); (8546, 8562); (8547, 8563); (8548, 8564);
    (8549, 8565); (8550, 8566); (8551, 8567); (8552, 8568); (8553, 8569); (8554, 8570);
    (8555, 8571); (8556, 8572); (8557, 8573); (8558, 8574); (8559, 8575); (8579, 8580);
    (9398, 9424); (9399, 9425); (9400, 9426); (9401, 9427); (9402, 9428); (9403, 9429);
    (9404, 9430); (9405, 9431); (9406, 9432); (9407, 9433); (9408, 9434); (9409, 9435);
    (9410, 9436); (9411, 9437); (9412, 9438); (9413, 9439); (9414, 9440); (9415, 9441);
    (9416, 9442); (9417, 9443); (9418, 9444); (9419, 9445); (9420, 9446); (9421, 9447);
    (9422, 9448); (9423, 9449); (11264, 11312); (11265, 11313); (11266, 11314); (11267, 11315);
    (11268, 11316); (11269, 11317); (11270, 11318); (11271, 11319); (11272, 11320);
    (11273, 11321); (11274, 11322); (11275, 11323); (11276, 11324); (11277, 11325);
    (11278, 11326); (11279, 11327); (11280, 11328); (11281, 11329); (11282, 11330);
    (11283, 11331); (11284, 11332); (11285, 11333); (11286, 11334); (11287, 11335);
    (11288, 11336); (11289, 11337); (11290, 11338); (11291, 11339); (11292, 11340);
    (11293, 11341); (11294, 11342); (11295, 11343); (11296, 11344); (11297, 11345);
    (11298, 11346); (11299, 11347); (11300, 11348); (11301, 11349); (11302, 11350);
    (11303, 11351); (11304, 11352); (11305, 11353); (11306, 11354); (11307, 11355);
    (11308, 11356); (11309, 11357); (11310, 11358); (11311, 11359); (11360, 11361);
    (11362, 619); (11363, 7549); (11364, 637); (11367, 11368); (11369, 11370); (11371, 11372);
    (11373, 593); (11374, 625); (11375, 592); (11376, 594); (11378, 11379); (11381, 11382);
    (11390, 575); (11391, 576); (11392, 11393); (11394, 11395); (11396, 11397); (11398, 11399);
    (11400, 11401); (11402, 11403); (11404, 11405); (11406, 11407); (11408, 11409);
    (11410, 11411); (11412, 11413); (11414, 11415); (11416, 11417); (11418, 11419);
    (11420, 11421); (11422, 11423); (11424, 11425); (11426, 11427); (11428, 11429);
    (11430, 11431); (11432, 11433); (11434, 11435); (11436, 11437); (11438, 11439);
    (11440, 11441); (11442, 11443); (11444, 11445); (11446, 11447); (11448, 11449);
    (11450, 11451); (11452, 11453); (11454, 11455); (11456, 11457); (11458, 11459);
    (11460, 11461); (11462, 11463); (11464, 11465); (11466, 11467); (11468, 11469);
    (11470, 11471); (11472, 11473); (11474, 11475); (11476, 11477); (11478, 11479);
    (11480, 11481); (11482, 11483); (11484, 11485); (11486, 11487); (11488, 11489);
    (11490, 11491); (11499, 11500); (11501, 11502); (11506, 11507); (42560, 42561);
    (42562, 42563); (42564, 42565); (42566, 42567); (42568, 42569); (42570, 42571);
    (42572, 42573); (42574, 42575); (42576, 42577); (42578, 42579); (42580, 42581);
    (42582, 42583); (42584, 42585); (42586, 42587); (42588, 42589); (42590, 42591);
    (42592, 42593); (42594, 42595); (42596, 42597); (42598, 42599); (42600, 42601);
    (42602, 42603); (42604, 42605); (42624, 42625); (42626, 42627); (42628, 42629);
    (42630, 42631); (42632, 42633); (42634, 42635); (42636, 42637); (42638, 42639);
    (42640, 42641); (42642, 42643); (42644, 42645); (42646, 42647); (42648, 42649);
    (42650, 42651); (42786, 42787); (42788, 42789); (42790, 42791); (42792, 42793);
    (42794, 42795); (42796, 42797); (42798, 42799); (42802, 42803); (42804, 42805);
    (42806, 42807); (42808, 42809); (42810, 42811); (42812, 42813); (42814, 42815);
    (42816, 42817); (42818, 42819); (42820, 42821); (42822, 42823); (42824, 42825);
    (42826, 42827); (42828, 42829); (42830, 42831); (42832, 42833); (42834, 42835);
    (42836, 42837); (42838, 42839); (42840, 42841); (42842, 42843); (42844, 42845);
    (42846, 42847); (42848, 42849); (42850, 42851); (42852, 42853); (42854, 42855);
    (42856, 42857); (42858, 42859); (42860, 42861); (42862, 42863); (42873, 42874);
    (42875, 42876); (42877, 7545); (42878, 42879); (42880, 42881); (42882, 42883);
    (42884, 42885); (42886, 42887); (42891, 42892); (42893, 613); (42896, 42897);
    (42898, 42899); (42902, 42903); (42904, 42905); (42906, 42907); (42908, 42909);
    (42910, 42911); (42912, 42913); (42914, 42915); (42916, 42917); (42918, 42919);
    (42920, 42921); (42922, 614); (42923, 604); (42924, 609); (42925, 620); (42926, 618);
    (42928, 670); (42929, 647); (42930, 669); (42931, 43859); (42932, 42933); (42934, 42935);
    (42936, 42937); (42938, 42939); (42940, 42941); (42942, 42943); (42944, 42945);
    (42946, 42947); (42948, 42900); (42949, 642); (42950, 7566); (42951, 42952);
    (42953, 42954); (42960, 42961); (42966, 42967); (42968, 42969); (42997, 42998);
    (65313, 65345); (65314, 65346); (65315, 65347); (65316, 65348); (65317, 65349);
    (65318, 65350); (65319, 65351); (65320, 65352); (65321, 65353); (65322, 65354);
    (65323, 65355); (65324, 65356); (65325, 65357); (65326, 65358); (65327, 65359);
    (65328, 65360); (65329, 65361); (65330, 65362); (65331, 65363); (65332, 65364);
    (65333, 65365); (65334, 65366); (65335, 65367); (65336, 65368); (65337, 65369);
    (65338, 65370); (66560, 66600); (66561, 66601); (66562, 66602); (66563, 66603);
    (66564, 66604); (66565, 66605); (66566, 66606); (66567, 66607); (66568, 66608);
    (66569, 66609); (66570, 66610); (66571, 66611); (66572, 66612); (66573, 66613);
    (66574, 66614); (66575, 66615); (66576, 66616); (66577, 66617); (66578, 66618);
    (66579, 66619); (66580, 66620); (66581, 66621); (66582, 66622); (66583, 66623);
    (66584, 66624); (66585, 66625); (66586, 66626); (66587, 66627); (66588, 66628);
    (66589, 66629); (66590, 66630); (66591, 66631); (66592, 66632); (66593, 66633);
    (66594, 66634); (66595, 66635); (66596, 66636); (66597, 66637); (66598, 66638);
    (66599, 66639); (66736, 66776); (66737, 66777); (66738, 66778); (66739, 66779);
    (66740, 66780); (66741, 66781); (66742, 66782); (66743, 66783); (66744, 66784);
    (66745, 66785); (66746, 66786); (66747, 66787); (66748, 66788); (66749, 66789);
    (66750, 66790); (66751, 66791); (66752, 66792); (66753, 66793); (66754, 66794);
    (66755, 66795); (66756, 66796); (66757, 66797); (66758, 66798); (66759, 66799);
    (66760, 66800); (66761, 66801); (66762, 66802); (66763, 66803); (66764, 66804);
    (66765, 66805); (66766, 66806); (66767, 66807); (66768, 66808); (66769, 66809);
    (66770, 66810); (66771, 66811); (66928, 66967); (66929, 66968); (66930, 66969);
    (66931, 66970); (66932, 66971); (66933, 66972); (66934, 66973); (66935, 66974);
    (66936, 66975); (66937, 66976); (66938, 66977); (66940, 66979); (66941, 66980);
    (66942, 66981); (66943, 66982); (66944, 66983); (66945, 66984); (66946, 66985);
    (66947, 66986); (66948, 66987); (66949, 66988); (66950, 66989); (66951, 66990);
    (66952, 66991); (66953, 66992); (66954, 66993); (66956, 66995); (66957, 66996);
    (66958, 66997); (66959, 66998); (66960, 66999); (66961, 67000); (66962, 67001);
    (66964, 67003); (66965, 67004); (68736, 68800); (68737, 68801); (68738, 68802);
    (68739, 68803); (68740, 68804); (68741, 68805); (68742, 68806); (68743, 68807);
    (68744, 68808); (68745, 68809); (68746, 68810); (68747, 68811); (68748, 68812);
    (68749, 68813); (68750, 68814); (68751, 68815); (68752, 68816); (68753, 68817);
    (68754, 68818); (68755, 68819); (68756, 68820); (68757, 68821); (68758, 68822);
    (68759, 68823); (68760, 68824); (68761, 68825); (68762, 68826); (68763, 68827);
    (68764, 68828); (68765, 68829); (68766, 68830); (68767, 68831); (68768, 68832);
    (68769, 68833); (68770, 68834); (68771, 68835); (68772, 68836); (68773, 68837);
    (68774, 68838); (68775, 68839); (68776, 68840); (68777, 68841); (68778, 68842);
    (68779, 68843); (68780, 68844); (68781, 68845); (68782, 68846); (68783, 68847);
    (68784, 68848); (68785, 68849); (68786, 68850); (71840, 71872); (71841, 71873);
    (71842, 71874); (71843, 71875); (71844, 71876); (71845, 71877); (71846, 71878);
    (71847, 71879); (71848, 71880); (71849, 71881); (71850, 71882); (71851, 71883);
    (71852, 71884); (71853, 71885); (71854, 71886); (71855, 71887); (71856, 71888);
    (71857, 71889); (71858, 71890); (71859, 71891); (71860, 71892); (71861, 71893);
    (71862, 71894); (71863, 71895); (71864, 71896); (71865, 71897); (71866, 71898);
    (71867, 71899); (71868, 71900); (71869, 71901); (71870, 71902); (71871, 71903);
    (93760, 93792); (93761, 93793); (93762, 93794); (93763, 93795); (93764, 93796);
    (93765, 93797); (93766, 93798); (93767, 93799); (93768, 93800); (93769, 93801);
    (93770, 93802); (93771, 93803); (93772, 93804); (93773, 93805); (93774, 93806);
    (93775, 93807); (93776, 93808); (93777, 93809); (93778, 93810); (93779, 93811);
    (93780, 93812); (93781, 93813); (93782, 93814); (93783, 93815); (93784, 93816);
    (93785, 93817); (93786, 93818); (93787, 93819); (93788, 93820); (93789, 93821);
    (93790, 93822); (93791, 93823); (125184, 125218); (125185, 125219); (125186, 125220);
    (125187, 125221); (125188, 125222); (125189, 125223); (125190, 125224); (125191, 125225);
    (125192, 125226); (125193, 125227); (125194, 125228); (125195, 125229); (125196, 125230);
    (125197, 125231); (125198, 125232); (125199, 125233); (125200, 125234); (125201, 125235);
    (125202, 125236); (125203, 125237); (125204, 125238); (125205, 125239); (125206, 125240);
    (125207, 125241); (125208, 125242); (125209, 125243); (125210, 125244); (125211, 125245);
    (125212, 125246); (125213, 125247); (125214, 125248); (125215, 125249); (125216, 125250);
    (125217, 125251) ]%N.

Definition isalnum (c : N) : bool := in_ranges alnum_ranges c.

(** the class [\w] of [re] on a [str]: alphanumeric, or the underscore *)
Definition is_word (c : N) : bool := isalnum c || (c =? 95)%N.

Definition cased (c : N) : bool := in_ranges cased_ranges c.

Definition case_ignorable (c : N) : bool := in_ranges case_ignorable_ranges c.

Fixpoint assoc (c : N) (table : list (N * N)) : option N :=
  match table with
  | [] => None
  | (k, v) :: rest => if (k =? c)%N then Some v else assoc c rest
  end.

(** The full lowercase mapping of one code point: U+0130 is the only code
    point whose lowercase has two code points. *)
Definition tolower_full (c : N) : str :=
  if (c =? 304)%N then [105; 775]%N
  else [default c (assoc c simple_lowercase)].

Fixpoint skip_case_ignorable (s : str) : str :=
  match s with
  | [] => []
  | c :: rest => if case_ignorable c then skip_case_ignorable rest else s
  end.

(** The capital sigma U+03A3 becomes the final sigma U+03C2 when a cased
    letter precedes it and none follows it, case-ignorable characters being
    skipped on both sides; the small sigma U+03C3 otherwise.  [before] holds
    the preceding code points, the nearest first. *)
Definition final_sigma (before after : str) : bool :=
  match skip_case_ignorable before with
  | c :: _ => cased c
  | [] => false
  end
  && match skip_case_ignorable after with
     | c :: _ => negb (cased c)
     | [] => true
     end.

Fixpoint lower_from (before s : str) : str :=
  match s with
  | [] => []
  | c :: rest =>
      (if (c =? 931)%N then [if final_sigma before rest then 962 else 963]%N
       else tolower_full c)
      ++ lower_from (c :: before) rest
  end.

(** [s.lower()] *)
Definition lower (s : str) : str := lower_from [] s.

(** [s.startswith(p)] *)
Fixpoint startswith (p s : str) : bool :=
  match p, s with
  | [], _ => true
  | a :: p', b :: s' => (a =? b)%N && startswith p' s'
  | _ :: _, [] => false
  end.

(** [sub in s] *)
Fixpoint contains (sub s : str) : bool :=
  startswith sub s ||
  match s with
  | [] => false
  | _ :: s' => contains sub s'
  end.

(** [s.rstrip(c)] for a one-character set *)
Fixpoint rstrip (c : N) (s : str) : str :=
  match s with
  | [] => []
  | a :: s' =>
      match rstrip c s' with
      | [] => if (a =? c)%N then [] else [a]
      | r => a :: r
      end
  end.

(** [s.split(c)] for a one-character separator: never the empty list. *)
Fixpoint split (c : N) (s : str) : list str :=
  match s with
  | [] => [[]]
  | a :: s' =>
      if (a =? c)%N then [] :: split c s'
      else match split c s' with
           | h :: t => (a :: h) :: t
           | [] => [[a]]
           end
  end.

End Unicode.

(** ** UTF-8 *)

Module Utf8.

(** U+FFFD, which stands for a group of bytes that is not UTF-8 *)
Definition replacement : N := 65533%N.

Definition is_continuation (b : N) : bool := (128 <=? b)%N && (b <=? 191)%N.

(** The second byte after the lead byte [b0]: a continuation byte that gives
    neither an overlong form, nor a surrogate, nor a code point above
    U+10FFFF. *)
Definition second_byte_ok (b0 b1 : N) : bool :=
  is_continuation b1
  && negb ((b0 =? 224)%N && (b1 <? 160)%N)
  && negb ((b0 =? 237)%N && (160 <=? b1)%N)
  && negb ((b0 =? 240)%N && (b1 <? 144)%N)
  && negb ((b0 =? 244)%N && (144 <=? b1)%N).

(** [bytes.decode('utf-8', 'replace')].  A lead byte is 194 to 244; a
    sequence that breaks off, by a wrong byte or by the end of the text, is
    replaced as a whole by U+FFFD and decoding goes on at the byte that broke
    it. *)
Fixpoint decode (s : string) : Unicode.str :=
  match s with
  | EmptyString => []
  | String c0 s1 =>
      let b0 := N_of_ascii c0 in
      if (b0 <? 128)%N then b0 :: decode s1
      else if (b0 <? 194)%N || (244 <? b0)%N then replacement :: decode s1
      else
        match s1 with
        | EmptyString => [replacement]
        | String c1 s2 =>
            let b1 := N_of_ascii c1 in
            if negb (second_byte_ok b0 b1) then replacement :: decode s1
            else if (b0 <? 224)%N then ((b0 - 192) * 64 + (b1 - 128))%N :: decode s2
            else
              match s2 with
              | EmptyString => [replacement]
              | String c2 s3 =>
                  let b2 := N_of_ascii c2 in
                  if negb (is_continuation b2) then replacement :: decode s2
                  else if (b0 <? 240)%N
                  then ((b0 - 224) * 4096 + (b1 - 128) * 64 + (b2 - 128))%N :: decode s3
                  else
                    match s3 with
                    | EmptyString => [replacement]
                    | String c3 s4 =>
                        let b3 := N_of_ascii c3 in
                        if negb (is_continuation b3) then replacement :: decode s3
                        else ((b0 - 240) * 262144 + (b1 - 128) * 4096
                              + (b2 - 128) * 64 + (b3 - 128))%N :: decode s4
                    end
              end
        end
  end.

(** [str.encode('utf-8')] of one code point: one byte below 128, else a lead
    byte and one to three continuation bytes of six bits each; the lead byte
    of the longest form carries three bits (a code point is at most
    U+10FFFF). *)
Definition encode_point (c : N) : string :=
  if (c <? 128)%N then String (ascii_of_N c) ""
  else if (c <? 2048)%N then
    String (ascii_of_N (192 + c / 64)) (String (ascii_of_N (128 + c mod 64)) "")
  else if (c <? 65536)%N then
    String (ascii_of_N (224 + c / 4096))
      (String (ascii_of_N (128 + (c / 64) mod 64))
         (String (ascii_of_N (128 + c mod 64)) ""))
  else
    String (ascii_of_N (240 + (c / 262144) mod 8))
      (String (ascii_of_N (128 + (c / 4096) mod 64))
         (String (ascii_of_N (128 + (c / 64) mod 64))
            (String (ascii_of_N (128 + c mod 64)) ""))).

(** [s.encode('utf-8')]: the bytes a table holds for the text *)
Definition encode (s : Unicode.str) : string :=
  foldr (λ c rest, encode_point c +:+ rest) "" s.

End Utf8.

(** ** [urllib.parse] *)

Module Urllib.

Definition hex_digit (c : ascii) : option nat :=
  let n := nat_of_ascii c in
  if PyStr.in_range 48 57 c then Some (n - 48)
  else if PyStr.in_range 97 102 c then Some (n - 87)
  else if PyStr.in_range 65 70 c then Some (n - 55)
  else None.

(** [unquote_to_bytes]: [%XY] with two hexadecimal digits becomes the byte of
    that value; any other [%] is kept. *)
Fixpoint unquote_to_bytes (s : string) : string :=
  match s with
  | EmptyString => EmptyString
  | String c rest =>
      if decide (c = "%"%char) then
        match rest with
        | String h (String l rest') =>
            match hex_digit h, hex_digit l with
            | Some a, Some b => String (ascii_of_nat (16 * a + b)) (unquote_to_bytes rest')
            | _, _ => String c (unquote_to_bytes rest)
            end
        | _ => String c (unquote_to_bytes rest)
        end
      else String c (unquote_to_bytes rest)
  end.

(** [unquote(s)] on an ASCII [s]: the bytes are decoded as UTF-8, with
    [errors='replace']. *)
Definition unquote (s : string) : Unicode.str := Utf8.decode (unquote_to_bytes s).

End Urllib.

(** ** The public-suffix parser

    [tldextract] is a third-party package.  [URLPreprocessor] is embedded
    over an arbitrary parser [string → ExtractResult]; the general properties
    below hold for every such parser.  [TldExtract.extract_str] is the
    package's published algorithm: drop the scheme, keep the host, split it
    on dots and take the longest tail of labels that is a public suffix.  The
    suffix rules are a parameter, a test on the lowercased labels of a tail
    (wildcard rules, exceptions and punycode are part of that test).  The
    model leaves out IP literals, which the package returns whole when the
    host has no public suffix.  [TldExtract.extract] reads the rules from the
    excerpt [public_suffix_list]. *)

Module TldExtract.

Record ExtractResult : Type := mkExtract {
  subdomain : string;
  domain : string;
  suffix : string
}.

Definition is_scheme_char (c : ascii) : bool :=
  PyStr.is_alnum c || bool_decide (c = "+"%char) ||
  bool_decide (c = "-"%char) || bool_decide (c = "."%char).

Definition schemeless_url (url : string) : string :=
  match PyStr.find "//" url with
  | None => url
  | Some 0 => PyStr.drop 2 url
  | Some 1 => url
  | Some (S (S k) as i) =>
      if PyStr.startswith ":" (PyStr.drop (S k) url)
         && PyStr.forallb is_scheme_char (PyStr.take (S k) url)
      then PyStr.drop (i + 2) url
      else url
  end.

(** The host of the URL: what follows the user information, up to the port;
    a bracketed host is kept with its brackets. *)
Definition lenient_netloc (url : string) : string :=
  let after_userinfo :=
    PyStr.after_last "@"
      (PyStr.before "#" (PyStr.before "?" (PyStr.before "/" (schemeless_url url)))) in
  if PyStr.startswith "[" after_userinfo && PyStr.contains "]" after_userinfo
  then PyStr.before "]" after_userinfo +:+ "]"
  else PyStr.rstrip "." (PyStr.strip (PyStr.before ":" after_userinfo)).

Section WithRules.

(** whether the labels, lowercased, make a public suffix *)
Variable public_suffix : list string → bool.

(** Index of the first label of the longest public suffix; the number of
    labels when no tail is a public suffix. *)
Fixpoint suffix_index (labels : list string) : nat :=
  match labels with
  | [] => 0
  | _ :: rest =>
      if public_suffix (PyStr.lower <$> labels) then 0 else S (suffix_index rest)
  end.

Definition extract_netloc (netloc : string) : ExtractResult :=
  let labels := PyStr.split "." netloc in
  let i := suffix_index labels in
  {| subdomain := if decide (2 ≤ i) then PyStr.join "." (take (i - 1) labels) else "";
     domain := if decide (i = 0) then "" else default "" (labels !! (i - 1));
     suffix := PyStr.join "." (drop i labels) |}.

Definition extract_str (url : string) : ExtractResult :=
  extract_netloc (lenient_netloc url).

End WithRules.

Definition public_suffix_list : list string :=
  [ "com"; "org"; "net"; "io"; "uk"; "co.uk"; "org.uk"; "in"; "co.in";
    "us"; "de"; "fr"; "site"; "business" ].

(** the rules of the excerpt *)
Definition listed_suffix (labels : list string) : bool :=
  bool_decide (PyStr.join "." labels ∈ public_suffix_list).

Definition extract : string → ExtractResult := extract_str listed_suffix.

End TldExtract.

Import TldExtract.

(** ** Python values shared by the modules *)

(** A cell: a [str], or the null value. *)
Abbreviation cell := (option string).

Inductive exn : Type :=
  | ValueError (msg : string)
  | KeyError (key : string)
  | TypeError
  | IndexError
  | FileNotFoundError (path : string)
  | OSError (path : string).

Inductive result (A : Type) : Type :=
  | Ok (a : A)
  | Raise (e : exn).
Arguments Ok {A} a.
Arguments Raise {A} e.

Global Instance result_ret : MRet result := λ A a, Ok a.
Global Instance result_bind : MBind result := λ A B f m,
  match m with
  | Ok a => f a
  | Raise e => Raise e
  end.
Global Instance result_fmap : FMap result := λ A B f m,
  match m with
  | Ok a => Ok (f a)
  | Raise e => Raise e
  end.

(** A distance: an [int], or [float('inf')]. *)
Inductive distance : Type :=
  | Finite (n : nat)
  | Inf.

(** [d < e] *)
Definition dist_ltb (d e : distance) : bool :=
  match d, e with
  | Finite a, Finite b => (a <? b)%nat
  | Finite _, Inf => true
  | Inf, _ => false
  end.

(** [polyleven.levenshtein] on two strings: the number of character
    insertions, deletions and substitutions.  The package is third-party; this
    is the defining recurrence of the edit distance. *)
Fixpoint levenshtein (a : string) : string → nat :=
  fix lev_a (b : string) : nat :=
    match a, b with
    | EmptyString, _ => String.length b
    | _, EmptyString => String.length a
    | String x a', String y b' =>
        (S (levenshtein a' b)) `min`
          ((S (lev_a b')) `min`
             (levenshtein a' b' + (if decide (x = y) then 0 else 1)))
    end.

(** The call on Python values: a [TypeError] unless both are [str]. *)
Definition py_levenshtein (a b : cell) : result nat :=
  match a, b with
  | Some x, Some y => Ok (levenshtein x y)
  | _, _ => Raise TypeError
  end.

(** ** preprocessor.py: [URLPreprocessor] *)

Module URLPreprocessor.

(** [self.country_codes] *)
Definition country_codes : gset string := list_to_set
  [ "ac"; "ad"; "ae"; "af"; "ag"; "ai"; "al"; "am"; "ao"; "aq"; "ar"; "as"; "at";
    "au"; "aw"; "ax"; "az"; "ba"; "bb"; "bd"; "be"; "bf"; "bg"; "bh"; "bi"; "bj";
    "bl"; "bm"; "bn"; "bo"; "bq"; "br"; "bs"; "bt"; "bv"; "bw"; "by"; "bz"; "ca";
    "cc"; "cd"; "cf"; "cg"; "ch"; "ci"; "ck"; "cl"; "cm"; "cn"; "co"; "cr"; "cu";
    "cv"; "cw"; "cx"; "cy"; "cz"; "de"; "dj"; "dk"; "dm"; "do"; "dz"; "ec"; "ee";
    "eg"; "eh"; "er"; "es"; "et"; "eu"; "fi"; "fj"; "fk"; "fm"; "fo"; "fr"; "ga";
    "gb"; "gd"; "ge"; "gf"; "gg"; "gh"; "gi"; "gl"; "gm"; "gn"; "gp"; "gq"; "gr";
    "gs"; "gt"; "gu"; "gw"; "gy"; "hk"; "hm"; "hn"; "hr"; "ht"; "hu"; "id"; "ie";
    "il"; "im"; "in"; "io"; "iq"; "ir"; "is"; "it"; "je"; "jm"; "jo"; "jp"; "ke";
    "kg"; "kh"; "ki"; "km"; "kn"; "kp"; "kr"; "kw"; "ky"; "kz"; "la"; "lb"; "lc";
    "li"; "lk"; "lr"; "ls"; "lt"; "lu"; "lv"; "ly"; "ma"; "mc"; "md"; "me"; "mf";
    "mg"; "mh"; "mk"; "ml"; "mm"; "mn"; "mo"; "mp"; "mq"; "mr"; "ms"; "mt"; "mu";
    "mv"; "mw"; "mx"; "my"; "mz"; "na"; "nc"; "ne"; "nf"; "ng"; "ni"; "nl"; "no";
    "np"; "nr"; "nu"; "nz"; "om"; "pa"; "pe"; "pf"; "pg"; "ph"; "pk"; "pl"; "pm";
    "pn"; "pr"; "ps"; "pt"; "pw"; "py"; "qa"; "re"; "ro"; "rs"; "ru"; "rw"; "sa";
    "sb"; "sc"; "sd"; "se"; "sg"; "sh"; "si"; "sk"; "sl"; "sm"; "sn"; "so"; "sr";
    "ss"; "st"; "sv"; "sx"; "sy"; "sz"; "tc"; "td"; "tf"; "tg"; "th"; "tj"; "tk";
    "tl"; "tm"; "tn"; "to"; "tr"; "tt"; "tv"; "tw"; "tz"; "ua"; "ug"; "uk"; "us";
    "uy"; "uz"; "va"; "vc"; "ve"; "vg"; "vi"; "vn"; "vu"; "wf"; "ws"; "ye"; "yt";
    "za"; "zm"; "zw" ].

Definition common_suffixes : gset string :=
  list_to_set [ "business"; "webflow"; "site"; "com" ].

Definition common_prefixes : list string :=
  [ "www"; "web"; "corp"; "corporate"; "about"; "info"; "shop"; "company" ].

(** the hosts of line 109 *)
Definition profile_hosts : list string := [ "facebook"; "zaubacorp"; "linkedin" ].

(** [re.sub(r'^https?://http//', 'http://', url)] *)
Definition re_sub_double_scheme (url : string) : string :=
  if PyStr.startswith "http://http//" url then "http://" +:+ PyStr.drop 13 url
  else if PyStr.startswith "https://http//" url then "http://" +:+ PyStr.drop 14 url
  else url.

(** The substitution of line 149, which deletes every match of [\?.*] or
    [\/about.*]: a match starts at a [?] or at [/about] and runs to the end
    of the line, since [.] does not match a newline.  [skipping] is true
    inside a match. *)
Fixpoint re_sub_query_about_from (skipping : bool) (url : string) : string :=
  match url with
  | EmptyString => EmptyString
  | String c rest =>
      if skipping then
        if decide (c = "010"%char) then String c (re_sub_query_about_from false rest)
        else re_sub_query_about_from true rest
      else if bool_decide (c = "?"%char) || PyStr.startswith "/about" url
      then re_sub_query_about_from true rest
      else String c (re_sub_query_about_from false rest)
  end.

Definition re_sub_query_about : string → string := re_sub_query_about_from false.

(** [re.sub(r'[^\w\-]', '', s)]: the code point 45 is the hyphen *)
Definition re_sub_non_word (s : Unicode.str) : Unicode.str :=
  List.filter (λ c, Unicode.is_word c || (c =? 45)%N) s.

(** [url.rstrip('/').split('/')[-1]]: the code point 47 is the slash *)
Definition last_segment (url : Unicode.str) : Unicode.str :=
  List.last (Unicode.split 47 (Unicode.rstrip 47 url)) [].

(** From [unquote] on, [url] is a text of code points. *)
Definition preprocess_linkedin_url (url : string) : Unicode.str :=
  let url := re_sub_query_about url in
  let url := Urllib.unquote url in
  let entity_name :=
    if Unicode.contains (Unicode.of_ascii "/company/") url then last_segment url
    else if Unicode.contains (Unicode.of_ascii "/in/") url then last_segment url
    else url in
  re_sub_non_word (Unicode.lower entity_name).

Section WithParser.

(** [tldextract.extract] *)
Variable tldextract_extract : string → ExtractResult.

(** lines 114-136: the key composed from the parsed components *)
Definition domain_key (extracted : ExtractResult) : string :=
  let full_domain := domain extracted +:+ "." +:+ suffix extracted in
  let company_name :=
    if negb (bool_decide (subdomain extracted = ""))
       && (bool_decide (domain extracted ∈ country_codes)
           || bool_decide (domain extracted ∈ common_suffixes))
    then subdomain extracted +:+ "." +:+ full_domain
    else full_domain in
  let domain_parts := PyStr.split "." company_name in
  let cleaned_domain_parts :=
    List.filter (λ part, negb (bool_decide (PyStr.lower part ∈ common_prefixes)))
      domain_parts in
  let company_name := PyStr.join "." cleaned_domain_parts in
  PyStr.lower company_name.

(** The key is a [string] on both paths: a profile key is stored as its
    UTF-8 encoding. *)
Definition extract_domain_and_company (url : string) : string :=
  let url := re_sub_double_scheme url in
  let extracted := tldextract_extract url in
  if bool_decide (domain extracted ∈ profile_hosts) then
    let linkedin_processed := preprocess_linkedin_url url in
    if negb (bool_decide (linkedin_processed = [])) then Utf8.encode linkedin_processed
    else domain_key extracted
  else domain_key extracted.

End WithParser.

(** [find_best_match_with_distance_poly]: the loop of lines 217-221 from a
    given [best_match], [min_distance]. *)
Fixpoint best_match_loop (cd_company : cell) (crm_companys : list cell)
    (best_match : cell) (min_distance : distance) : result (cell * distance) :=
  match crm_companys with
  | [] => Ok (best_match, min_distance)
  | crm_company :: rest =>
      dist ← py_levenshtein cd_company crm_company;
      if dist_ltb (Finite dist) min_distance
      then best_match_loop cd_company rest crm_company (Finite dist)
      else best_match_loop cd_company rest best_match min_distance
  end.

Definition find_best_match_with_distance_poly (cd_company : cell)
    (crm_companys : list cell) : result (cell * distance) :=
  best_match_loop cd_company crm_companys None Inf.

(** [match_type]: ["exact"] selects the exact branch, anything else
    (["fuzzy"], [None]) the fuzzy loop. *)
Definition process_companys (crm_companys cd_companys : list cell)
    (match_type : option string) : result (list (cell * cell * distance)) :=
  if bool_decide (match_type = Some "exact") then
    let set1 : gset cell := list_to_set cd_companys in
    Ok ((λ item, if bool_decide (item ∈ set1) then (item, item, Finite 0)
                 else (item, None, Inf)) <$> crm_companys)
  else
    mapM (λ crm_company,
            '(best_match, distance) ← find_best_match_with_distance_poly crm_company cd_companys;
            Ok (crm_company, best_match, distance))
         crm_companys.

(** [self.common_terms] *)
Definition common_terms : gset string := list_to_set
  [ "com"; "org"; "net"; "info"; "biz"; "edu"; "gov"; "mil";
  "int"; "ac"; "co"; "io"; "ai"; "app"; "dev"; "tech";
  "online"; "store"; "shop"; "blog"; "site"; "cloud"; "design"; "agency";
  "marketing"; "digital"; "us"; "uk"; "ca"; "au"; "de"; "fr";
  "jp"; "cn"; "in"; "ru"; "br"; "it"; "nl"; "es";
  "se"; "no"; "fi"; "dk"; "ch"; "at"; "be"; "nz";
  "sg"; "ae"; "kr"; "za"; "mx"; "ar"; "cl"; "pl";
  "cz"; "gr"; "hu"; "pt"; "ro"; "th"; "tr"; "ua";
  "vn"; "ph"; "my"; "id"; "tw"; "hk"; "me"; "eu";
  "about"; "info"; "contact"; "support"; "help"; "faq"; "news"; "blog";
  "corp"; "corporate"; "company"; "inc"; "incorporated"; "llc"; "ltd"; "limited";
  "group"; "intl"; "international"; "global"; "worldwide"; "local"; "official"; "home";
  "main"; "index"; "web"; "site"; "portal"; "login"; "signup"; "register";
  "account"; "user"; "customer"; "client"; "partner"; "vendor"; "supplier"; "en";
  "eng"; "english"; "fr"; "fra"; "french"; "de"; "deu"; "german";
  "es"; "esp"; "spanish"; "it"; "ita"; "italian"; "pt"; "por";
  "portuguese"; "ru"; "rus"; "russian"; "cn"; "chi"; "chinese"; "jp";
  "jpn"; "japanese"; "shop"; "store"; "buy"; "sell"; "sale"; "discount";
  "deal"; "offer"; "product"; "item"; "catalog"; "category"; "cart"; "checkout";
  "payment"; "order"; "shipping"; "delivery"; "careers"; "jobs"; "hr"; "human-resources";
  "recruitment"; "investor"; "investors"; "shareholders"; "press"; "media"; "pr"; "public-relations";
  "legal"; "privacy"; "terms"; "conditions"; "policy"; "policies"; "services"; "solutions";
  "products"; "projects"; "portfolio"; "business"; "app"; "apps"; "api"; "dev";
  "developer"; "webmaster"; "admin"; "sys"; "system"; "network"; "host"; "domain";
  "email"; "mail"; "webmail"; "cloud"; "server"; "database"; "data"; "analytics";
  "stats"; "metrics"; "social"; "community"; "forum"; "chat"; "discuss"; "connect";
  "follow"; "like"; "share"; "tweet"; "post"; "profile"; "user"; "member";
  "page"; "pages"; "site"; "sites"; "web"; "internet"; "online"; "digital";
  "virtual"; "mobile"; "desktop"; "platform"; "service"; "tool"; "resource"; "guide";
  "tutorial"; "learn"; "education"; "training"; "course"; "program" ].

(** The substitution of line 179: an optional scheme [http://] or
    [https://], then an optional [http//], then an optional [www.] or
    [web.], all at the start of the string. *)
Definition re_sub_scheme_prefix (url : string) : string :=
  let url := if PyStr.startswith "https://" url then PyStr.drop 8 url
             else if PyStr.startswith "http://" url then PyStr.drop 7 url
             else url in
  let url := if PyStr.startswith "http//" url then PyStr.drop 6 url else url in
  if PyStr.startswith "www." url || PyStr.startswith "web." url
  then PyStr.drop 4 url else url.

Definition boilerplate_tokens : list string :=
  [ "corp"; "corporate"; "about"; "info"; "en"; "shop" ].

(** The substitution of line 195: the first of the tokens, followed by a
    hyphen, that starts the name is removed. *)
Definition re_sub_leading_token (name : string) : string :=
  match List.find (λ tok, PyStr.startswith (tok +:+ "-") name) boilerplate_tokens with
  | Some tok => PyStr.drop (String.length tok + 1) name
  | None => name
  end.

(** The substitution of line 196: a hyphen and one of the tokens at the end
    of the name are removed; [$] also matches before a final newline, which
    is then kept. *)
Fixpoint re_sub_trailing_token (name : string) : string :=
  if existsb (λ tok, bool_decide (name = "-" +:+ tok)) boilerplate_tokens then ""
  else if existsb (λ tok, bool_decide (name = "-" +:+ tok +:+ String "010" ""))
            boilerplate_tokens
  then String "010" ""
  else match name with
       | EmptyString => EmptyString
       | String c rest => String c (re_sub_trailing_token rest)
       end.

(** [parts[-2]] for a list of at least two parts *)
Definition second_to_last (parts : list string) : string :=
  default "" (parts !! (length parts - 2)).

Definition extract_company_name (url : string) : string :=
  let url := re_sub_scheme_prefix url in
  let parts :=
    PyStr.split_any (λ c, bool_decide (c = "."%char) || bool_decide (c = "/"%char)) url in
  let filtered_parts :=
    List.filter (λ part, negb (bool_decide (part = ""))
                         && negb (bool_decide (PyStr.lower part ∈ common_terms))) parts in
  let filtered_parts :=
    if bool_decide (filtered_parts = [])
    then List.filter (λ part, negb (bool_decide (part = ""))) parts
    else filtered_parts in
  let company_name := PyStr.join "-" filtered_parts in
  let company_name := re_sub_leading_token company_name in
  let company_name := re_sub_trailing_token company_name in
  if bool_decide (company_name = "") && bool_decide (2 ≤ length parts)
  then second_to_last parts
  else company_name.

End URLPreprocessor.

Import URLPreprocessor.

(** ** The pandas operations the sources use *)

Module Pandas.

Abbreviation row := (gmap string cell).

Record DataFrame : Type := mkFrame {
  columns : list string;
  rows : list row
}.

(** the value of a row under a column name *)
Definition cell_at (r : row) (c : string) : cell := default None (r !! c).

(** [df.empty]: an axis of length 0 *)
Definition empty (df : DataFrame) : bool :=
  bool_decide (columns df = []) || bool_decide (rows df = []).

(** [df[c]] *)
Definition getitem (df : DataFrame) (c : string) : result (list cell) :=
  if bool_decide (c ∈ columns df)
  then Ok ((λ r, cell_at r c) <$> rows df)
  else Raise (KeyError c).

(** [df[c] = values]: an existing column is overwritten in place, a new one
    is appended.  The value lists below are computed from the frame's own
    columns, so there is one value per row. *)
Definition setitem (df : DataFrame) (c : string) (values : list cell) : DataFrame :=
  {| columns := if bool_decide (c ∈ columns df) then columns df else columns df ++ [c];
     rows := zip_with (λ r v, <[c := v]> r) (rows df) values |}.

(** [df[mask]] *)
Definition boolean_index (df : DataFrame) (mask : list bool) : DataFrame :=
  {| columns := columns df;
     rows := fst <$> List.filter snd (zip (rows df) mask) |}.

(** [df[[c1, ..., cn]]] *)
Definition project (names : list string) (r : row) : row :=
  list_to_map ((λ c, (c, cell_at r c)) <$> names).

Definition select (df : DataFrame) (names : list string) : result DataFrame :=
  match List.find (λ c, negb (bool_decide (c ∈ columns df))) names with
  | Some c => Raise (KeyError c)
  | None => Ok {| columns := names; rows := project names <$> rows df |}
  end.

(** [df.rename(columns=d)] *)
Definition rename (df : DataFrame) (d : gmap string string) : DataFrame :=
  let new_name c := default c (d !! c) in
  {| columns := new_name <$> columns df;
     rows := (λ r, list_to_map ((λ c, (new_name c, cell_at r c)) <$> columns df)) <$> rows df |}.

(** [df.dropna(subset=names)] *)
Definition dropna (df : DataFrame) (names : list string) : DataFrame :=
  {| columns := columns df;
     rows := List.filter (λ r, forallb (λ c, bool_decide (is_Some (cell_at r c))) names)
               (rows df) |}.

(** [s.isin(values)] *)
Definition isin (s values : list cell) : list bool :=
  (λ v, bool_decide (v ∈ values)) <$> s.

(** [pd.merge(left, right, left_on=a, right_on=b)]: the inner join.  A
    column name present on both sides gets the suffix [_x] on the left and
    [_y] on the right; null keys are equal to each other. *)
Definition merged_name (other : list string) (sfx c : string) : string :=
  if bool_decide (c ∈ other) then c +:+ sfx else c.

Definition merged_row (left right : DataFrame) (l r : row) : row :=
  list_to_map
    (((λ c, (merged_name (columns right) "_x" c, cell_at l c)) <$> columns left)
     ++ ((λ c, (merged_name (columns left) "_y" c, cell_at r c)) <$> columns right)).

Definition merge (left right : DataFrame) (left_on right_on : string) : result DataFrame :=
  if negb (bool_decide (left_on ∈ columns left)) then Raise (KeyError left_on)
  else if negb (bool_decide (right_on ∈ columns right)) then Raise (KeyError right_on)
  else Ok
    {| columns := (merged_name (columns right) "_x" <$> columns left)
                  ++ (merged_name (columns left) "_y" <$> columns right);
       rows := l ← rows left;
               merged_row left right l <$>
                 List.filter (λ r, bool_decide (cell_at l left_on = cell_at r right_on))
                   (rows right) |}.

(** [s.duplicated(keep=False)]: every value that occurs more than once *)
Definition occurrences (v : cell) (s : list cell) : nat :=
  length (List.filter (λ w, bool_decide (w = v)) s).

Definition duplicated (s : list cell) : list bool :=
  (λ v, bool_decide (2 ≤ occurrences v s)) <$> s.

(** the order of [sort_values] on a column of text: ascending, nulls last *)
Definition cell_le (a b : cell) : Prop :=
  match a, b with
  | Some x, Some y => String.le x y
  | _, None => True
  | None, Some _ => False
  end.

Global Instance cell_le_dec : RelDecision cell_le :=
  λ a b, match a, b return Decision (cell_le a b) with
         | Some x, Some y => String.le_dec x y
         | Some _, None => left I
         | None, None => left I
         | None, Some _ => right (λ H, H)
         end.

Definition row_le (c : string) (r1 r2 : row) : Prop :=
  cell_le (cell_at r1 c) (cell_at r2 c).

Global Instance row_le_dec c : RelDecision (row_le c) :=
  λ r1 r2, cell_le_dec (cell_at r1 c) (cell_at r2 c).

(** [df.sort_values(by=[c])] on a column of text.  Two things are left
    open by this model and are used by no statement below: a column that
    [read_csv] read back as numbers is ordered as numbers by pandas, and the
    order among rows of equal value is not fixed by pandas (this sort keeps
    their input order).  The statements about the duplicate pass use the
    sorted table only up to the order of its rows. *)
Definition sort_values (df : DataFrame) (c : string) : DataFrame :=
  {| columns := columns df;
     rows := merge_sort (row_le c) (rows df) |}.

(** [str(v)] and [s.astype(str)] *)
Definition str_of_cell (v : cell) : string := default "nan" v.
Definition astype_str (s : list cell) : list cell := (λ v, Some (str_of_cell v)) <$> s.

End Pandas.

Import Pandas.

(** Files: path to table. *)
Abbreviation files := (gmap string DataFrame).

(** [try: ... except Exception: return None] *)
Definition catch {A} (m : result A) : option A :=
  match m with
  | Ok a => Some a
  | Raise _ => None
  end.

Definition read_csv (fs : files) (path : string) : result DataFrame :=
  match fs !! path with
  | Some df => Ok df
  | None => Raise (FileNotFoundError path)
  end.

(** ** matcher.py: [Matcher] *)

Module Matcher.

(** the keyword arguments of [process], one entry of [matching_operations] *)
Record operation : Type := mkOperation {
  file_path1 : string;
  file_path2 : string;
  id_col1 : string;
  id_col2 : string;
  url_col1 : string;
  url_col2 : string;
  company_col1 : string;
  company_col2 : string;
  matched_path : string;
  unmatched_path : string;
  rename_dict1 : option (gmap string string);
  rename_dict2 : option (gmap string string)
}.

(** The frames one operation holds once matching and the set difference are
    done: [df1] and [df2] as they are in memory, and the two outputs. *)
Record stage : Type := mkStage {
  left_frame : DataFrame;
  right_frame : DataFrame;
  matched_df : DataFrame;
  unmatched_df : DataFrame
}.

Definition load_clean_and_rename_dataframe (fs : files) (file_path id_column url_column : string)
    (rename_dict : option (gmap string string)) : option DataFrame :=
  catch (
    df ← read_csv fs file_path;
    if empty df then Raise (ValueError "The loaded DataFrame is empty.") else
    let df := match rename_dict with
              | Some d => if bool_decide (d = ∅) then df else rename df d
              | None => df
              end in
    if negb (bool_decide (id_column ∈ columns df)) || negb (bool_decide (url_column ∈ columns df))
    then Raise (KeyError id_column)
    else Ok (dropna df [id_column; url_column])).

Section WithEnvironment.

Variable tldextract_extract : string → ExtractResult.

(** Whether the operating system lets a file be written at the path: its
    directory exists, it is not a directory itself.  The program creates no
    directory, so the answer does not change during a run. *)
Variable writable : string → bool.

(** [df.to_csv(path, index=False)]: an [OSError] when the path cannot be
    written, and then no file changes. *)
Definition to_csv (fs : files) (path : string) (df : DataFrame) : result files :=
  if writable path then Ok (<[path := df]> fs) else Raise (OSError path).

(** [save_results]: nothing is written when an argument is [None] or both
    tables are empty.  The matched table is written first; an exception of
    either write is logged and swallowed, so a failure of the second write
    leaves the matched file on disk. *)
Definition save_results (fs : files) (matched_df unmatched_df : option DataFrame)
    (matched_path unmatched_path : string) : files :=
  match matched_df, unmatched_df with
  | Some m, Some u =>
      if empty m && empty u then fs
      else match to_csv fs matched_path m with
           | Ok fs1 =>
               match to_csv fs1 unmatched_path u with
               | Ok fs2 => fs2
               | Raise _ => fs1
               end
           | Raise _ => fs
           end
  | _, _ => fs
  end.

Definition preprocess_urls (df : option DataFrame) (url_column company_column : string)
    : option DataFrame :=
  catch (
    match df with
    | None => Raise (ValueError "Input DataFrame is None or empty.")
    | Some df =>
        if empty df then Raise (ValueError "Input DataFrame is None or empty.") else
        urls ← getitem df url_column;
        let df := setitem df url_column (astype_str urls) in
        urls ← getitem df url_column;
        let df := setitem df company_column
                    ((λ u, Some (extract_domain_and_company tldextract_extract (str_of_cell u)))
                       <$> urls) in
        Ok df
    end).

(** [match_companies] assigns the column [exact_match] of [df1] in place:
    the first component is [df1] as the caller holds it afterwards, the
    second the returned table ([None] after a caught exception). *)
Definition match_companies (df1 df2 : option DataFrame)
    (company_col1 company_col2 id_col1 id_col2 url_col1 url_col2 : string)
    : option DataFrame * option DataFrame :=
  match df1, df2 with
  | Some d1, Some d2 =>
      if empty d1 || empty d2 then (df1, None) else
      match (keys1 ← getitem d1 company_col1;
             keys2 ← getitem d2 company_col2;
             process_companys keys1 keys2 (Some "exact")) with
      | Raise _ => (df1, None)
      | Ok results =>
          let d1 := setitem d1 "exact_match" ((λ t, t.1.2) <$> results) in
          (Some d1,
           catch (
             result_df ← merge d1 d2 "exact_match" company_col2;
             select result_df [id_col1; id_col2; url_col1; url_col2; company_col1; company_col2]))
      end
  | _, _ => (df1, None)
  end.

(** The body of [process] up to the set difference of line 229. *)
Definition process_tables (op : operation) (fs : files) : result stage :=
  let df1 := load_clean_and_rename_dataframe fs (file_path1 op) (id_col1 op) (url_col1 op)
               (rename_dict1 op) in
  let df2 := load_clean_and_rename_dataframe fs (file_path2 op) (id_col2 op) (url_col2 op)
               (rename_dict2 op) in
  match df1, df2 with
  | Some _, Some _ =>
      let df1 := preprocess_urls df1 (url_col1 op) (company_col1 op) in
      let df2 := preprocess_urls df2 (url_col2 op) (company_col2 op) in
      match df1, df2 with
      | Some _, Some d2 =>
          match match_companies df1 df2 (company_col1 op) (company_col2 op)
                  (id_col1 op) (id_col2 op) (url_col1 op) (url_col2 op) with
          | (Some d1, Some matched) =>
              ids ← getitem d1 (id_col1 op);
              matched_ids ← getitem matched (id_col1 op);
              unmatched ← select (boolean_index d1 (negb <$> isin ids matched_ids))
                            [id_col1 op; url_col1 op];
              Ok {| left_frame := d1; right_frame := d2;
                    matched_df := matched; unmatched_df := unmatched |}
          | _ => Raise (ValueError "Error occurred during company matching")
          end
      | _, _ => Raise (ValueError "Error occurred during URL preprocessing")
      end
  | _, _ => Raise (ValueError "One or both input DataFrames could not be loaded or processed")
  end.

(** [process]: the files afterwards and the exception it logged, if any. *)
Definition process (op : operation) (fs : files) : files * option exn :=
  match process_tables op fs with
  | Ok st =>
      (save_results fs (Some (matched_df st)) (Some (unmatched_df st))
         (matched_path op) (unmatched_path op), None)
  | Raise e => (fs, Some e)
  end.

End WithEnvironment.

End Matcher.

(** ** postprocess.py *)

Module Postprocess.

Import Matcher.

(** lines 81-89: [(non_duplicates, duplicates_sorted)] *)
Definition split_duplicates (df : DataFrame) : result (DataFrame * DataFrame) :=
  last_column ← match last (columns df) with
                | Some c => Ok c
                | None => Raise IndexError
                end;
  keys ← getitem df last_column;
  let duplicates := boolean_index df (duplicated keys) in
  let non_duplicates := boolean_index df (negb <$> duplicated keys) in
  let duplicates_sorted := sort_values duplicates last_column in
  Ok (non_duplicates, duplicates_sorted).

(** [process_matched_output]; [duplicate_file] is the path lines 70-74
    derive from [matched_path].  An exception is logged and raised again.
    Both files are written to the directory the matched table was just read
    from, so the writes are taken to succeed. *)
Definition process_matched_output (matched_path duplicate_file : string) (fs : files)
    : result files :=
  df ← read_csv fs matched_path;
  '(non_duplicates, duplicates_sorted) ← split_duplicates df;
  Ok (<[matched_path := non_duplicates]> (<[duplicate_file := duplicates_sorted]> fs)).

(** [os.path] on POSIX paths *)
Definition basename (p : string) : string := PyStr.after_last "/" p.

Definition dirname (p : string) : string :=
  let head := PyStr.take (String.length p - String.length (basename p)) p in
  if negb (bool_decide (head = ""))
     && negb (PyStr.forallb (λ c, bool_decide (c = "/"%char)) head)
  then PyStr.rstrip "/" head
  else head.

Definition path_join (a p : string) : string :=
  if PyStr.startswith "/" p then p
  else if bool_decide (a = "") || PyStr.endswith "/" a then a +:+ p
  else a +:+ "/" +:+ p.

(** lines 69-74: the path of the duplicate file *)
Definition duplicate_file_of (matched_path : string) : string :=
  path_join (dirname matched_path)
    (PyStr.replace "matched" "duplicate_matched" (basename matched_path)).

(** [process_matched_output(operation)] with its path computation *)
Definition process_matched_output_operation (op : operation) (fs : files) : result files :=
  process_matched_output (matched_path op) (duplicate_file_of (matched_path op)) fs.

(** [process_all_matched_outputs]: an operation that raises is logged and
    skipped. *)
Definition process_all_matched_outputs (operations : list operation) (fs : files) : files :=
  foldl (λ fs op, match process_matched_output_operation op fs with
                  | Ok fs' => fs'
                  | Raise _ => fs
                  end) fs operations.

Definition crm_bd_comp_matched : string := "./match_tables/crm_bd_comp_matched.csv".
Definition vw_sf_crm_match : string := "./input_data/VW_SF_CRM_MATCH.csv".
Definition vw_bd_company_match : string := "./input_data/VW_BD_COMPANY_MATCH.csv".
Definition linkedin_crm_comp : string := "./input_data/linkedin_crm_comp.csv".
Definition linkedin_bd_comp : string := "./input_data/linkedin_bd_comp.csv".

(** lines 31-32: the rows of the two sources whose [ID] is not in the matched
    table *)
Definition unmatched_sources (result_df crm_df bd_df : DataFrame)
    : result (DataFrame * DataFrame) :=
  crm_ids ← getitem crm_df "ID";
  matched_crm_ids ← getitem result_df "CRM_ID";
  let unmatched_crm := boolean_index crm_df (negb <$> isin crm_ids matched_crm_ids) in
  bd_ids ← getitem bd_df "ID";
  matched_bd_ids ← getitem result_df "ID";
  let unmatched_bd := boolean_index bd_df (negb <$> isin bd_ids matched_bd_ids) in
  Ok (unmatched_crm, unmatched_bd).

(** [get_bd_linkedin_company_urls]: every exception is logged and
    swallowed.  The two files are written to the directory the sources were
    read from, so the writes are taken to succeed. *)
Definition get_bd_linkedin_company_urls (fs : files) : files :=
  default fs (catch (
    result_df ← read_csv fs crm_bd_comp_matched;
    crm_df ← read_csv fs vw_sf_crm_match;
    bd_df ← read_csv fs vw_bd_company_match;
    if empty result_df || empty crm_df || empty bd_df
    then Raise (ValueError "One or more input DataFrames are empty")
    else
      '(unmatched_crm, unmatched_bd) ← unmatched_sources result_df crm_df bd_df;
      if empty unmatched_crm || empty unmatched_bd then Ok fs
      else Ok (<[linkedin_bd_comp := unmatched_bd]> (<[linkedin_crm_comp := unmatched_crm]> fs)))).

End Postprocess.

Import Matcher Postprocess.

(** ** The profile-path rule, in words

    "strip query string and any trailing /about segment, percent-decode, then
    take the last non-empty path segment after locating a /company/ or /in/
    marker (falling back to the whole remaining string if neither marker is
    present); finally strip everything except alphanumerics and hyphens and
    lowercase it."  The rule is written here from these words, without the
    functions of [URLPreprocessor]: a cut of every line, a decoded text, its
    part after the last slash, a class of characters.  Percent-decoding,
    lowercasing and the classes are Python's. *)

Fixpoint take_while {A} (p : A → bool) (l : list A) : list A :=
  match l with
  | [] => []
  | x :: l' => if p x then x :: take_while p l' else []
  end.

Fixpoint drop_while {A} (p : A → bool) (l : list A) : list A :=
  match l with
  | [] => []
  | x :: l' => if p x then drop_while p l' else l
  end.

(** a line without what starts at its first [?] or at its first [/about] *)
Fixpoint cut_line (line : string) : string :=
  match line with
  | EmptyString => EmptyString
  | String c rest =>
      if bool_decide (c = "?"%char) || PyStr.startswith "/about" line then EmptyString
      else String c (cut_line rest)
  end.

(** the text with every line cut in that way *)
Definition cut_lines (url : string) : string :=
  PyStr.join (String "010" "") (cut_line <$> PyStr.split "010" url).

(** the text without its trailing slashes (the code point 47) *)
Definition without_trailing_slashes (s : Unicode.str) : Unicode.str :=
  reverse (drop_while (λ c, (c =? 47)%N) (reverse s)).

(** what follows the last slash of the text; the text itself when it has no
    slash *)
Definition after_last_slash (s : Unicode.str) : Unicode.str :=
  reverse (take_while (λ c, negb (c =? 47)%N) (reverse s)).

(** the segment the key is made of *)
Definition profile_segment (decoded : Unicode.str) : Unicode.str :=
  if Unicode.contains (Unicode.of_ascii "/company/") decoded
     || Unicode.contains (Unicode.of_ascii "/in/") decoded
  then after_last_slash (without_trailing_slashes decoded)
  else decoded.

(** The rule as the claim words it: everything except alphanumerics and
    hyphens is stripped, and the rest is lowercased. *)
Definition claimed_profile_key (url : string) : Unicode.str :=
  Unicode.lower
    (List.filter (λ c, Unicode.isalnum c || (c =? 45)%N)
       (profile_segment (Urllib.unquote (cut_lines url)))).


(** ** Notions used in the statements *)

(** a segment of the composed name that is not boilerplate *)
Definition keep_part (part : string) : bool :=
  negb (bool_decide (PyStr.lower part ∈ common_prefixes)).

(** The key of the standard path, as a function of the lowercased name. *)
Definition cleaned_name (name : string) : string :=
  PyStr.join "." (List.filter keep_part (PyStr.split "." name)).

(** [best] is the entry at index [i] of [pool], no entry of the pool is
    closer to [key], and every entry before [i] is strictly farther. *)
Definition first_minimum (key : string) (pool : list string) (i : nat) (best : string) : Prop :=
  pool !! i = Some best
  ∧ (∀ j other, pool !! j = Some other → levenshtein key best ≤ levenshtein key other)
  ∧ (∀ j other, pool !! j = Some other → j < i → levenshtein key best < levenshtein key other).

(** the values of a column, row by row *)
Definition column_values (df : DataFrame) (c : string) : list cell :=
  (λ r, cell_at r c) <$> rows df.

(** [exact_match] of a left key, given the right keys *)
Definition exact_match_of (keys2 : list cell) (item : cell) : cell :=
  if bool_decide (item ∈ keys2) then item else None.

(** the six columns of a matched table *)
Definition matched_columns (op : operation) : list string :=
  [id_col1 op; id_col2 op; url_col1 op; url_col2 op; company_col1 op; company_col2 op].

(** a row after [preprocess_urls] *)
Definition annotate (tldextract_extract : string → ExtractResult)
    (url_column company_column : string) (r : row) : row :=
  <[company_column :=
      Some (extract_domain_and_company tldextract_extract (str_of_cell (cell_at r url_column)))]>
    (<[url_column := Some (str_of_cell (cell_at r url_column))]> r).

(** the ASCII characters of a profile key: a to z, 0 to 9, the underscore
    and the hyphen *)
Definition slug_point (c : N) : bool :=
  ((97 <=? c)%N && (c <=? 122)%N) || ((48 <=? c)%N && (c <=? 57)%N)
  || (c =? 95)%N || (c =? 45)%N.

(** A code point that lowercasing leaves as it is.  The capital sigma is
    not one: it is lowercased by a rule of its own. *)
Definition lowercase_point (c : N) : bool :=
  bool_decide (Unicode.tolower_full c = [c]) && negb (c =? 931)%N.

(** no ASCII capital letter in the text *)
Definition no_ascii_capital (s : Unicode.str) : Prop :=
  Forall (λ c, ¬ (65 ≤ c ≤ 90)%N) s.







(** no newline in the string *)
Definition single_line (s : string) : bool :=
  PyStr.forallb (λ c, negb (bool_decide (c = "010"%char))) s.

(** no occurrence of a separator character in the string *)
Definition free_of (sep : ascii → bool) (s : string) : bool :=
  PyStr.forallb (λ c, negb (sep c)) s.

(** the separators of the token extractor: the dot and the slash *)
Definition dot_or_slash (c : ascii) : bool :=
  bool_decide (c = "."%char) || bool_decide (c = "/"%char).

(** the prefixes the token extractor strips *)
Definition stripped_prefixes : list string :=
  [ "http://"; "https://"; "http//"; "www."; "web." ].

(** the schemes and host prefixes line 179 removes *)
Definition scheme_variants : list string :=
  [ ""; "http://"; "https://"; "http//"; "http://http//"; "https://http//" ].

Definition host_prefix_variants : list string := [ ""; "www."; "web." ].

(** the test of [duplicated] on a row *)
Definition is_duplicate (df : DataFrame) (key : string) (r : row) : bool :=
  bool_decide (2 ≤ occurrences (cell_at r key) (column_values df key)).

(** the names the join gives to the columns the two tables share: the
    shared name followed by [_x] or by [_y] *)
Definition suffixed_names (left right : DataFrame) : list string :=
  x ← List.filter (λ x, bool_decide (x ∈ columns right)) (columns left);
  [x +:+ "_x"; x +:+ "_y"].

(** the slash, the separator of POSIX paths *)
Definition is_slash (c : ascii) : bool := bool_decide (c = "/"%char).

(** ** Example data *)

Definition text_row (fields : list (string * string)) : row :=
  list_to_map ((λ kv, (kv.1, Some kv.2)) <$> fields).

(** a left table with one record whose URL is null *)
Definition demo_left : DataFrame :=
  {| columns := ["ID"; "URL"];
     rows := [ text_row [("ID", "1"); ("URL", "http://acme.com")];
               text_row [("ID", "2"); ("URL", "http://other.org")];
               <["ID" := Some "3"]> (<["URL" := None]> ∅) ] |}.

(** a right table where two records share the key [acme.com] *)
Definition demo_right : DataFrame :=
  {| columns := ["UUID"; "HOMEPAGE"];
     rows := [ text_row [("UUID", "9"); ("HOMEPAGE", "http://www.acme.com")];
               text_row [("UUID", "10"); ("HOMEPAGE", "https://acme.com/about")] ] |}.

(** a right table with distinct keys *)
Definition demo_right_unique : DataFrame :=
  {| columns := ["UUID"; "HOMEPAGE"];
     rows := [ text_row [("UUID", "9"); ("HOMEPAGE", "http://www.acme.com")];
               text_row [("UUID", "10"); ("HOMEPAGE", "https://example.co.uk")] ] |}.

(** a right table whose only record has a null URL *)
Definition demo_right_null : DataFrame :=
  {| columns := ["UUID"; "HOMEPAGE"];
     rows := [ <["UUID" := Some "9"]> (<["HOMEPAGE" := None]> ∅) ] |}.

Definition demo_files : files :=
  <["left.csv" := demo_left]>
    (<["right.csv" := demo_right]>
       (<["right_unique.csv" := demo_right_unique]>
          (<["right_null.csv" := demo_right_null]> ∅))).

Definition demo_operation (right_file : string) : operation :=
  {| file_path1 := "left.csv"; file_path2 := right_file;
     id_col1 := "CRM_ID"; id_col2 := "UUID";
     url_col1 := "URL"; url_col2 := "HOMEPAGE";
     company_col1 := "crm_company"; company_col2 := "cb_company";
     matched_path := "crm_cb_matched.csv"; unmatched_path := "crm_cb_unmatched.csv";
     rename_dict1 := Some {[ "ID" := "CRM_ID" ]}; rename_dict2 := None |}.

(** two tables that share the column [NAME], which is none of the columns
    of the operation; the right keys are distinct *)
Definition demo_left_named : DataFrame :=
  {| columns := ["ID"; "URL"; "NAME"];
     rows := [ text_row [("ID", "1"); ("URL", "http://acme.com"); ("NAME", "Acme")];
               text_row [("ID", "2"); ("URL", "http://other.org"); ("NAME", "Other")] ] |}.

Definition demo_right_named : DataFrame :=
  {| columns := ["UUID"; "HOMEPAGE"; "NAME"];
     rows := [ text_row [("UUID", "9"); ("HOMEPAGE", "http://www.acme.com");
                         ("NAME", "Acme Inc")];
               text_row [("UUID", "10"); ("HOMEPAGE", "https://example.co.uk");
                         ("NAME", "Example")] ] |}.

Definition demo_named_files : files :=
  <["left.csv" := demo_left_named]> (<["right_named.csv" := demo_right_named]> ∅).

(** every path can be written *)
Definition always_writable : string → bool := λ _, true.

(** the directory of the unmatched file is missing: of the two outputs of
    [demo_operation], the matched file alone can be written *)
Definition matched_only : string → bool :=
  λ path, bool_decide (path = "crm_cb_matched.csv").

(** a matched table: two pairs on the key [acme.com], one on [other.org] *)
Definition demo_matched : DataFrame :=
  {| columns := ["CRM_ID"; "UUID"; "cb_company"];
     rows := [ text_row [("CRM_ID", "1"); ("UUID", "9"); ("cb_company", "acme.com")];
               text_row [("CRM_ID", "2"); ("UUID", "7"); ("cb_company", "other.org")];
               text_row [("CRM_ID", "1"); ("UUID", "10"); ("cb_company", "acme.com")] ] |}.

(** the operation of the usage example of matcher.py: the matched file has
    no [matched] in its name *)
Definition demo_operation_unmarked : operation :=
  {| file_path1 := "./input_data/VW_SF_CRM_MATCH.csv";
     file_path2 := "./input_data/VW_CB_MATCH.csv";
     id_col1 := "CRM_ID"; id_col2 := "UUID";
     url_col1 := "COMPANY_WEBSITE"; url_col2 := "HOMEPAGE_URL";
     company_col1 := "crm_company"; company_col2 := "cb_company";
     matched_path := "./match_tables/crm_cb_match.csv";
     unmatched_path := "./umatch_tables/crm_cb_unmatched.csv";
     rename_dict1 := Some {[ "ID" := "CRM_ID" ]}; rename_dict2 := None |}.

(** a matched CRM / Brightdata table and its two sources: CRM record 2 and
    Brightdata record 8 are not matched *)
Definition demo_bd_matched : DataFrame :=
  {| columns := ["CRM_ID"; "ID"];
     rows := [ text_row [("CRM_ID", "1"); ("ID", "7")] ] |}.

Definition demo_crm_source : DataFrame :=
  {| columns := ["ID"; "COMPANY_WEBSITE"];
     rows := [ text_row [("ID", "1"); ("COMPANY_WEBSITE", "http://acme.com")];
               text_row [("ID", "2"); ("COMPANY_WEBSITE", "http://other.org")] ] |}.

Definition demo_bd_source : DataFrame :=
  {| columns := ["ID"; "COMPANY_WEBSITE"];
     rows := [ text_row [("ID", "7"); ("COMPANY_WEBSITE", "http://www.acme.com")];
               text_row [("ID", "8"); ("COMPANY_WEBSITE", "http://third.io")] ] |}.

Definition demo_bd_files : files :=
  <[crm_bd_comp_matched := demo_bd_matched]>
    (<[vw_sf_crm_match := demo_crm_source]>
       (<[vw_bd_company_match := demo_bd_source]> ∅)).

(** the rows of a source whose [ID] is not among the given identifiers *)
Definition rows_not_in (source : DataFrame) (matched_ids : list cell) : list row :=
  List.filter (λ r, negb (bool_decide (cell_at r "ID" ∈ matched_ids))) (rows source).

(** * Properties *)

(** ** Strings *)

Section StringFacts.


Lemma lower_char_idemp c : PyStr.lower_char (PyStr.lower_char c) = PyStr.lower_char c.
Proof. destruct c as [[] [] [] [] [] [] [] []]; reflexivity. Qed.

Lemma lower_idemp s : PyStr.lower (PyStr.lower s) = PyStr.lower s.
Proof. induction s as [|c s IH]; simpl; [done|]. by rewrite lower_char_idemp, IH. Qed.

Lemma app_cons c s t : String c s +:+ t = String c (s +:+ t).
Proof. reflexivity. Qed.

Lemma app_empty t : "" +:+ t = t.
Proof. reflexivity. Qed.

Lemma lower_app s t : PyStr.lower (s +:+ t) = PyStr.lower s +:+ PyStr.lower t.
Proof.
  induction s as [|c s IH]; [done|].
  rewrite app_cons. simpl. by rewrite IH, app_cons.
Qed.

(** a filter keeps a lowercase string lowercase *)
Lemma lower_filter_fixed p s :
  PyStr.lower s = s → PyStr.lower (PyStr.filter p s) = PyStr.filter p s.
Proof.
  induction s as [|c s IH]; simpl; [done|].
  intros [= Hc Hs]. destruct (p c); simpl; rewrite ?Hc, IH; done.
Qed.

(** a class that ignores case commutes with lowercasing *)
Lemma lower_filter_comm p s :
  (∀ c, p (PyStr.lower_char c) = p c) →
  PyStr.lower (PyStr.filter p s) = PyStr.filter p (PyStr.lower s).
Proof.
  intros Hp. induction s as [|c s IH]; simpl; [done|].
  rewrite Hp. destruct (p c); simpl; by rewrite IH.
Qed.

Lemma is_word_lower c :
  PyStr.is_word (PyStr.lower_char c) || bool_decide (PyStr.lower_char c = "-"%char)
  = PyStr.is_word c || bool_decide (c = "-"%char).
Proof. destruct c as [[] [] [] [] [] [] [] []]; reflexivity. Qed.

Lemma split_nonempty c s : PyStr.split c s ≠ [].
Proof. destruct s as [|a s]; simpl; [done|]. case_decide; [done|]. by destruct (PyStr.split c s). Qed.

Lemma lower_char_dot a : PyStr.lower_char a = "."%char ↔ a = "."%char.
Proof. destruct a as [[] [] [] [] [] [] [] []]; vm_compute; split; congruence. Qed.

Lemma split_dot_lower s :
  PyStr.split "." (PyStr.lower s) = PyStr.lower <$> PyStr.split "." s.
Proof.
  induction s as [|a s IH]; simpl; [done|].
  destruct (decide (a = "."%char)) as [->|Hne].
  - simpl. by rewrite IH.
  - rewrite decide_False by (by rewrite lower_char_dot).
    rewrite IH. pose proof (split_nonempty "." s). by destruct (PyStr.split "." s).
Qed.

Lemma lower_join sep parts :
  PyStr.lower (PyStr.join sep parts) = PyStr.join (PyStr.lower sep) (PyStr.lower <$> parts).
Proof.
  induction parts as [|p [|q parts] IH]; simpl in *; [done..|].
  by rewrite !lower_app, IH.
Qed.

Lemma forallb_app p s t : PyStr.forallb p (s +:+ t) = PyStr.forallb p s && PyStr.forallb p t.
Proof.
  induction s as [|c s IH]; [done|]. rewrite app_cons. cbn [PyStr.forallb].
  by rewrite IH, andb_assoc.
Qed.

Lemma startswith_nil s : PyStr.startswith "" s = true.
Proof. by destruct s. Qed.

Lemma startswith_cons_eq a p s :
  PyStr.startswith (String a p) (String a s) = PyStr.startswith p s.
Proof. cbn [PyStr.startswith]. by rewrite decide_True. Qed.

Lemma startswith_cons_ne a b p s :
  a ≠ b → PyStr.startswith (String a p) (String b s) = false.
Proof. intros. cbn [PyStr.startswith]. by rewrite decide_False. Qed.

Lemma split_dot_app p rest :
  free_of (λ c, bool_decide (c = "."%char)) p = true →
  PyStr.split "." (p +:+ "." +:+ rest) = p :: PyStr.split "." rest.
Proof.
  induction p as [|a p IH]; [done|]. unfold free_of. cbn [PyStr.forallb].
  intros [Ha Hp]%andb_prop. apply negb_true_iff, bool_decide_eq_false in Ha.
  rewrite app_cons. cbn [PyStr.split]. rewrite decide_False by done.
  by rewrite (IH Hp).
Qed.

Lemma string_length_app s t : String.length (s +:+ t) = String.length s + String.length t.
Proof. induction s as [|c s IH]; [done|]. rewrite app_cons. cbn [String.length]. by rewrite IH. Qed.

Lemma string_app_assoc s t u : (s +:+ t) +:+ u = s +:+ (t +:+ u).
Proof. induction s as [|c s IH]; [done|]. by rewrite !app_cons, IH. Qed.


End StringFacts.

(** ** Code points *)

Section UnicodeFacts.

Lemma assoc_elem_of c table d : Unicode.assoc c table = Some d → (c, d) ∈ table.
Proof.
  induction table as [|[k v] table IH]; cbn [Unicode.assoc]; [done|].
  destruct (N.eqb_spec k c) as [->|_].
  - intros [= ->]. apply elem_of_cons. by left.
  - intros Hrest. apply elem_of_cons. right. by apply IH.
Qed.

(** every image of the lowercase table is left alone by lowercasing *)
Lemma simple_lowercase_images :
  Forall (λ kv, lowercase_point kv.2 = true) Unicode.simple_lowercase.
Proof. apply (bool_decide_unpack _). vm_compute. exact I. Qed.

Lemma tolower_full_lowercase c :
  c ≠ 931%N → Forall (λ d, lowercase_point d = true) (Unicode.tolower_full c).
Proof.
  intros Hsigma. unfold Unicode.tolower_full.
  destruct (N.eqb_spec c 304) as [->|H304].
  { repeat constructor; vm_compute; reflexivity. }
  destruct (Unicode.assoc c Unicode.simple_lowercase) as [d|] eqn:Hassoc;
    cbn [default from_option]; (constructor; [|constructor]).
  - apply assoc_elem_of in Hassoc.
    exact (proj1 (Forall_forall _ _) simple_lowercase_images _ Hassoc).
  - unfold lowercase_point, Unicode.tolower_full.
    rewrite (proj2 (N.eqb_neq _ _) H304), (proj2 (N.eqb_neq _ _) Hsigma), Hassoc.
    cbn [default from_option negb]. by rewrite bool_decide_eq_true_2.
Qed.

Lemma lower_from_lowercase before s :
  Forall (λ d, lowercase_point d = true) (Unicode.lower_from before s).
Proof.
  revert before. induction s as [|c s IH]; intros before; cbn [Unicode.lower_from];
    [constructor|].
  apply Forall_app. split; [|apply IH].
  destruct (N.eqb_spec c 931) as [->|Hc]; [|by apply tolower_full_lowercase].
  constructor; [|constructor]. destruct (Unicode.final_sigma _ _); vm_compute; reflexivity.
Qed.

(** a lowercased text is not changed by lowercasing *)
Lemma lower_from_fixed before s :
  Forall (λ d, lowercase_point d = true) s → Unicode.lower_from before s = s.
Proof.
  revert before. induction s as [|c s IH]; intros before Hs; cbn [Unicode.lower_from];
    [done|].
  apply Forall_cons in Hs as [Hc Hs].
  unfold lowercase_point in Hc. apply andb_prop in Hc as [Hfull Hsigma].
  apply bool_decide_eq_true in Hfull. apply negb_true_iff in Hsigma.
  rewrite Hsigma, Hfull. cbn [app]. by rewrite IH.
Qed.

Lemma lowercase_point_no_capital c : lowercase_point c = true → ¬ (65 ≤ c ≤ 90)%N.
Proof.
  intros Hc Hcap.
  assert (c ∈ (N.of_nat <$> seq 65 26)) as Hin.
  { apply list_elem_of_fmap. exists (N.to_nat c). split; [lia|]. apply elem_of_seq. lia. }
  clear Hcap. revert c Hin Hc.
  apply (Forall_forall (λ c, lowercase_point c = true → False)).
  apply (bool_decide_unpack _). vm_compute. exact I.
Qed.

Lemma lowercase_no_capital s :
  Forall (λ d, lowercase_point d = true) s → no_ascii_capital s.
Proof.
  intros Hs. eapply Forall_impl; [exact Hs|]. intros c. apply lowercase_point_no_capital.
Qed.

(** an ASCII word character or hyphen that lowercasing leaves alone is one
    of a to z, 0 to 9, the underscore, the hyphen *)
Lemma slug_point_ascii c :
  (c < 128)%N → Unicode.is_word c || (c =? 45)%N = true → lowercase_point c = true →
  slug_point c = true.
Proof.
  intros Hascii.
  assert (c ∈ (N.of_nat <$> seq 0 128)) as Hin.
  { apply list_elem_of_fmap. exists (N.to_nat c). split; [lia|]. apply elem_of_seq. lia. }
  clear Hascii. revert c Hin.
  apply (Forall_forall (λ c, Unicode.is_word c || (c =? 45)%N = true →
                             lowercase_point c = true → slug_point c = true)).
  apply (bool_decide_unpack _). vm_compute. exact I.
Qed.

Lemma nat_of_ascii_of_N n : (n < 256)%N → nat_of_ascii (ascii_of_N n) = N.to_nat n.
Proof. intros Hn. unfold nat_of_ascii. by rewrite N_ascii_embedding. Qed.

Lemma lower_char_of_N n :
  (n < 256)%N → ¬ (65 ≤ n ≤ 90)%N → PyStr.lower_char (ascii_of_N n) = ascii_of_N n.
Proof.
  intros Hn Hcap. unfold PyStr.lower_char. rewrite nat_of_ascii_of_N by done.
  destruct (_ && _) eqn:Hrange; [|done].
  apply andb_prop in Hrange as [Hlo Hhi]. apply Nat.leb_le in Hlo, Hhi. lia.
Qed.

(** the bytes of a code point that is no ASCII capital are not changed by
    the ASCII case mapping *)
Lemma encode_point_lower c :
  ¬ (65 ≤ c ≤ 90)%N → PyStr.lower (Utf8.encode_point c) = Utf8.encode_point c.
Proof.
  intros Hcap. unfold Utf8.encode_point.
  pose proof (N.mod_upper_bound c 64 ltac:(done)).
  pose proof (N.mod_upper_bound (c / 64) 64 ltac:(done)).
  pose proof (N.mod_upper_bound (c / 4096) 64 ltac:(done)).
  pose proof (N.mod_upper_bound (c / 262144) 8 ltac:(done)).
  destruct (N.ltb_spec c 128); [|destruct (N.ltb_spec c 2048); [|destruct (N.ltb_spec c 65536)]];
    cbn [PyStr.lower].
  - by rewrite lower_char_of_N by lia.
  - assert (c / 64 < 32)%N by (apply N.Div0.div_lt_upper_bound; lia).
    generalize dependent (c `mod` 64)%N. generalize dependent (c / 64)%N.
    intros. by rewrite !lower_char_of_N by lia.
  - assert (c / 4096 < 16)%N by (apply N.Div0.div_lt_upper_bound; lia).
    generalize dependent (c `mod` 64)%N. generalize dependent ((c / 64) `mod` 64)%N.
    generalize dependent (c / 4096)%N.
    intros. by rewrite !lower_char_of_N by lia.
  - generalize dependent (c `mod` 64)%N. generalize dependent ((c / 64) `mod` 64)%N.
    generalize dependent ((c / 4096) `mod` 64)%N.
    generalize dependent ((c / 262144) `mod` 8)%N.
    intros. by rewrite !lower_char_of_N by lia.
Qed.

Lemma encode_lower s : no_ascii_capital s → PyStr.lower (Utf8.encode s) = Utf8.encode s.
Proof.
  induction 1 as [|c s Hc _ IH]; [done|].
  cbn [Utf8.encode foldr]. fold (Utf8.encode s).
  by rewrite lower_app, encode_point_lower, IH.
Qed.

Lemma Forall_list_filter_keep {A} (P : A → Prop) (p : A → bool) l :
  Forall P l → Forall P (List.filter p l).
Proof.
  induction 1 as [|x l Hx _ IH]; cbn [List.filter]; [constructor|].
  destruct (p x); [by constructor|done].
Qed.

End UnicodeFacts.

(** ** The cut of the profile path *)

Section ProfileCut.
















End ProfileCut.

(** ** Key extraction *)

Section KeyExtraction.

Variable tldextract_extract : string → ExtractResult.

(** lowercasing leaves every code point of a profile key alone *)
Lemma preprocess_linkedin_url_lowercase url :
  Forall (λ c, lowercase_point c = true) (preprocess_linkedin_url url).
Proof.
  unfold preprocess_linkedin_url, re_sub_non_word, Unicode.lower.
  apply Forall_list_filter_keep, lower_from_lowercase.
Qed.

Lemma preprocess_linkedin_url_lower url :
  PyStr.lower (Utf8.encode (preprocess_linkedin_url url))
  = Utf8.encode (preprocess_linkedin_url url).
Proof. apply encode_lower, lowercase_no_capital, preprocess_linkedin_url_lowercase. Qed.

Lemma domain_key_lower e : PyStr.lower (domain_key e) = domain_key e.
Proof. unfold domain_key. apply lower_idemp. Qed.


Lemma keep_part_lower part : keep_part (PyStr.lower part) = keep_part part.
Proof. unfold keep_part. by rewrite lower_idemp. Qed.

Lemma filter_keep_lower parts :
  PyStr.lower <$> List.filter keep_part parts = List.filter keep_part (PyStr.lower <$> parts).
Proof.
  induction parts as [|p parts IH]; [done|].
  cbn [List.filter fmap list_fmap]. rewrite keep_part_lower.
  destruct (keep_part p); cbn [fmap list_fmap]; by rewrite <- IH.
Qed.

Lemma lower_cleaned_name name :
  PyStr.lower (cleaned_name name) = cleaned_name (PyStr.lower name).
Proof.
  unfold cleaned_name. by rewrite lower_join, filter_keep_lower, split_dot_lower.
Qed.





End KeyExtraction.

(** C6.  [extract_domain_and_company] is a total function of the URL string:
    it returns a key for every input, the empty, the blank and the unparsable
    one included, whatever the parser answers; and the key it returns is
    lowercase, that is, equal to its own lowercasing.  A profile key may hold
    letters outside ASCII: the key is then the UTF-8 form of a text that the
    lowercasing of Unicode leaves as it is. *)
Theorem extract_returns_lowercase_key (tldextract_extract : string → ExtractResult) (url : string) :
  PyStr.lower (extract_domain_and_company tldextract_extract url)
  = extract_domain_and_company tldextract_extract url
  ∧ (extract_domain_and_company tldextract_extract url
     = domain_key (tldextract_extract (re_sub_double_scheme url))
     ∨ ∃ key : Unicode.str,
         extract_domain_and_company tldextract_extract url = Utf8.encode key
         ∧ Unicode.lower key = key).
Proof.
  unfold extract_domain_and_company.
  case_bool_decide; [|split; [apply domain_key_lower|by left]].
  case_bool_decide; cbn [negb]; [split; [apply domain_key_lower|by left]|].
  split; [apply preprocess_linkedin_url_lower|].
  right. eexists. split; [done|].
  unfold Unicode.lower. apply lower_from_fixed, preprocess_linkedin_url_lowercase.
Qed.




(** Percent-decoding leaves ASCII: the two bytes C3 A9 are the letter U+00E9,
    a word character, and the key holds it; an upper-case U+00C9 is
    lowercased to it. *)
Lemma percent_decoded_letter_example :
  preprocess_linkedin_url "https://www.linkedin.com/company/caf%C3%A9" = [99; 97; 102; 233]%N
  ∧ preprocess_linkedin_url "https://www.linkedin.com/company/CAF%C3%89" = [99; 97; 102; 233]%N
  ∧ extract_domain_and_company TldExtract.extract "https://www.linkedin.com/company/caf%C3%A9"
    = Utf8.encode [99; 97; 102; 233]%N.
Proof. split_and!; vm_compute; reflexivity. Qed.

(** The order of the two steps matters: U+0130 lowercases to an [i] and a
    combining dot, which is no word character; and so does the line break in
    a query, after which the text is kept. *)
Lemma profile_key_order_example :
  preprocess_linkedin_url "https://www.linkedin.com/company/%C4%B0x" = [105; 120]%N
  ∧ claimed_profile_key "https://www.linkedin.com/company/%C4%B0x" = [105; 775; 120]%N
  ∧ preprocess_linkedin_url
      ("https://www.linkedin.com/company/x?a=1" +:+ String "010" "/company/y")
    = [121]%N.
Proof. split_and!; vm_compute; reflexivity. Qed.

(** ** Strings under a change of case *)

Section CaseFacts.





Lemma lower_length s : String.length (PyStr.lower s) = String.length s.
Proof. induction s as [|a s IH]; cbn [PyStr.lower String.length]; [done|]. by rewrite IH. Qed.



















End CaseFacts.

(** ** The parser under a change of case *)

Section ParserCase.

Variable public_suffix : list string → bool.







End ParserCase.

(** ** Host names *)

Section HostFacts.





















End HostFacts.

(** ** The key under a host prefix *)

Section PrefixFacts.

Variable public_suffix : list string → bool.











End PrefixFacts.

(** ** The key under a change of case *)

Section CaseKey.

Variable public_suffix : list string → bool.




End CaseKey.




(** The conditions are needed.  A host that is a public suffix has no domain
    name, and the prefix becomes the domain name; an upper-case country-code
    token is not recognised, so the subdomain is not prepended; an upper-case
    profile host is not recognised either; and the doubled scheme is repaired
    in lower case only. *)
Lemma public_suffix_host_example :
  extract_domain_and_company TldExtract.extract "http://co.uk" = ".co.uk"
  ∧ extract_domain_and_company TldExtract.extract "http://www.co.uk" = "co.uk".
Proof. split; vm_compute; reflexivity. Qed.

Lemma country_code_token_case_example :
  extract_domain_and_company TldExtract.extract "http://acme.us.com" = "acme.us.com"
  ∧ extract_domain_and_company TldExtract.extract "http://ACME.US.COM" = "us.com".
Proof. split; vm_compute; reflexivity. Qed.

Lemma profile_host_case_example :
  extract_domain_and_company TldExtract.extract "https://linkedin.com/company/acme" = "acme"
  ∧ extract_domain_and_company TldExtract.extract "https://LinkedIn.com/company/acme"
    = "linkedin.com".
Proof. split; vm_compute; reflexivity. Qed.

Lemma double_scheme_case_example :
  extract_domain_and_company TldExtract.extract "http://http//acme.com" = "acme.com"
  ∧ extract_domain_and_company TldExtract.extract "HTTP://HTTP//ACME.COM" = "http.".
Proof. split; vm_compute; reflexivity. Qed.

(** ** The fuzzy matcher *)

Section FuzzyMatcher.

Lemma dist_ltb_finite a d : dist_ltb (Finite a) d = true ↔ ∀ b, d = Finite b → a < b.
Proof.
  destruct d as [b|]; simpl.
  - rewrite Nat.ltb_lt. split; [by intros ? ? [= <-]|eauto].
  - split; [by intros|done].
Qed.

(** The loop either keeps the state it started from, because no entry is
    closer than [min_distance], or ends on the first closest entry. *)
Lemma best_match_loop_spec key pool best_match min_distance :
  (best_match_loop (Some key) (Some <$> pool) best_match min_distance
     = Ok (best_match, min_distance)
   ∧ ∀ other, other ∈ pool → dist_ltb (Finite (levenshtein key other)) min_distance = false)
  ∨ (∃ i best,
       best_match_loop (Some key) (Some <$> pool) best_match min_distance
         = Ok (Some best, Finite (levenshtein key best))
       ∧ dist_ltb (Finite (levenshtein key best)) min_distance = true
       ∧ first_minimum key pool i best).
Proof.
  unfold first_minimum. revert best_match min_distance.
  induction pool as [|crm pool IH]; intros best_match min_distance.
  { left. split; [done|]. by intros ? ?%elem_of_nil. }
  cbn [fmap list_fmap best_match_loop py_levenshtein mbind result_bind].
  destruct (dist_ltb (Finite (levenshtein key crm)) min_distance) eqn:Hlt.
  - right.
    destruct (IH (Some crm) (Finite (levenshtein key crm)))
      as [[Hrun Hfar]|(i & best & Hrun & Hcloser & Hi & Hmin & Hfirst)].
    + exists 0, crm. split_and!; [done..| |].
      * intros [|j] other; simpl.
        { by intros [= <-]. }
        intros Hj. specialize (Hfar other (list_elem_of_lookup_2 _ _ _ Hj)).
        simpl in Hfar. apply Nat.ltb_ge in Hfar. done.
      * intros j other _ Hj. lia.
    + simpl in Hcloser. apply Nat.ltb_lt in Hcloser.
      exists (S i), best. split_and!; [done| |done| |].
      * apply dist_ltb_finite. intros b ->.
        pose proof (proj1 (dist_ltb_finite _ _) Hlt b eq_refl). lia.
      * intros [|j] other; simpl; [intros [= <-]; lia|apply Hmin].
      * intros [|j] other; simpl; [intros [= <-] _; lia|].
        intros Hj Hlt'. apply (Hfirst j); [done|lia].
  - destruct (IH best_match min_distance)
      as [[Hrun Hfar]|(i & best & Hrun & Hcloser & Hi & Hmin & Hfirst)].
    + left. split; [done|]. intros other [->|Hin]%elem_of_cons; auto.
    + right. exists (S i), best.
      assert (levenshtein key best < levenshtein key crm) as Hcrm.
      { destruct min_distance as [b|]; simpl in *; [|done].
        apply Nat.ltb_lt in Hcloser. apply Nat.ltb_ge in Hlt. lia. }
      split_and!; [done..| |].
      * intros [|j] other; simpl; [intros [= <-]; lia|apply Hmin].
      * intros [|j] other; simpl; [intros [= <-] _; lia|].
        intros Hj Hlt'. apply (Hfirst j); [done|lia].
Qed.

Lemma find_best_match_first_minimum key pool :
  pool ≠ [] →
  ∃ i best,
    find_best_match_with_distance_poly (Some key) (Some <$> pool)
      = Ok (Some best, Finite (levenshtein key best))
    ∧ first_minimum key pool i best.
Proof.
  intros Hne. unfold find_best_match_with_distance_poly.
  destruct (best_match_loop_spec key pool None Inf)
    as [[_ Hfar]|(i & best & Hrun & _ & Hmin)]; [|by eauto].
  destruct pool as [|crm pool]; [done|].
  by specialize (Hfar crm (list_elem_of_here _ _)).
Qed.

Lemma mapM_result_cons {A B} (f : A → result B) x xs :
  mapM f (x :: xs) = y ← f x; ys ← mapM f xs; Ok (y :: ys).
Proof. reflexivity. Qed.

End FuzzyMatcher.



(** C10.  With an empty pool of right keys the fuzzy matcher does not raise:
    [find_best_match_with_distance_poly] returns the pair (no match, infinite
    distance), and [process_companys] in fuzzy mode ([match_type] "fuzzy" or
    absent) returns the triple (left key, no match, infinite distance) for
    every left key. *)
Theorem fuzzy_empty_pool_sentinel (cd_company : cell) (crm_companys : list cell) :
  find_best_match_with_distance_poly cd_company [] = Ok (None, Inf)
  ∧ process_companys crm_companys [] (Some "fuzzy")
    = Ok ((λ key, (key, None, Inf)) <$> crm_companys)
  ∧ process_companys crm_companys [] None
    = Ok ((λ key, (key, None, Inf)) <$> crm_companys).
Proof.
  split; [done|].
  unfold process_companys. rewrite !bool_decide_eq_false_2 by discriminate.
  assert (mapM (λ crm_company : cell,
                  '(best_match, distance) ← find_best_match_with_distance_poly crm_company [];
                  Ok (crm_company, best_match, distance)) crm_companys
          = Ok ((λ key, (key, None, Inf)) <$> crm_companys)) as ->; [|done].
  induction crm_companys as [|key keys IH]; [done|].
  rewrite mapM_result_cons, IH. reflexivity.
Qed.

(** ** Tables *)

Section Frames.

Lemma elem_of_list_filter {A} (p : A → bool) (l : list A) x :
  x ∈ List.filter p l ↔ x ∈ l ∧ p x = true.
Proof. rewrite !list_elem_of_In. apply filter_In. Qed.

Lemma filter_zip_fmap {A} (h : A → bool) (l : list A) :
  fst <$> List.filter snd (zip l (h <$> l)) = List.filter h l.
Proof.
  induction l as [|x l IH]; [done|].
  cbn [fmap list_fmap zip zip_with List.filter snd].
  destruct (h x); cbn [fmap list_fmap fst]; by rewrite <- IH.
Qed.

Lemma zip_with_fmap_r {A B C} (f : A → B → C) (g : A → B) (l : list A) :
  zip_with f l (g <$> l) = (λ x, f x (g x)) <$> l.
Proof. induction l as [|x l IH]; [done|]. cbn [fmap list_fmap zip_with]. by f_equal. Qed.

Lemma getitem_Ok df c values :
  getitem df c = Ok values ↔ c ∈ columns df ∧ values = column_values df c.
Proof.
  unfold getitem. case_bool_decide; split.
  - by intros [= <-].
  - by intros [_ ->].
  - done.
  - by intros [? _].
Qed.

Lemma boolean_index_rows df (h : cell → bool) c :
  rows (boolean_index df (h <$> column_values df c))
  = List.filter (λ r, h (cell_at r c)) (rows df).
Proof.
  unfold boolean_index, column_values. simpl.
  rewrite <- list_fmap_compose. apply filter_zip_fmap.
Qed.

Lemma project_lookup names r c :
  project names r !! c = if bool_decide (c ∈ names) then Some (cell_at r c) else None.
Proof.
  unfold project. induction names as [|n names IH]; [done|].
  rewrite fmap_cons, list_to_map_cons.
  destruct (decide (n = c)) as [->|Hne].
  - rewrite lookup_insert_eq. by rewrite bool_decide_eq_true_2 by left.
  - rewrite lookup_insert_ne by done.
    rewrite IH. destruct (decide (c ∈ names)) as [Hin|Hout].
    + rewrite (bool_decide_eq_true_2 (c ∈ names)) by done.
      by rewrite (bool_decide_eq_true_2 (c ∈ n :: names)) by (by right).
    + rewrite (bool_decide_eq_false_2 (c ∈ names)) by done.
      rewrite (bool_decide_eq_false_2 (c ∈ n :: names)); [done|].
      by intros [->|?]%elem_of_cons.
Qed.

Lemma project_cell_at names r c :
  c ∈ names → cell_at (project names r) c = cell_at r c.
Proof. intros Hc. unfold cell_at at 1. by rewrite project_lookup, bool_decide_eq_true_2. Qed.

Lemma select_Ok df names out :
  select df names = Ok out →
  Forall (λ c, c ∈ columns df) names
  ∧ out = {| columns := names; rows := project names <$> rows df |}.
Proof.
  unfold select. destruct (List.find _ names) as [c|] eqn:Hfind; [done|].
  intros [= <-]. split; [|done].
  apply Forall_forall. intros c Hc.
  pose proof (find_none _ _ Hfind c (proj1 (list_elem_of_In _ _) Hc)) as Hn.
  simpl in Hn. apply negb_false_iff, bool_decide_eq_true in Hn. done.
Qed.

Lemma non_duplicates_rows df key r :
  r ∈ rows (boolean_index df (negb <$> duplicated (column_values df key)))
  ↔ r ∈ rows df ∧ ¬ 2 ≤ occurrences (cell_at r key) (column_values df key).
Proof.
  unfold duplicated. rewrite <- list_fmap_compose.
  rewrite (boolean_index_rows df
             (negb ∘ (λ v, bool_decide (2 ≤ occurrences v (column_values df key)))) key).
  rewrite elem_of_list_filter. simpl.
  by rewrite negb_true_iff, bool_decide_eq_false.
Qed.

Lemma duplicates_sorted_rows df key r :
  r ∈ rows (sort_values (boolean_index df (duplicated (column_values df key))) key)
  ↔ r ∈ rows df ∧ 2 ≤ occurrences (cell_at r key) (column_values df key).
Proof.
  unfold sort_values. cbn [rows]. rewrite merge_sort_Permutation. unfold duplicated.
  rewrite (boolean_index_rows df
             (λ v, bool_decide (2 ≤ occurrences v (column_values df key))) key).
  by rewrite elem_of_list_filter, bool_decide_eq_true.
Qed.

Lemma occurrences_zero v s : (∀ w, w ∈ s → w ≠ v) → occurrences v s = 0.
Proof.
  intros Hne. unfold occurrences.
  induction s as [|w s IH]; [done|]. simpl.
  rewrite bool_decide_eq_false_2 by (apply Hne; left).
  apply IH. intros ? ?. apply Hne. by right.
Qed.


Lemma occurrences_app v s t : occurrences v (s ++ t) = occurrences v s + occurrences v t.
Proof. unfold occurrences. by rewrite List.filter_app, length_app. Qed.

Lemma occurrences_replicate v w n :
  occurrences v (replicate n w) = if decide (w = v) then n else 0.
Proof.
  unfold occurrences. induction n as [|n IH]; simpl; [by case_decide|].
  case_bool_decide; case_decide; simpl; try done; by rewrite IH.
Qed.

Lemma occurrences_NoDup v s : NoDup s → occurrences v s ≤ 1.
Proof.
  induction 1 as [|w s Hw _ IH]; [simpl; unfold occurrences; simpl; lia|].
  change (w :: s) with ([w] ++ s). rewrite occurrences_app.
  unfold occurrences at 1. simpl. case_bool_decide as Heq; simpl; [|lia].
  subst w. rewrite occurrences_zero; [lia|]. intros ? ? ->. done.
Qed.

End Frames.

(** C1.  The duplicate-resolution pass splits a matched table in two.  With
    the grouping attribute the value under the last column: a row is in one
    of the two outputs exactly when it is a row of the input; no row is in
    both; a row of the input is in the ambiguous output exactly when its
    grouping value occurs at least twice in the input; and the grouping value
    of an ambiguous row does not occur in the clean output. *)
Theorem dedup_partition (df clean ambiguous : DataFrame) :
  split_duplicates df = Ok (clean, ambiguous) →
  ∃ last_column,
    last (columns df) = Some last_column
    ∧ (∀ r, r ∈ rows clean ∨ r ∈ rows ambiguous ↔ r ∈ rows df)
    ∧ (∀ r, ¬ (r ∈ rows clean ∧ r ∈ rows ambiguous))
    ∧ (∀ r, r ∈ rows df →
         (r ∈ rows ambiguous
          ↔ 2 ≤ occurrences (cell_at r last_column) (column_values df last_column)))
    ∧ (∀ r, r ∈ rows ambiguous →
         occurrences (cell_at r last_column) (column_values clean last_column) = 0).
Proof.
  unfold split_duplicates. intros Hrun.
  destruct (last (columns df)) as [key|] eqn:Hlast; [|done].
  cbn [mbind result_bind] in Hrun.
  destruct (getitem df key) as [keys|] eqn:Hkeys; [|done].
  apply getitem_Ok in Hkeys as [_ ->].
  cbn [mbind result_bind] in Hrun. injection Hrun as <- <-.
  exists key. split; [done|].
  split_and!.
  - intros r. rewrite non_duplicates_rows, duplicates_sorted_rows.
    destruct (decide (2 ≤ occurrences (cell_at r key) (column_values df key))); tauto.
  - intros r. rewrite non_duplicates_rows, duplicates_sorted_rows. tauto.
  - intros r Hr. rewrite duplicates_sorted_rows. tauto.
  - intros r [_ Hdup]%duplicates_sorted_rows. apply occurrences_zero.
    intros w (r' & -> & Hr')%list_elem_of_fmap Heq.
    apply non_duplicates_rows in Hr' as [_ Hnot]. by rewrite Heq in Hnot.
Qed.

(** [process_matched_output] writes the two tables of [split_duplicates]:
    the clean one back to the matched file, the ambiguous one to the
    duplicate file. *)
Lemma process_matched_output_files matched_path duplicate_file fs fs' df :
  fs !! matched_path = Some df →
  matched_path ≠ duplicate_file →
  process_matched_output matched_path duplicate_file fs = Ok fs' →
  ∃ clean ambiguous,
    split_duplicates df = Ok (clean, ambiguous)
    ∧ fs' !! matched_path = Some clean
    ∧ fs' !! duplicate_file = Some ambiguous.
Proof.
  intros Hfile Hne. unfold process_matched_output, read_csv. rewrite Hfile.
  cbn [mbind result_bind].
  destruct (split_duplicates df) as [[clean ambiguous]|]; [|done].
  cbn [mbind result_bind]. intros [= <-]. exists clean, ambiguous.
  split_and!; [done|by rewrite lookup_insert_eq|].
  rewrite lookup_insert_ne by done. by rewrite lookup_insert_eq.
Qed.

(** The table of three pairs: the two pairs on [acme.com] are ambiguous, the
    pair on [other.org] is clean. *)
Lemma dedup_partition_witness :
  ∃ clean ambiguous,
    split_duplicates demo_matched = Ok (clean, ambiguous)
    ∧ length (rows clean) = 1 ∧ length (rows ambiguous) = 2
    ∧ ∃ last_column,
        last (columns demo_matched) = Some last_column
        ∧ (∀ r, r ∈ rows clean ∨ r ∈ rows ambiguous ↔ r ∈ rows demo_matched)
        ∧ (∀ r, ¬ (r ∈ rows clean ∧ r ∈ rows ambiguous))
        ∧ (∀ r, r ∈ rows demo_matched →
             (r ∈ rows ambiguous
              ↔ 2 ≤ occurrences (cell_at r last_column)
                      (column_values demo_matched last_column)))
        ∧ (∀ r, r ∈ rows ambiguous →
             occurrences (cell_at r last_column) (column_values clean last_column) = 0).
Proof.
  destruct (split_duplicates demo_matched) as [[clean ambiguous]|] eqn:Hrun;
    [|by vm_compute in Hrun].
  exists clean, ambiguous. split; [done|].
  split; [by vm_compute in Hrun; injection Hrun as <- <-|].
  split; [by vm_compute in Hrun; injection Hrun as <- <-|].
  exact (dedup_partition demo_matched clean ambiguous Hrun).
Defined.

(** ** One matching operation *)

Section Operation.

Variable tldextract_extract : string → ExtractResult.

Lemma cell_at_insert r c v : cell_at (<[c := v]> r) c = v.
Proof. unfold cell_at. by rewrite lookup_insert_eq. Qed.

Lemma cell_at_insert_ne r c c' v : c ≠ c' → cell_at (<[c := v]> r) c' = cell_at r c'.
Proof. intros. unfold cell_at. by rewrite lookup_insert_ne. Qed.

Lemma zip_with_fmap_both {A B C D} (f : B → C → D) (g : A → B) (h : A → C) (l : list A) :
  zip_with f (g <$> l) (h <$> l) = (λ x, f (g x) (h x)) <$> l.
Proof. induction l as [|x l IH]; [done|]. cbn [fmap list_fmap zip_with]. by f_equal. Qed.

Lemma setitem_columns df c values x :
  x ∈ columns (setitem df c values) ↔ x ∈ columns df ∨ x = c.
Proof.
  unfold setitem. cbn [columns]. case_bool_decide.
  - split; [by left|]. by intros [?| ->].
  - rewrite elem_of_app, list_elem_of_singleton. done.
Qed.

Lemma setitem_rows df c (g : row → cell) :
  rows (setitem df c (g <$> rows df)) = (λ r, <[c := g r]> r) <$> rows df.
Proof. unfold setitem. cbn [rows]. apply zip_with_fmap_r. Qed.

Lemma load_Some fs path id_column url_column rename_dict df :
  load_clean_and_rename_dataframe fs path id_column url_column rename_dict = Some df →
  id_column ∈ columns df ∧ url_column ∈ columns df
  ∧ ∀ r, r ∈ rows df → is_Some (cell_at r id_column) ∧ is_Some (cell_at r url_column).
Proof.
  unfold load_clean_and_rename_dataframe.
  destruct (read_csv fs path) as [raw|]; [|done]. cbn [mbind result_bind].
  destruct (empty raw); [done|].
  set (renamed := match rename_dict with Some _ => _ | None => _ end).
  destruct (negb _ || negb _) eqn:Hcols; [done|].
  apply orb_false_elim in Hcols as [Hid Hurl].
  apply negb_false_iff, bool_decide_eq_true in Hid.
  apply negb_false_iff, bool_decide_eq_true in Hurl.
  intros [= <-]. split_and!; [done..|].
  intros r [_ Hr]%elem_of_list_filter. cbn [forallb] in Hr.
  apply andb_prop in Hr as [H1 H2]. apply andb_prop in H2 as [H2 _].
  by apply bool_decide_eq_true in H1, H2.
Qed.

Lemma preprocess_urls_Some df url_column company_column out :
  preprocess_urls tldextract_extract (Some df) url_column company_column = Some out →
  rows df ≠ []
  ∧ url_column ∈ columns df
  ∧ (∀ x, x ∈ columns out ↔ x ∈ columns df ∨ x = company_column)
  ∧ rows out = annotate tldextract_extract url_column company_column <$> rows df.
Proof.
  unfold preprocess_urls. destruct (empty df) eqn:Hempty; [done|].
  apply orb_false_elim in Hempty as [_ Hrows]. apply bool_decide_eq_false in Hrows.
  destruct (getitem df url_column) as [urls|] eqn:Hurls; [|done].
  apply getitem_Ok in Hurls as [Hurl ->]. cbn [mbind result_bind].
  set (cast := setitem df url_column (astype_str (column_values df url_column))).
  assert (rows cast = (λ r, <[url_column := Some (str_of_cell (cell_at r url_column))]> r)
                        <$> rows df) as Hcast.
  { unfold cast, astype_str, column_values. rewrite <- list_fmap_compose.
    apply (setitem_rows df url_column (λ r, Some (str_of_cell (cell_at r url_column)))). }
  destruct (getitem cast url_column) as [urls|] eqn:Hurls; [|done].
  apply getitem_Ok in Hurls as [_ ->]. cbn [mbind result_bind catch].
  intros [= <-]. split_and!; [done..| |].
  - intros x. unfold cast. rewrite !setitem_columns. split; [|tauto].
    intros [[?| ->]| ->]; auto.
  - unfold column_values. rewrite <- list_fmap_compose.
    rewrite setitem_rows, Hcast, <- list_fmap_compose.
    apply list_fmap_ext. intros _ r _.
    unfold annotate. simpl. by rewrite cell_at_insert.
Qed.

Lemma merge_Ok left right left_on right_on out :
  merge left right left_on right_on = Ok out →
  rows out = l ← rows left;
             merged_row left right l <$>
               List.filter (λ r, bool_decide (cell_at l left_on = cell_at r right_on))
                 (rows right).
Proof.
  unfold merge. destruct (negb _); [done|]. destruct (negb _); [done|]. by intros [= <-].
Qed.

Lemma exact_results_values (keys1 keys2 : list cell) :
  (λ t : cell * cell * distance, t.1.2)
    <$> ((λ item, if bool_decide (item ∈ (list_to_set keys2 : gset cell))
                  then (item, item, Finite 0) else (item, None, Inf)) <$> keys1)
  = exact_match_of keys2 <$> keys1.
Proof.
  rewrite <- list_fmap_compose. apply list_fmap_ext. intros _ item _.
  unfold exact_match_of. simpl.
  destruct (decide (item ∈ keys2)) as [Hin|Hout].
  - rewrite (bool_decide_eq_true_2 (item ∈ keys2)) by done.
    by rewrite bool_decide_eq_true_2 by (by apply elem_of_list_to_set).
  - rewrite (bool_decide_eq_false_2 (item ∈ keys2)) by done.
    by rewrite bool_decide_eq_false_2 by (by rewrite elem_of_list_to_set).
Qed.

Lemma match_companies_Some df1 df2 c1 c2 i1 i2 u1 u2 out1 matched :
  match_companies (Some df1) (Some df2) c1 c2 i1 i2 u1 u2 = (Some out1, Some matched) →
  c1 ∈ columns df1
  ∧ out1 = setitem df1 "exact_match"
             ((λ r, exact_match_of (column_values df2 c2) (cell_at r c1)) <$> rows df1)
  ∧ ∃ merged,
      merge out1 df2 "exact_match" c2 = Ok merged
      ∧ select merged [i1; i2; u1; u2; c1; c2] = Ok matched.
Proof.
  unfold match_companies. destruct (empty df1 || empty df2); [done|].
  destruct (getitem df1 c1) as [keys1|] eqn:Hk1; [|done].
  apply getitem_Ok in Hk1 as [Hc1 ->]. cbn [mbind result_bind].
  destruct (getitem df2 c2) as [keys2|] eqn:Hk2; [|done].
  apply getitem_Ok in Hk2 as [_ ->]. cbn [mbind result_bind].
  unfold process_companys. rewrite bool_decide_eq_true_2 by done.
  rewrite exact_results_values.
  intros [= <- Hmatched].
  split_and!; [done|by unfold column_values; rewrite <- list_fmap_compose|].
  destruct (merge _ df2 "exact_match" c2) as [merged|]; [|done].
  cbn [mbind result_bind] in Hmatched. exists merged. split; [done|].
  destruct (select merged _); [|done]. by injection Hmatched as ->.
Qed.

(** What a run of [process_tables] that succeeds went through. *)
Lemma process_tables_Ok op fs st :
  process_tables tldextract_extract op fs = Ok st →
  ∃ loaded1 loaded2 keyed1,
    load_clean_and_rename_dataframe fs (file_path1 op) (id_col1 op) (url_col1 op)
      (rename_dict1 op) = Some loaded1
    ∧ load_clean_and_rename_dataframe fs (file_path2 op) (id_col2 op) (url_col2 op)
        (rename_dict2 op) = Some loaded2
    ∧ preprocess_urls tldextract_extract (Some loaded1) (url_col1 op) (company_col1 op)
      = Some keyed1
    ∧ preprocess_urls tldextract_extract (Some loaded2) (url_col2 op) (company_col2 op)
      = Some (right_frame st)
    ∧ match_companies (Some keyed1) (Some (right_frame st)) (company_col1 op) (company_col2 op)
        (id_col1 op) (id_col2 op) (url_col1 op) (url_col2 op)
      = (Some (left_frame st), Some (matched_df st))
    ∧ id_col1 op ∈ columns (left_frame st)
    ∧ select (boolean_index (left_frame st)
                (negb <$> isin (column_values (left_frame st) (id_col1 op))
                            (column_values (matched_df st) (id_col1 op))))
        [id_col1 op; url_col1 op]
      = Ok (unmatched_df st).
Proof.
  unfold process_tables.
  destruct (load_clean_and_rename_dataframe fs (file_path1 op) _ _ _)
    as [loaded1|] eqn:Hload1; [|done].
  destruct (load_clean_and_rename_dataframe fs (file_path2 op) _ _ _)
    as [loaded2|] eqn:Hload2; [|done].
  destruct (preprocess_urls _ (Some loaded1) _ _) as [keyed1|] eqn:Hkeyed1; [|done].
  destruct (preprocess_urls _ (Some loaded2) _ _) as [keyed2|] eqn:Hkeyed2; [|done].
  destruct (match_companies _ _ _ _ _ _ _ _) as [[d1|] [matched|]] eqn:Hmatch; try done.
  destruct (getitem d1 (id_col1 op)) as [ids|] eqn:Hids; [|done].
  apply getitem_Ok in Hids as [Hid ->]. cbn [mbind result_bind].
  destruct (getitem matched (id_col1 op)) as [mids|] eqn:Hmids; [|done].
  apply getitem_Ok in Hmids as [_ ->]. cbn [mbind result_bind].
  destruct (select _ _) as [unmatched|] eqn:Hsel; [|done].
  cbn [mbind result_bind]. intros [= <-]. cbn [left_frame right_frame matched_df unmatched_df].
  by exists loaded1, loaded2, keyed1.
Qed.

End Operation.

Section OperationFacts.

Variable tldextract_extract : string → ExtractResult.

Lemma preprocess_urls_no_rows df url_column company_column :
  rows df = [] → preprocess_urls tldextract_extract (Some df) url_column company_column = None.
Proof.
  intros Hrows. unfold preprocess_urls, empty.
  by rewrite (bool_decide_eq_true_2 (rows df = [])), orb_true_r by done.
Qed.

Lemma annotate_cell_at url_column company_column r c :
  is_Some (cell_at r url_column) → c ≠ company_column →
  cell_at (annotate tldextract_extract url_column company_column r) c = cell_at r c.
Proof.
  intros [s Hs] Hc. unfold annotate. rewrite cell_at_insert_ne by done.
  destruct (decide (url_column = c)) as [<-|Hne].
  - by rewrite cell_at_insert, Hs.
  - by rewrite cell_at_insert_ne.
Qed.

Lemma annotate_key url_column company_column r :
  is_Some (cell_at (annotate tldextract_extract url_column company_column r) company_column).
Proof. unfold annotate. rewrite cell_at_insert. by eexists. Qed.

(** Without a column name in common, the join keeps the names, and a left
    column of a joined row holds the value of the left row. *)
Lemma merged_row_left left right l r c :
  Forall (λ x, x ∉ columns right) (columns left) → c ∈ columns left →
  cell_at (merged_row left right l r) c = cell_at l c.
Proof.
  intros Hdisj Hc. unfold merged_row, cell_at at 1.
  rewrite list_to_map_app.
  assert ((λ x, (merged_name (columns right) "_x" x, cell_at l x)) <$> columns left
          = (λ x, (x, cell_at l x)) <$> columns left) as ->.
  { apply Forall_fmap_ext_1. eapply Forall_impl; [exact Hdisj|].
    intros x Hx. simpl. unfold merged_name. by rewrite bool_decide_eq_false_2. }
  pose proof (project_lookup (columns left) l c) as Hlook.
  unfold project in Hlook. rewrite bool_decide_eq_true_2 in Hlook by done.
  by rewrite (lookup_union_Some_l _ _ _ _ Hlook).
Qed.

Lemma occurrences_fmap_filter {A} (f : A → cell) v (l : list A) :
  length (List.filter (λ x, bool_decide (v = f x)) l) = occurrences v (f <$> l).
Proof.
  unfold occurrences. induction l as [|x l IH]; [done|].
  cbn [fmap list_fmap List.filter].
  destruct (decide (v = f x)) as [Heq|Hne].
  - rewrite (bool_decide_eq_true_2 (v = f x)), (bool_decide_eq_true_2 (f x = v)) by done.
    simpl. by rewrite IH.
  - rewrite (bool_decide_eq_false_2 (v = f x)), (bool_decide_eq_false_2 (f x = v))
      by congruence.
    done.
Qed.

(** With distinct identifiers, the rows a left row contributes are the
    only ones that carry its identifier. *)
Lemma occurrences_bind_replicate {A} (f : A → cell) (n : A → nat) (l : list A) x :
  NoDup (f <$> l) → x ∈ l →
  occurrences (f x) (y ← l; replicate (n y) (f y)) = n x.
Proof.
  induction l as [|y l IH]; [by intros _ ?%elem_of_nil|].
  rewrite fmap_cons, NoDup_cons. intros [Hy Hnd] Hx.
  cbn [mbind list_bind]. rewrite occurrences_app, occurrences_replicate.
  apply elem_of_cons in Hx as [->|Hx].
  - rewrite decide_True by done.
    rewrite occurrences_zero; [lia|].
    intros w (z & Hw & Hz)%list_elem_of_bind ->.
    apply elem_of_replicate in Hw as [Hw _].
    apply Hy. rewrite Hw. by apply list_elem_of_fmap_2.
  - rewrite decide_False.
    + by rewrite IH.
    + intros Heq. apply Hy. rewrite Heq. by apply list_elem_of_fmap_2.
Qed.

Lemma not_isin_rows df c values :
  rows (boolean_index df (negb <$> isin (column_values df c) values))
  = List.filter (λ r, negb (bool_decide (cell_at r c ∈ values))) (rows df).
Proof.
  unfold isin. rewrite <- list_fmap_compose.
  apply (boolean_index_rows df (negb ∘ (λ v, bool_decide (v ∈ values))) c).
Qed.

Lemma exact_match_of_occurrences keys2 item :
  None ∉ keys2 →
  occurrences (exact_match_of keys2 item) keys2 = occurrences item keys2.
Proof.
  intros Hnull. unfold exact_match_of. case_bool_decide as Hin; [done|].
  rewrite !occurrences_zero; [done|by intros ? ? ->..].
Qed.

End OperationFacts.

(** C7.  When the left or the right input has no row left after loading and
    null-filtering (or could not be loaded at all), [process] fails with a
    [ValueError], the error it logs, and leaves the files as they were:
    neither the matched nor the unmatched file is written. *)
Theorem empty_input_abandons_operation
    (tldextract_extract : string → ExtractResult) (writable : string → bool)
    (op : operation) (fs : files) :
  (∀ df, load_clean_and_rename_dataframe fs (file_path1 op) (id_col1 op) (url_col1 op)
           (rename_dict1 op) = Some df → rows df = [])
  ∨ (∀ df, load_clean_and_rename_dataframe fs (file_path2 op) (id_col2 op) (url_col2 op)
             (rename_dict2 op) = Some df → rows df = []) →
  ∃ msg, process tldextract_extract writable op fs = (fs, Some (ValueError msg)).
Proof.
  intros Hempty. unfold process, process_tables.
  destruct (load_clean_and_rename_dataframe fs (file_path1 op) _ _ _) as [df1|];
    [|by eexists].
  destruct (load_clean_and_rename_dataframe fs (file_path2 op) _ _ _) as [df2|];
    [|by eexists].
  destruct Hempty as [Hrows|Hrows].
  - rewrite (preprocess_urls_no_rows _ df1) by auto. by eexists.
  - rewrite (preprocess_urls_no_rows _ df2) by auto.
    destruct (preprocess_urls _ (Some df1) _ _); by eexists.
Qed.

(** The only right record has a null URL: nothing is written. *)
Lemma empty_input_abandons_operation_witness :
  ∃ msg, process TldExtract.extract always_writable (demo_operation "right_null.csv")
           demo_files
         = (demo_files, Some (ValueError msg)).
Proof.
  apply empty_input_abandons_operation. right.
  intros df Hload. vm_compute in Hload. by injection Hload as <-.
Defined.

(** C2.  After an exact-matching operation that went through, the outputs
    are the matched and the unmatched table, and for every left record the
    identifier is in the unmatched table exactly when it is in no pair of the
    matched table: never in both, never in neither. *)
Theorem exact_match_completeness
    (tldextract_extract : string → ExtractResult) (writable : string → bool)
    (op : operation) (fs : files) (st : stage) :
  process_tables tldextract_extract op fs = Ok st →
  process tldextract_extract writable op fs
  = (save_results writable fs (Some (matched_df st)) (Some (unmatched_df st))
       (matched_path op) (unmatched_path op), None)
  ∧ ∀ r, r ∈ rows (left_frame st) →
      (cell_at r (id_col1 op) ∈ column_values (unmatched_df st) (id_col1 op)
       ↔ cell_at r (id_col1 op) ∉ column_values (matched_df st) (id_col1 op)).
Proof.
  intros Hrun. split; [unfold process; by rewrite Hrun|].
  apply process_tables_Ok in Hrun
    as (loaded1 & loaded2 & keyed1 & _ & _ & _ & _ & _ & Hid & Hsel).
  apply select_Ok in Hsel as [_ ->]. intros r Hr.
  unfold column_values at 1. cbn [rows].
  rewrite not_isin_rows, <- list_fmap_compose, list_elem_of_fmap. split.
  - intros (r' & Heq & [_ Hkeep]%elem_of_list_filter).
    simpl in Heq, Hkeep. rewrite project_cell_at in Heq by left.
    apply negb_true_iff, bool_decide_eq_false in Hkeep. by rewrite Heq.
  - intros Hout. exists r. split.
    + simpl. by rewrite project_cell_at by left.
    + apply elem_of_list_filter. split; [done|].
      simpl. by apply negb_true_iff, bool_decide_eq_false.
Qed.

(** Record 1 is matched, record 2 is unmatched. *)
Lemma exact_match_completeness_witness :
  ∃ st,
    process_tables TldExtract.extract (demo_operation "right.csv") demo_files = Ok st
    ∧ column_values (matched_df st) "CRM_ID" = [Some "1"; Some "1"]
    ∧ column_values (unmatched_df st) "CRM_ID" = [Some "2"]
    ∧ ∀ r, r ∈ rows (left_frame st) →
        (cell_at r "CRM_ID" ∈ column_values (unmatched_df st) "CRM_ID"
         ↔ cell_at r "CRM_ID" ∉ column_values (matched_df st) "CRM_ID").
Proof.
  destruct (process_tables TldExtract.extract (demo_operation "right.csv") demo_files)
    as [st|] eqn:Hrun; [|by vm_compute in Hrun].
  exists st. split; [done|].
  split; [by vm_compute in Hrun; injection Hrun as <-|].
  split; [by vm_compute in Hrun; injection Hrun as <-|].
  exact (proj2 (exact_match_completeness TldExtract.extract always_writable
                  (demo_operation "right.csv") demo_files st Hrun)).
Defined.

(** C9, amended.  After key extraction and matching the right table holds
    its original columns and the derived company-key column; the left table
    holds its original columns, the company-key column and the column
    [exact_match]; the values of every other column are those of the loaded
    table. *)
Theorem key_annotation_frame
    (tldextract_extract : string → ExtractResult) (op : operation) (fs : files) (st : stage)
    (loaded1 loaded2 : DataFrame) :
  load_clean_and_rename_dataframe fs (file_path1 op) (id_col1 op) (url_col1 op)
    (rename_dict1 op) = Some loaded1 →
  load_clean_and_rename_dataframe fs (file_path2 op) (id_col2 op) (url_col2 op)
    (rename_dict2 op) = Some loaded2 →
  process_tables tldextract_extract op fs = Ok st →
  (∀ c, c ∈ columns (left_frame st)
        ↔ c ∈ columns loaded1 ∨ c = company_col1 op ∨ c = "exact_match")
  ∧ (∀ c, c ∈ columns (right_frame st) ↔ c ∈ columns loaded2 ∨ c = company_col2 op)
  ∧ (∀ c, c ≠ company_col1 op → c ≠ "exact_match" →
          column_values (left_frame st) c = column_values loaded1 c)
  ∧ (∀ c, c ≠ company_col2 op →
          column_values (right_frame st) c = column_values loaded2 c).
Proof.
  intros Hload1 Hload2 Hrun.
  apply process_tables_Ok in Hrun
    as (l1 & l2 & keyed1 & Hl1 & Hl2 & Hkeyed1 & Hkeyed2 & Hmatch & _ & _).
  rewrite Hload1 in Hl1. injection Hl1 as <-.
  rewrite Hload2 in Hl2. injection Hl2 as <-.
  apply load_Some in Hload1 as (_ & _ & Hurls1).
  apply load_Some in Hload2 as (_ & _ & Hurls2).
  apply preprocess_urls_Some in Hkeyed1 as (_ & _ & Hcols1 & Hrows1).
  apply preprocess_urls_Some in Hkeyed2 as (_ & _ & Hcols2 & Hrows2).
  apply match_companies_Some in Hmatch as (_ & Hleft & _).
  split_and!.
  - intros c. rewrite Hleft, setitem_columns, Hcols1. tauto.
  - done.
  - intros c Hc Hex. rewrite Hleft. unfold column_values.
    rewrite setitem_rows, Hrows1, <- !list_fmap_compose.
    apply Forall_fmap_ext_1, Forall_forall. intros r Hr. simpl.
    rewrite cell_at_insert_ne by done.
    apply annotate_cell_at; [by apply Hurls1|done].
  - intros c Hc. unfold column_values.
    rewrite Hrows2, <- !list_fmap_compose.
    apply Forall_fmap_ext_1, Forall_forall. intros r Hr. simpl.
    apply annotate_cell_at; [by apply Hurls2|done].
Qed.

(** The two-record left table: the URL column is as loaded. *)
Lemma key_annotation_frame_witness :
  ∃ st loaded1,
    process_tables TldExtract.extract (demo_operation "right.csv") demo_files = Ok st
    ∧ column_values loaded1 "URL" = [Some "http://acme.com"; Some "http://other.org"]
    ∧ column_values (left_frame st) "URL" = column_values loaded1 "URL".
Proof.
  destruct (process_tables TldExtract.extract (demo_operation "right.csv") demo_files)
    as [st|] eqn:Hrun; [|by vm_compute in Hrun].
  destruct (load_clean_and_rename_dataframe demo_files "left.csv" "CRM_ID" "URL"
              (Some {[ "ID" := "CRM_ID" ]})) as [loaded1|] eqn:Hload1;
    [|by vm_compute in Hload1].
  destruct (load_clean_and_rename_dataframe demo_files "right.csv" "UUID" "HOMEPAGE" None)
    as [loaded2|] eqn:Hload2; [|by vm_compute in Hload2].
  exists st, loaded1. split; [done|].
  split; [by vm_compute in Hload1; injection Hload1 as <-|].
  pose proof (key_annotation_frame TldExtract.extract (demo_operation "right.csv")
                demo_files st loaded1 loaded2 Hload1 Hload2 Hrun) as (_ & _ & Hleft & _).
  by apply Hleft.
Defined.

(** C9 as stated fails on the left table: after matching it holds a second
    derived column, [exact_match]. *)
Lemma exact_match_column_counterexample :
  columns <$> load_clean_and_rename_dataframe demo_files "left.csv" "CRM_ID" "URL"
                (Some {[ "ID" := "CRM_ID" ]})
  = Some ["CRM_ID"; "URL"]
  ∧ (λ st, columns (left_frame st))
      <$> process_tables TldExtract.extract (demo_operation "right.csv") demo_files
    = Ok ["CRM_ID"; "URL"; "crm_company"; "exact_match"]
  ∧ ["CRM_ID"; "URL"; "crm_company"; "exact_match"]
    ≠ ["CRM_ID"; "URL"] ++ [company_col1 (demo_operation "right.csv")].
Proof.
  split_and!.
  - vm_compute. reflexivity.
  - vm_compute. reflexivity.
  - vm_compute. discriminate.
Qed.

Section FanOut.

Variable tldextract_extract : string → ExtractResult.

Lemma merge_Ok_names left right left_on right_on out :
  merge left right left_on right_on = Ok out →
  columns out = (merged_name (columns right) "_x" <$> columns left)
                ++ (merged_name (columns left) "_y" <$> columns right).
Proof.
  unfold merge. destruct (negb _); [done|]. destruct (negb _); [done|]. by intros [= <-].
Qed.

Lemma elem_of_suffixed_names left right x :
  x ∈ columns left → x ∈ columns right →
  x +:+ "_x" ∈ suffixed_names left right ∧ x +:+ "_y" ∈ suffixed_names left right.
Proof.
  intros Hl Hr. unfold suffixed_names.
  split; apply list_elem_of_bind; exists x.
  - split; [left|]. apply elem_of_list_filter. by rewrite bool_decide_eq_true.
  - split; [right; left|]. apply elem_of_list_filter. by rewrite bool_decide_eq_true.
Qed.


(** A left column that is still a column after the join, under a name that
    is no suffixed name, is no column of the right table. *)
Lemma joined_left_column left right c :
  c ∈ columns left → c ∉ suffixed_names left right →
  c ∈ (merged_name (columns right) "_x" <$> columns left)
      ++ (merged_name (columns left) "_y" <$> columns right) →
  c ∉ columns right.
Proof.
  intros Hl Hs Hin Hr. apply Hs.
  apply elem_of_app in Hin as [Hin|Hin];
    apply list_elem_of_fmap in Hin as (x & Hc & Hx); unfold merged_name in Hc;
    case_bool_decide as Hshared; subst c;
    try (by apply elem_of_suffixed_names); by destruct Hshared.
Qed.

(** A left column that keeps its name, and whose name is no suffixed name,
    holds the value of the left row in a joined row. *)
Lemma merged_row_left_named left right l r c :
  c ∈ columns left → c ∉ columns right → c ∉ suffixed_names left right →
  cell_at (merged_row left right l r) c = cell_at l c.
Proof.
  intros Hl Hr Hs. unfold merged_row, cell_at at 1. rewrite list_to_map_app.
  assert (∀ x, x ∈ columns left → x ∈ columns right → x +:+ "_x" ≠ c) as Hx.
  { intros x H1 H2 <-. by apply Hs, elem_of_suffixed_names. }
  assert ((list_to_map ((λ x, (merged_name (columns right) "_x" x, cell_at l x))
                          <$> columns left) : row) !! c
          = Some (cell_at l c)) as Hlook.
  { clear Hs. induction (columns left) as [|x xs IH]; [by apply elem_of_nil in Hl|].
    rewrite fmap_cons, list_to_map_cons. cbn [fst snd].
    destruct (decide (merged_name (columns right) "_x" x = c)) as [Heq|Hne].
    - rewrite Heq, lookup_insert_eq. unfold merged_name in Heq.
      case_bool_decide as Hshared; [|by rewrite Heq].
      exfalso. apply (Hx x); [by left|done..].
    - rewrite lookup_insert_ne by done. apply IH.
      + apply elem_of_cons in Hl as [->|Hl]; [|done].
        exfalso. apply Hne. unfold merged_name. by rewrite bool_decide_eq_false_2.
      + intros y Hy. apply Hx. by right. }
  by rewrite (lookup_union_Some_l _ _ _ _ Hlook).
Qed.

(** The identifiers of a matched table: every left row contributes its
    identifier once for each right row that carries its [exact_match]. *)
Lemma matched_identifiers op (left right merged matched : DataFrame) :
  id_col1 op ∉ suffixed_names left right →
  id_col1 op ∈ columns left →
  merge left right "exact_match" (company_col2 op) = Ok merged →
  select merged (matched_columns op) = Ok matched →
  column_values matched (id_col1 op)
  = l ← rows left;
    replicate
      (occurrences (cell_at l "exact_match") (column_values right (company_col2 op)))
      (cell_at l (id_col1 op)).
Proof.
  intros Hs Hid Hmerge Hsel.
  apply select_Ok in Hsel as [Hnames ->].
  assert (id_col1 op ∉ columns right) as Hr.
  { apply (joined_left_column left); [done..|].
    rewrite <- (merge_Ok_names _ _ _ _ _ Hmerge).
    apply (proj1 (Forall_forall (λ c, c ∈ columns merged) _) Hnames). by left. }
  apply merge_Ok in Hmerge.
  unfold column_values. cbn [rows]. rewrite Hmerge. clear Hmerge.
  induction (rows left) as [|l ls IH]; [done|].
  cbn [mbind list_bind]. rewrite !fmap_app, IH. f_equal.
  rewrite <- !list_fmap_compose.
  rewrite <- (occurrences_fmap_filter (λ r, cell_at r (company_col2 op))).
  apply const_fmap. intros _ r _. unfold compose, matched_columns.
  rewrite project_cell_at by left. by apply merged_row_left_named.
Qed.

Lemma process_tables_fan_out op fs st r :
  process_tables tldextract_extract op fs = Ok st →
  id_col1 op ∉ suffixed_names (left_frame st) (right_frame st) →
  NoDup (column_values (left_frame st) (id_col1 op)) →
  r ∈ rows (left_frame st) →
  occurrences (cell_at r (id_col1 op)) (column_values (matched_df st) (id_col1 op))
  = occurrences (cell_at r (company_col1 op))
      (column_values (right_frame st) (company_col2 op)).
Proof.
  intros Hrun Hs Hnd Hr.
  apply process_tables_Ok in Hrun
    as (l1 & l2 & keyed1 & _ & _ & _ & Hkeyed2 & Hmatch & Hid & _).
  apply preprocess_urls_Some in Hkeyed2 as (_ & _ & _ & Hrows2).
  apply match_companies_Some in Hmatch as (_ & Hleft & merged & Hmerge & Hsel).
  rewrite (matched_identifiers op _ _ merged _ Hs Hid Hmerge Hsel).
  rewrite (occurrences_bind_replicate (λ l, cell_at l (id_col1 op))) by done.
  destruct (decide (company_col1 op = "exact_match")) as [->|Hname]; [done|].
  assert (cell_at r "exact_match"
          = exact_match_of (column_values (right_frame st) (company_col2 op))
              (cell_at r (company_col1 op))) as ->.
  { rewrite Hleft, setitem_rows in Hr.
    apply list_elem_of_fmap in Hr as (r0 & -> & _).
    by rewrite cell_at_insert, cell_at_insert_ne. }
  apply exact_match_of_occurrences.
  unfold column_values. rewrite Hrows2, <- list_fmap_compose.
  intros (r2 & Hnull & _)%list_elem_of_fmap. simpl in Hnull.
  by destruct (annotate_key tldextract_extract (url_col2 op) (company_col2 op) r2)
    as [? Hsome]; rewrite Hsome in Hnull.
Qed.

End FanOut.

(** C4, amended.  Under the exact strategy a left identifier is not limited
    to one pair: it appears in as many pairs of the matched table as there
    are right records that carry the company key of its record, since the
    join fans out over right records that share a key.  This holds when the
    left identifiers are distinct and the name of the left identifier column
    is not one the join gives to a column the two tables share (the shared
    name followed by [_x] or [_y]); the tables may share other columns.  The
    identifier appears in at most one pair when the right keys are
    distinct. *)
Theorem exact_match_multiplicity
    (tldextract_extract : string → ExtractResult) (op : operation) (fs : files) (st : stage)
    (r : row) :
  process_tables tldextract_extract op fs = Ok st →
  id_col1 op ∉ suffixed_names (left_frame st) (right_frame st) →
  NoDup (column_values (left_frame st) (id_col1 op)) →
  r ∈ rows (left_frame st) →
  occurrences (cell_at r (id_col1 op)) (column_values (matched_df st) (id_col1 op))
  = occurrences (cell_at r (company_col1 op))
      (column_values (right_frame st) (company_col2 op))
  ∧ (NoDup (column_values (right_frame st) (company_col2 op)) →
     occurrences (cell_at r (id_col1 op)) (column_values (matched_df st) (id_col1 op)) ≤ 1).
Proof.
  intros Hrun Hs Hnd Hr.
  pose proof (process_tables_fan_out tldextract_extract op fs st r Hrun Hs Hnd Hr)
    as Hcount.
  split; [done|]. intros Hkeys. rewrite Hcount. by apply occurrences_NoDup.
Qed.

(** Two tables that share the column [NAME]: against the right table, whose
    keys are distinct, every left identifier is in at most one pair. *)
Lemma exact_match_multiplicity_witness :
  ∃ st,
    process_tables TldExtract.extract (demo_operation "right_named.csv") demo_named_files
    = Ok st
    ∧ "NAME" ∈ columns (left_frame st) ∧ "NAME" ∈ columns (right_frame st)
    ∧ column_values (matched_df st) "CRM_ID" = [Some "1"]
    ∧ ∀ r, r ∈ rows (left_frame st) →
        occurrences (cell_at r "CRM_ID") (column_values (matched_df st) "CRM_ID") ≤ 1.
Proof.
  destruct (process_tables TldExtract.extract (demo_operation "right_named.csv")
              demo_named_files) as [st|] eqn:Hrun; [|by vm_compute in Hrun].
  exists st. split; [done|].
  split; [vm_compute in Hrun; injection Hrun as <-;
          apply (bool_decide_unpack _); vm_compute; exact I|].
  split; [vm_compute in Hrun; injection Hrun as <-;
          apply (bool_decide_unpack _); vm_compute; exact I|].
  split; [by vm_compute in Hrun; injection Hrun as <-|].
  intros r Hr.
  refine (proj2 (exact_match_multiplicity TldExtract.extract
                   (demo_operation "right_named.csv") demo_named_files st r Hrun _ _ Hr) _).
  - vm_compute in Hrun. injection Hrun as <-.
    apply (bool_decide_unpack _). vm_compute. exact I.
  - vm_compute in Hrun. injection Hrun as <-.
    apply (bool_decide_unpack _). vm_compute. exact I.
  - vm_compute in Hrun. injection Hrun as <-.
    apply (bool_decide_unpack _). vm_compute. exact I.
Defined.

(** C4 as stated fails when two right records share a key: the only left
    record with the key [acme.com] is paired with both. *)
Lemma exact_match_fan_out_counterexample :
  (λ st, column_values (left_frame st) "CRM_ID")
    <$> process_tables TldExtract.extract (demo_operation "right.csv") demo_files
  = Ok [Some "1"; Some "2"]
  ∧ (λ st, column_values (matched_df st) "CRM_ID")
      <$> process_tables TldExtract.extract (demo_operation "right.csv") demo_files
    = Ok [Some "1"; Some "1"]
  ∧ (λ st, column_values (matched_df st) "UUID")
      <$> process_tables TldExtract.extract (demo_operation "right.csv") demo_files
    = Ok [Some "9"; Some "10"]
  ∧ occurrences (Some "1") [Some "1"; Some "1"] = 2.
Proof.
  split_and!.
  - vm_compute. reflexivity.
  - vm_compute. reflexivity.
  - vm_compute. reflexivity.
  - vm_compute. reflexivity.
Qed.

(** * Further properties of the sources *)

(** ** preprocessor.py: the profile path *)

Section ProfilePath.

Lemma startswith_app_other p s c t :
  PyStr.forallb (λ a, negb (bool_decide (a = c))) p = true →
  PyStr.startswith p (s +:+ String c t) = PyStr.startswith p s.
Proof.
  revert s. induction p as [|a p IH]; intros s Hp; [by destruct s|].
  cbn [PyStr.forallb] in Hp. apply andb_prop in Hp as [Ha Hp].
  apply negb_true_iff, bool_decide_eq_false in Ha.
  destruct s as [|b s].
  - rewrite app_empty. cbn [PyStr.startswith]. by rewrite decide_False.
  - rewrite app_cons. cbn [PyStr.startswith]. case_decide; [by apply IH|done].
Qed.

Lemma drop_app_startswith p s t :
  PyStr.startswith p s = true →
  PyStr.drop (String.length p) (s +:+ t) = PyStr.drop (String.length p) s +:+ t.
Proof.
  revert s. induction p as [|a p IH]; intros s; [done|].
  destruct s as [|b s]; [done|]. cbn [PyStr.startswith]. case_decide; [|done].
  intros Hp. rewrite app_cons. cbn [String.length PyStr.drop]. by apply IH.
Qed.

Lemma re_sub_query_about_skip_line q :
  single_line q = true → re_sub_query_about_from true q = "".
Proof.
  induction q as [|c q IH]; [done|]. unfold single_line. cbn [PyStr.forallb].
  intros [Hc Hq]%andb_prop. apply negb_true_iff, bool_decide_eq_false in Hc.
  cbn [re_sub_query_about_from]. rewrite decide_False by done. by apply IH.
Qed.

Lemma re_sub_query_about_from_query skipping url q :
  single_line q = true →
  re_sub_query_about_from skipping (url +:+ String "?" q) = re_sub_query_about_from skipping url.
Proof.
  intros Hq. revert skipping. induction url as [|c url IH]; intros skipping.
  - rewrite app_empty. cbn [re_sub_query_about_from].
    destruct skipping; [rewrite decide_False by done|rewrite bool_decide_eq_true_2 by done];
      by apply re_sub_query_about_skip_line.
  - rewrite app_cons. cbn [re_sub_query_about_from]. destruct skipping.
    + case_decide; by rewrite IH.
    + rewrite <- app_cons, (startswith_app_other "/about") by done.
      destruct (bool_decide (c = "?"%char) || _); by rewrite IH.
Qed.

Lemma re_sub_double_scheme_app url c t :
  c ≠ "h"%char → c ≠ "t"%char → c ≠ "p"%char → c ≠ "s"%char → c ≠ ":"%char → c ≠ "/"%char →
  re_sub_double_scheme (url +:+ String c t) = re_sub_double_scheme url +:+ String c t.
Proof.
  intros. unfold re_sub_double_scheme.
  rewrite !startswith_app_other
    by (cbn [PyStr.forallb]; rewrite !bool_decide_eq_false_2 by done; done).
  destruct (PyStr.startswith "http://http//" url) eqn:Hhttp.
  { by rewrite (drop_app_startswith "http://http//" url _ Hhttp). }
  destruct (PyStr.startswith "https://http//" url) eqn:Hhttps; [|done].
  by rewrite (drop_app_startswith "https://http//" url _ Hhttps).
Qed.

End ProfilePath.

(** X1.  A profile key holds word characters and hyphens only, and is
    lowercase: each of its code points is a letter or a digit of Unicode, an
    underscore or a hyphen, and lowercasing the key again gives the key.
    Of the ASCII characters only [a] to [z], [0] to [9], the underscore and
    the hyphen occur in it. *)
Theorem profile_key_is_slug (url : string) :
  Forall (λ c, Unicode.is_word c || (c =? 45)%N = true) (preprocess_linkedin_url url)
  ∧ Unicode.lower (preprocess_linkedin_url url) = preprocess_linkedin_url url
  ∧ Forall (λ c, (c < 128)%N → slug_point c = true) (preprocess_linkedin_url url).
Proof.
  assert (Forall (λ c, Unicode.is_word c || (c =? 45)%N = true)
            (preprocess_linkedin_url url)) as Hword.
  { unfold preprocess_linkedin_url, re_sub_non_word. apply Forall_forall. intros c Hc.
    apply list_elem_of_In, filter_In in Hc as [_ Hc]. exact Hc. }
  pose proof (preprocess_linkedin_url_lowercase url) as Hlow.
  split_and!; [done| |].
  - unfold Unicode.lower. by apply lower_from_fixed.
  - apply Forall_forall. intros c Hc Hascii.
    apply slug_point_ascii; [done|..].
    + by apply (proj1 (Forall_forall _ _) Hword).
    + by apply (proj1 (Forall_forall _ _) Hlow).
Qed.

(** X2.  A query string does not change the key: for a parser that ignores
    the query, the key of [url?query] is the key of [url], on the profile
    path as on the standard path, provided the query holds no newline. *)
Theorem query_string_ignored (tldextract_extract : string → ExtractResult) (url query : string) :
  single_line query = true →
  tldextract_extract (re_sub_double_scheme url +:+ String "?" query)
  = tldextract_extract (re_sub_double_scheme url) →
  extract_domain_and_company tldextract_extract (url +:+ String "?" query)
  = extract_domain_and_company tldextract_extract url.
Proof.
  intros Hq Hparse. unfold extract_domain_and_company.
  rewrite re_sub_double_scheme_app by done. rewrite Hparse.
  unfold preprocess_linkedin_url, re_sub_query_about.
  by rewrite re_sub_query_about_from_query.
Qed.

Lemma query_string_ignored_witness :
  extract_domain_and_company TldExtract.extract
    "https://www.linkedin.com/company/acme-corp?trk=public_profile"
  = extract_domain_and_company TldExtract.extract "https://www.linkedin.com/company/acme-corp".
Proof.
  apply (query_string_ignored TldExtract.extract
           "https://www.linkedin.com/company/acme-corp" "trk=public_profile").
  - vm_compute. reflexivity.
  - vm_compute. reflexivity.
Defined.

(** X3.  The duplicated scheme is repaired before parsing: [https://http//]
    and [http://http//] in front of a URL are read as [http://]. *)
Theorem double_scheme_repaired (tldextract_extract : string → ExtractResult) (rest : string) :
  PyStr.startswith "http//" rest = false →
  extract_domain_and_company tldextract_extract ("https://http//" +:+ rest)
  = extract_domain_and_company tldextract_extract ("http://" +:+ rest)
  ∧ extract_domain_and_company tldextract_extract ("http://http//" +:+ rest)
    = extract_domain_and_company tldextract_extract ("http://" +:+ rest).
Proof.
  intros Hrest.
  assert (re_sub_double_scheme ("https://http//" +:+ rest) = "http://" +:+ rest) as H1
    by reflexivity.
  assert (re_sub_double_scheme ("http://http//" +:+ rest) = "http://" +:+ rest) as H2
    by reflexivity.
  assert (re_sub_double_scheme ("http://" +:+ rest) = "http://" +:+ rest) as H3.
  { unfold re_sub_double_scheme.
    change (PyStr.startswith "http://http//" ("http://" +:+ rest))
      with (PyStr.startswith "http//" rest).
    rewrite Hrest.
    change (PyStr.startswith "https://http//" ("http://" +:+ rest)) with false. done. }
  unfold extract_domain_and_company. by rewrite H1, H2, H3.
Qed.

Lemma double_scheme_repaired_witness :
  extract_domain_and_company TldExtract.extract "https://http//www.acme.com"
  = extract_domain_and_company TldExtract.extract "http://www.acme.com".
Proof.
  apply (double_scheme_repaired TldExtract.extract "www.acme.com"). reflexivity.
Defined.

(** ** preprocessor.py: the standard path *)

Section StandardPath.

Lemma split_dot_free s : Forall (λ p, free_of (λ c, bool_decide (c = "."%char)) p = true)
                           (PyStr.split "." s).
Proof.
  induction s as [|a s IH]; [by repeat constructor|].
  cbn [PyStr.split]. case_decide as Ha; [by constructor|].
  destruct (PyStr.split "." s) as [|h t] eqn:Hs; [by apply split_nonempty in Hs|].
  apply Forall_cons in IH as [Hh Ht]. constructor; [|done].
  unfold free_of in *. cbn [PyStr.forallb]. by rewrite bool_decide_eq_false_2, Hh.
Qed.

Lemma split_dot_single p :
  free_of (λ c, bool_decide (c = "."%char)) p = true → PyStr.split "." p = [p].
Proof.
  induction p as [|a p IH]; [done|]. unfold free_of. cbn [PyStr.forallb].
  intros [Ha Hp]%andb_prop. apply negb_true_iff, bool_decide_eq_false in Ha.
  cbn [PyStr.split]. rewrite decide_False by done. by rewrite (IH Hp).
Qed.

Lemma split_dot_join parts :
  Forall (λ p, free_of (λ c, bool_decide (c = "."%char)) p = true) parts →
  parts ≠ [] →
  PyStr.split "." (PyStr.join "." parts) = parts.
Proof.
  induction 1 as [|p parts Hp Hparts IH]; [done|]. intros _.
  destruct parts as [|q parts].
  - by apply split_dot_single.
  - change (PyStr.join "." (p :: q :: parts)) with (p +:+ "." +:+ PyStr.join "." (q :: parts)).
    rewrite split_dot_app by done. by rewrite IH.
Qed.

Lemma Forall_list_filter {A} (P : A → Prop) (p : A → bool) l :
  Forall P l → Forall P (List.filter p l).
Proof.
  induction 1 as [|x l Hx Hl IH]; [done|]. simpl. destruct (p x); [by constructor|done].
Qed.

Lemma Forall_list_filter_true {A} (p : A → bool) l : Forall (λ x, p x = true) (List.filter p l).
Proof.
  induction l as [|x l IH]; [done|]. simpl. destruct (p x) eqn:Hx; [by constructor|done].
Qed.

End StandardPath.

(** X4.  On the standard path no boilerplate token is left in the key: no
    dot-separated segment of the key is one of [www], [web], [corp],
    [corporate], [about], [info], [shop], [company], whatever the parsed
    components are. *)
Theorem domain_key_without_boilerplate (extracted : ExtractResult) :
  Forall (λ part, part ∉ common_prefixes) (PyStr.split "." (domain_key extracted)).
Proof.
  unfold domain_key.
  set (name := if _ && _ then _ else _).
  change (Forall (λ part, part ∉ common_prefixes)
            (PyStr.split "." (PyStr.lower (cleaned_name name)))).
  rewrite lower_cleaned_name. unfold cleaned_name.
  set (parts := List.filter keep_part (PyStr.split "." (PyStr.lower name))).
  assert (Forall (λ part, part ∉ common_prefixes) parts) as Hparts.
  { unfold parts. rewrite split_dot_lower, <- filter_keep_lower.
    apply Forall_fmap. eapply Forall_impl; [apply (Forall_list_filter_true keep_part)|].
    intros part Hkeep. simpl. unfold keep_part in Hkeep.
    by apply negb_true_iff, bool_decide_eq_false in Hkeep. }
  destruct parts as [|p parts'] eqn:Hp.
  - repeat constructor. by apply (bool_decide_unpack _).
  - rewrite split_dot_join; [done| |done].
    rewrite <- Hp. unfold parts. apply Forall_list_filter, split_dot_free.
Qed.

(** ** preprocessor.py: the two strategies *)

Section Strategies.

Lemma levenshtein_refl a : levenshtein a a = 0.
Proof.
  induction a as [|x a IH]; [done|].
  cbn [levenshtein]. rewrite IH, decide_True by done. lia.
Qed.

Lemma levenshtein_zero a b : levenshtein a b = 0 → a = b.
Proof.
  revert b. induction a as [|x a IH]; intros [|y b]; cbn [levenshtein String.length];
    try done.
  intros Hmin.
  assert (levenshtein a b + (if decide (x = y) then 0 else 1) = 0) as Hdiag by lia.
  case_decide; [|lia]. subst. f_equal. apply IH. lia.
Qed.

Lemma find_best_match_exact_hit key pool :
  key ∈ pool →
  find_best_match_with_distance_poly (Some key) (Some <$> pool) = Ok (Some key, Finite 0).
Proof.
  intros Hin.
  destruct (find_best_match_first_minimum key pool) as (i & best & Hrun & _ & Hmin & _).
  { intros ->. by apply elem_of_nil in Hin. }
  apply list_elem_of_lookup in Hin as [j Hj].
  pose proof (Hmin j key Hj) as Hle. rewrite levenshtein_refl in Hle.
  assert (levenshtein key best = 0) as Hzero by lia.
  apply levenshtein_zero in Hzero as <-. by rewrite Hrun, levenshtein_refl.
Qed.

End Strategies.

(** X5.  When every left key occurs among the right keys, the fuzzy strategy
    returns what the exact strategy returns: each key paired with itself at
    distance 0. *)
Theorem fuzzy_agrees_with_exact_on_hits (crm_companys cd_companys : list string) :
  Forall (λ key, key ∈ cd_companys) crm_companys →
  process_companys (Some <$> crm_companys) (Some <$> cd_companys) (Some "fuzzy")
  = process_companys (Some <$> crm_companys) (Some <$> cd_companys) (Some "exact")
  ∧ process_companys (Some <$> crm_companys) (Some <$> cd_companys) (Some "exact")
    = Ok ((λ key, (Some key, Some key, Finite 0)) <$> crm_companys).
Proof.
  intros Hall. unfold process_companys.
  rewrite bool_decide_eq_false_2 by discriminate.
  rewrite bool_decide_eq_true_2 by done.
  assert (∀ l : list string, Forall (λ key, key ∈ cd_companys) l →
            mapM (λ crm_company : cell,
                    '(best_match, distance) ←
                       find_best_match_with_distance_poly crm_company (Some <$> cd_companys);
                    Ok (crm_company, best_match, distance)) (Some <$> l)
            = Ok ((λ key, (Some key, Some key, Finite 0)) <$> l)) as Hfuzzy.
  { induction 1 as [|key l Hkey Hl IH]; [done|].
    rewrite fmap_cons, mapM_result_cons, (find_best_match_exact_hit key _ Hkey).
    cbn [mbind result_bind]. by rewrite IH. }
  assert ((λ item : cell,
             if bool_decide (item ∈ (list_to_set (Some <$> cd_companys) : gset cell))
             then (item, item, Finite 0) else (item, None, Inf)) <$> (Some <$> crm_companys)
          = (λ key, (Some key, Some key, Finite 0)) <$> crm_companys) as Hexact.
  { rewrite <- list_fmap_compose. apply Forall_fmap_ext_1.
    eapply Forall_impl; [exact Hall|]. intros key Hkey. simpl.
    rewrite bool_decide_eq_true_2; [done|].
    apply elem_of_list_to_set. by apply list_elem_of_fmap_2. }
  by rewrite (Hfuzzy _ Hall), Hexact.
Qed.

Lemma fuzzy_agrees_with_exact_on_hits_witness :
  process_companys [Some "acme.com"; Some "other.org"]
    [Some "other.org"; Some "acme.com"; Some "third.io"] (Some "fuzzy")
  = process_companys [Some "acme.com"; Some "other.org"]
      [Some "other.org"; Some "acme.com"; Some "third.io"] (Some "exact").
Proof.
  refine (proj1 (fuzzy_agrees_with_exact_on_hits ["acme.com"; "other.org"]
                   ["other.org"; "acme.com"; "third.io"] _)).
  apply (bool_decide_unpack _). vm_compute. exact I.
Defined.

(** ** preprocessor.py: [extract_company_name] *)

Section TokenKey.

Lemma forallb_drop p n s : PyStr.forallb p s = true → PyStr.forallb p (PyStr.drop n s) = true.
Proof.
  revert s. induction n as [|n IH]; intros [|c s]; cbn [PyStr.drop PyStr.forallb]; try done.
  intros [_ Hs]%andb_prop. by apply IH.
Qed.

Lemma split_any_nonempty sep s : PyStr.split_any sep s ≠ [].
Proof. destruct s as [|a s]; [done|]. simpl. destruct (sep a); [done|]. by destruct (PyStr.split_any sep s). Qed.

Lemma split_any_free sep s :
  Forall (λ part, free_of sep part = true) (PyStr.split_any sep s).
Proof.
  induction s as [|a s IH]; [by repeat constructor|].
  cbn [PyStr.split_any]. destruct (sep a) eqn:Ha; [by constructor|].
  destruct (PyStr.split_any sep s) as [|h t] eqn:Hs; [by apply split_any_nonempty in Hs|].
  apply Forall_cons in IH as [Hh Ht]. constructor; [|done].
  unfold free_of in *. cbn [PyStr.forallb]. by rewrite Ha, Hh.
Qed.

Lemma join_free sep glue parts :
  free_of sep glue = true →
  Forall (λ part, free_of sep part = true) parts →
  free_of sep (PyStr.join glue parts) = true.
Proof.
  intros Hglue. induction 1 as [|p parts Hp Hparts IH]; [done|].
  destruct parts as [|q parts]; [done|].
  change (PyStr.join glue (p :: q :: parts)) with (p +:+ glue +:+ PyStr.join glue (q :: parts)).
  unfold free_of in *. by rewrite !forallb_app, Hp, Hglue, IH.
Qed.

Lemma re_sub_leading_token_free sep name :
  free_of sep name = true → free_of sep (re_sub_leading_token name) = true.
Proof.
  intros Hname. unfold re_sub_leading_token.
  destruct (List.find _ boilerplate_tokens); [|done]. by apply forallb_drop.
Qed.

Lemma re_sub_trailing_token_free name :
  free_of dot_or_slash name = true → free_of dot_or_slash (re_sub_trailing_token name) = true.
Proof.
  induction name as [|c name IH]; intros Hname.
  - cbn [re_sub_trailing_token]. by repeat destruct (existsb _ _).
  - cbn [re_sub_trailing_token]. destruct (existsb _ _); [done|].
    destruct (existsb _ _); [done|].
    unfold free_of in *. cbn [PyStr.forallb] in *.
    apply andb_prop in Hname as [-> Hname]. by rewrite IH.
Qed.

Lemma second_to_last_free sep parts :
  Forall (λ part, free_of sep part = true) parts → free_of sep (second_to_last parts) = true.
Proof.
  intros Hparts. unfold second_to_last.
  destruct (parts !! (length parts - 2)) as [part|] eqn:Hpart; [|done].
  by apply (Forall_lookup_1 _ _ _ _ Hparts Hpart).
Qed.

End TokenKey.

(** X6.  The token key never contains a dot or a slash: it is made of the
    tokens between them, joined by hyphens. *)
Theorem extract_company_name_no_separator (url : string) :
  free_of dot_or_slash (extract_company_name url) = true.
Proof.
  unfold extract_company_name.
  set (parts := PyStr.split_any _ (re_sub_scheme_prefix url)).
  assert (Forall (λ part, free_of dot_or_slash part = true) parts) as Hparts
    by apply split_any_free.
  destruct (bool_decide (_ = "") && _); [by apply second_to_last_free|].
  apply re_sub_trailing_token_free, re_sub_leading_token_free, join_free; [done|].
  destruct (bool_decide (_ = [])); by apply Forall_list_filter.
Qed.

(** X7.  The token key ignores the scheme and the host prefix: in front of a
    URL that itself begins with none of [http://], [https://], [http//],
    [www.], [web.], any scheme (also the malformed [http//] and the
    duplicated ones) followed by an optional [www.] or [web.] leaves the key
    unchanged. *)
Theorem extract_company_name_ignores_prefix (scheme host url : string) :
  scheme ∈ scheme_variants →
  host ∈ host_prefix_variants →
  Forall (λ p, PyStr.startswith p url = false) stripped_prefixes →
  extract_company_name (scheme +:+ host +:+ url) = extract_company_name url.
Proof.
  intros Hscheme Hhost Hurl.
  assert (PyStr.startswith "http://" url = false ∧ PyStr.startswith "https://" url = false
          ∧ PyStr.startswith "http//" url = false ∧ PyStr.startswith "www." url = false
          ∧ PyStr.startswith "web." url = false) as (H1 & H2 & H3 & H4 & H5).
  { unfold stripped_prefixes in Hurl. rewrite !Forall_cons in Hurl. tauto. }
  assert (re_sub_scheme_prefix url = url) as Hfixed.
  { unfold re_sub_scheme_prefix. by rewrite H2, H1, H3, H4, H5. }
  assert (re_sub_scheme_prefix (scheme +:+ host +:+ url) = url) as Hstripped.
  { unfold scheme_variants, host_prefix_variants in *.
    repeat (apply elem_of_cons in Hscheme as [->|Hscheme]);
      try (by apply elem_of_nil in Hscheme);
      repeat (apply elem_of_cons in Hhost as [->|Hhost]);
      try (by apply elem_of_nil in Hhost);
      unfold re_sub_scheme_prefix; rewrite ?app_cons, ?app_empty;
      repeat (first [ rewrite startswith_cons_eq
                    | rewrite startswith_cons_ne by discriminate
                    | rewrite startswith_nil
                    | rewrite H1 | rewrite H2 | rewrite H3 | rewrite H4 | rewrite H5 ];
              cbn [PyStr.drop orb]);
      reflexivity. }
  unfold extract_company_name. by rewrite Hstripped, Hfixed.
Qed.

Lemma extract_company_name_ignores_prefix_witness :
  extract_company_name "https://www.example.com/careers"
  = extract_company_name "example.com/careers".
Proof.
  apply (extract_company_name_ignores_prefix "https://" "www." "example.com/careers").
  - apply (bool_decide_unpack _). vm_compute. exact I.
  - apply (bool_decide_unpack _). vm_compute. exact I.
  - apply (bool_decide_unpack _). vm_compute. exact I.
Defined.

(** ** postprocess.py: the two tables of the duplicate pass *)

Section DuplicatePass.

Lemma split_duplicates_Ok df clean ambiguous :
  split_duplicates df = Ok (clean, ambiguous) →
  ∃ key,
    last (columns df) = Some key
    ∧ key ∈ columns df
    ∧ clean = boolean_index df (negb <$> duplicated (column_values df key))
    ∧ ambiguous = sort_values (boolean_index df (duplicated (column_values df key))) key.
Proof.
  unfold split_duplicates. destruct (last (columns df)) as [key|] eqn:Hlast; [|done].
  cbn [mbind result_bind]. destruct (getitem df key) as [keys|] eqn:Hkeys; [|done].
  apply getitem_Ok in Hkeys as [Hkey ->]. cbn [mbind result_bind].
  intros [= <- <-]. by exists key.
Qed.

Lemma duplicates_rows_eq df key :
  rows (boolean_index df (duplicated (column_values df key)))
  = List.filter (is_duplicate df key) (rows df).
Proof.
  unfold duplicated.
  apply (boolean_index_rows df
           (λ v, bool_decide (2 ≤ occurrences v (column_values df key))) key).
Qed.

Lemma non_duplicates_rows_eq df key :
  rows (boolean_index df (negb <$> duplicated (column_values df key)))
  = List.filter (λ r, negb (is_duplicate df key r)) (rows df).
Proof.
  unfold duplicated. rewrite <- list_fmap_compose.
  apply (boolean_index_rows df
           (negb ∘ (λ v, bool_decide (2 ≤ occurrences v (column_values df key)))) key).
Qed.

Lemma filter_split_Permutation {A} (p : A → bool) (l : list A) :
  List.filter (λ x, negb (p x)) l ++ List.filter p l ≡ₚ l.
Proof.
  induction l as [|x l IH]; [done|]. simpl. destruct (p x); simpl.
  - by rewrite <- Permutation_middle, IH.
  - by rewrite IH.
Qed.

Lemma list_filter_sublist {A} (p : A → bool) (l : list A) : sublist (List.filter p l) l.
Proof.
  induction l as [|x l IH]; [done|]. simpl.
  destruct (p x); [by apply sublist_skip|by apply sublist_cons].
Qed.

Lemma list_filter_all {A} (p : A → bool) (l : list A) :
  (∀ x, x ∈ l → p x = true) → List.filter p l = l.
Proof.
  induction l as [|x l IH]; [done|]. intros Hall. simpl.
  rewrite (Hall x) by left. f_equal. apply IH. intros y Hy. apply Hall. by right.
Qed.

Lemma list_filter_none {A} (p : A → bool) (l : list A) :
  (∀ x, x ∈ l → p x = false) → List.filter p l = [].
Proof.
  induction l as [|x l IH]; [done|]. intros Hall. simpl.
  rewrite (Hall x) by left. apply IH. intros y Hy. apply Hall. by right.
Qed.

Lemma occurrences_Permutation v s t : s ≡ₚ t → occurrences v s = occurrences v t.
Proof.
  unfold occurrences. induction 1 as [|x s t _ IH|x y s|s t u _ IH1 _ IH2]; simpl.
  - done.
  - destruct (bool_decide (x = v)); simpl; by rewrite IH.
  - by destruct (bool_decide (x = v)), (bool_decide (y = v)).
  - by rewrite IH1.
Qed.

Lemma occurrences_filter_le {A} (f : A → cell) (p : A → bool) v (l : list A) :
  occurrences v (f <$> List.filter p l) ≤ occurrences v (f <$> l).
Proof.
  unfold occurrences. induction l as [|x l IH]; [done|].
  cbn [fmap list_fmap List.filter]. destruct (p x);
    cbn [fmap list_fmap List.filter]; destruct (bool_decide (f x = v)); cbn [length]; lia.
Qed.

Lemma occurrences_filter_kept {A} (f : A → cell) (p : A → bool) v (l : list A) :
  (∀ x, x ∈ l → f x = v → p x = true) →
  occurrences v (f <$> List.filter p l) = occurrences v (f <$> l).
Proof.
  unfold occurrences. induction l as [|x l IH]; [done|]. intros Hkept.
  assert (∀ y, y ∈ l → f y = v → p y = true) as Hl by (intros y Hy; apply Hkept; by right).
  cbn [fmap list_fmap List.filter].
  destruct (decide (f x = v)) as [Heq|Hne].
  - rewrite (Hkept x) by (done || by left). cbn [fmap list_fmap List.filter].
    rewrite bool_decide_eq_true_2 by done. cbn [length]. by rewrite IH.
  - rewrite (bool_decide_eq_false_2 (f x = v)) by done.
    destruct (p x); cbn [fmap list_fmap List.filter];
      rewrite ?(bool_decide_eq_false_2 (f x = v)) by done; by apply IH.
Qed.

(** two tables with the same column names and rows *)
Lemma frame_eq df1 df2 : columns df1 = columns df2 → rows df1 = rows df2 → df1 = df2.
Proof. destruct df1, df2. simpl. by intros -> ->. Qed.

End DuplicatePass.

(** X8.  The duplicate pass neither drops nor repeats a row: the rows of
    the clean table followed by the rows of the ambiguous table are a
    permutation of the rows of the input, and both tables keep the columns of
    the input. *)
Theorem dedup_keeps_every_row (df clean ambiguous : DataFrame) :
  split_duplicates df = Ok (clean, ambiguous) →
  rows clean ++ rows ambiguous ≡ₚ rows df
  ∧ length (rows clean) + length (rows ambiguous) = length (rows df)
  ∧ columns clean = columns df
  ∧ columns ambiguous = columns df.
Proof.
  intros (key & _ & _ & -> & ->)%split_duplicates_Ok.
  assert (rows (boolean_index df (negb <$> duplicated (column_values df key)))
          ++ rows (sort_values (boolean_index df (duplicated (column_values df key))) key)
          ≡ₚ rows df) as Hperm.
  { unfold sort_values. cbn [rows]. rewrite merge_sort_Permutation.
    rewrite non_duplicates_rows_eq, duplicates_rows_eq. apply filter_split_Permutation. }
  split_and!; [done| |done..].
  by rewrite <- length_app, Hperm.
Qed.

Lemma dedup_keeps_every_row_witness :
  ∃ clean ambiguous,
    split_duplicates demo_matched = Ok (clean, ambiguous)
    ∧ length (rows clean) + length (rows ambiguous) = 3.
Proof.
  destruct (split_duplicates demo_matched) as [[clean ambiguous]|] eqn:Hrun;
    [|by vm_compute in Hrun].
  exists clean, ambiguous. split; [done|].
  exact (proj1 (proj2 (dedup_keeps_every_row demo_matched clean ambiguous Hrun))).
Defined.

(** X9.  The clean table keeps the original order: its rows are a
    subsequence of the rows of the input. *)
Theorem dedup_clean_keeps_order (df clean ambiguous : DataFrame) :
  split_duplicates df = Ok (clean, ambiguous) →
  sublist (rows clean) (rows df).
Proof.
  intros (key & _ & _ & -> & _)%split_duplicates_Ok.
  rewrite non_duplicates_rows_eq. apply list_filter_sublist.
Qed.

Lemma dedup_clean_keeps_order_witness :
  ∃ clean ambiguous,
    split_duplicates demo_matched = Ok (clean, ambiguous)
    ∧ sublist (rows clean) (rows demo_matched).
Proof.
  destruct (split_duplicates demo_matched) as [[clean ambiguous]|] eqn:Hrun;
    [|by vm_compute in Hrun].
  exists clean, ambiguous. split; [done|].
  exact (dedup_clean_keeps_order demo_matched clean ambiguous Hrun).
Defined.

Section DuplicatePassAgain.

Lemma last_elem_of {A} (l : list A) x : last l = Some x → x ∈ l.
Proof. rewrite last_Some. intros [l' ->]. apply elem_of_app. right. by left. Qed.

Lemma split_duplicates_run df key :
  last (columns df) = Some key →
  split_duplicates df
  = Ok (boolean_index df (negb <$> duplicated (column_values df key)),
        sort_values (boolean_index df (duplicated (column_values df key))) key).
Proof.
  intros Hlast. unfold split_duplicates. rewrite Hlast. cbn [mbind result_bind].
  unfold getitem. by rewrite bool_decide_eq_true_2 by by apply last_elem_of.
Qed.

Lemma merge_sort_nil {A} (R : relation A) `{∀ x y, Decision (R x y)} : merge_sort R [] = [].
Proof. reflexivity. Qed.

End DuplicatePassAgain.

(** X11.  The pass is idempotent on the clean table: run again on its clean
    output it finds no duplicate, returns the same clean table and an
    ambiguous table without rows. *)
Theorem dedup_clean_is_fixed (df clean ambiguous : DataFrame) :
  split_duplicates df = Ok (clean, ambiguous) →
  split_duplicates clean = Ok (clean, {| columns := columns df; rows := [] |}).
Proof.
  intros (key & Hlast & _ & -> & _)%split_duplicates_Ok.
  set (clean := boolean_index df (negb <$> duplicated (column_values df key))).
  assert (∀ r, r ∈ rows clean → is_duplicate clean key r = false) as Hnone.
  { intros r Hr. unfold clean in Hr. rewrite non_duplicates_rows_eq in Hr.
    apply elem_of_list_filter in Hr as [_ Hr]. apply negb_true_iff in Hr.
    unfold is_duplicate in *. apply bool_decide_eq_false in Hr.
    apply bool_decide_eq_false. intros Hdup. apply Hr.
    etrans; [exact Hdup|]. unfold column_values.
    unfold clean at 1. rewrite non_duplicates_rows_eq. apply occurrences_filter_le. }
  rewrite (split_duplicates_run clean key) by done. do 2 f_equal.
  - apply frame_eq; [done|]. rewrite non_duplicates_rows_eq.
    apply list_filter_all. intros r Hr. by rewrite (Hnone r Hr).
  - apply frame_eq; [done|]. unfold sort_values. cbn [rows].
    rewrite duplicates_rows_eq, (list_filter_none _ _ Hnone). reflexivity.
Qed.

Lemma dedup_clean_is_fixed_witness :
  ∃ clean ambiguous,
    split_duplicates demo_matched = Ok (clean, ambiguous)
    ∧ split_duplicates clean = Ok (clean, {| columns := columns demo_matched; rows := [] |}).
Proof.
  destruct (split_duplicates demo_matched) as [[clean ambiguous]|] eqn:Hrun;
    [|by vm_compute in Hrun].
  exists clean, ambiguous. split; [done|].
  exact (dedup_clean_is_fixed demo_matched clean ambiguous Hrun).
Defined.

(** X12.  Run again on its ambiguous output, the pass keeps every row
    ambiguous: the clean table has no row and the ambiguous table has the
    same rows. *)
Theorem dedup_ambiguous_stays_ambiguous (df clean ambiguous : DataFrame) :
  split_duplicates df = Ok (clean, ambiguous) →
  ∃ clean' ambiguous',
    split_duplicates ambiguous = Ok (clean', ambiguous')
    ∧ rows clean' = []
    ∧ rows ambiguous' ≡ₚ rows ambiguous.
Proof.
  intros (key & Hlast & _ & _ & ->)%split_duplicates_Ok.
  set (ambiguous := sort_values (boolean_index df (duplicated (column_values df key))) key).
  assert (rows ambiguous ≡ₚ List.filter (is_duplicate df key) (rows df)) as Hrows.
  { unfold ambiguous, sort_values. cbn [rows].
    by rewrite merge_sort_Permutation, duplicates_rows_eq. }
  assert (∀ r, r ∈ rows ambiguous → is_duplicate ambiguous key r = true) as Hall.
  { intros r Hr. rewrite Hrows in Hr. apply elem_of_list_filter in Hr as [_ Hr].
    unfold is_duplicate in *. apply bool_decide_eq_true in Hr. apply bool_decide_eq_true.
    unfold column_values at 1.
    rewrite (occurrences_Permutation _ _ _ (fmap_Permutation _ _ _ Hrows)).
    rewrite occurrences_filter_kept; [done|].
    intros r' _ Heq. unfold is_duplicate. rewrite Heq. by apply bool_decide_eq_true. }
  eexists _, _. split; [by apply (split_duplicates_run ambiguous key)|]. split.
  - rewrite non_duplicates_rows_eq. apply list_filter_none.
    intros r Hr. by rewrite (Hall r Hr).
  - unfold sort_values at 1. cbn [rows].
    by rewrite merge_sort_Permutation, duplicates_rows_eq, (list_filter_all _ _ Hall).
Qed.

Lemma dedup_ambiguous_stays_ambiguous_witness :
  ∃ clean ambiguous clean' ambiguous',
    split_duplicates demo_matched = Ok (clean, ambiguous)
    ∧ split_duplicates ambiguous = Ok (clean', ambiguous')
    ∧ rows clean' = []
    ∧ rows ambiguous' ≡ₚ rows ambiguous.
Proof.
  destruct (split_duplicates demo_matched) as [[clean ambiguous]|] eqn:Hrun;
    [|by vm_compute in Hrun].
  destruct (dedup_ambiguous_stays_ambiguous demo_matched clean ambiguous Hrun)
    as (clean' & ambiguous' & Hagain & Hnone & Hsame).
  by exists clean, ambiguous, clean', ambiguous'.
Defined.

(** ** postprocess.py: the files of the duplicate pass *)

Section DuplicateFile.

Lemma startswith_length p s : PyStr.startswith p s = true → String.length p ≤ String.length s.
Proof.
  revert s. induction p as [|a p IH]; intros [|b s]; simpl; try done; [lia|].
  case_decide; [|done]. intros Hp. apply IH in Hp. lia.
Qed.

(** a replacement by a text that is not shorter does not shorten *)
Lemma replace_from_length old new skip s :
  1 ≤ String.length old → String.length old ≤ String.length new →
  String.length s ≤ String.length (PyStr.replace_from old new skip s) + skip.
Proof.
  intros Hold Hnew. revert skip. induction s as [|c s IH]; intros skip; [simpl; lia|].
  cbn [PyStr.replace_from]. destruct skip as [|skip].
  - destruct (PyStr.startswith old (String c s)).
    + rewrite string_length_app. specialize (IH (String.length old - 1)). simpl. lia.
    + specialize (IH 0). simpl. lia.
  - specialize (IH skip). simpl. lia.
Qed.

(** a replacement by a longer text lengthens a string that holds the old
    text *)
Lemma replace_length_contains old new s :
  1 ≤ String.length old → String.length old < String.length new →
  PyStr.contains old s = true →
  String.length s < String.length (PyStr.replace old new s).
Proof.
  intros Hold Hnew. unfold PyStr.replace. induction s as [|c s IH].
  - simpl. destruct old; [simpl in Hold; lia|done].
  - cbn [PyStr.contains PyStr.replace_from].
    destruct (PyStr.startswith old (String c s)) eqn:Hstart.
    + intros _. rewrite string_length_app.
      pose proof (replace_from_length old new (String.length old - 1) s Hold). simpl. lia.
    + intros Hin. simpl in Hin. specialize (IH Hin). simpl. lia.
Qed.

Lemma replace_from_free sep old new skip s :
  free_of sep new = true → free_of sep s = true →
  free_of sep (PyStr.replace_from old new skip s) = true.
Proof.
  intros Hnew. revert skip. induction s as [|c s IH]; intros skip; [done|].
  unfold free_of in *. cbn [PyStr.forallb PyStr.replace_from].
  intros [Hc Hs]%andb_prop. destruct skip as [|skip]; [|by apply IH].
  destruct (PyStr.startswith old (String c s)).
  - rewrite forallb_app, Hnew. by apply IH.
  - cbn [PyStr.forallb]. rewrite Hc. by apply IH.
Qed.

Lemma split_app_sep c x y :
  PyStr.split c (x +:+ String c y) = PyStr.split c x ++ PyStr.split c y.
Proof.
  induction x as [|a x IH].
  - rewrite app_empty. cbn [PyStr.split]. by rewrite decide_True.
  - rewrite app_cons. cbn [PyStr.split]. case_decide; [by rewrite IH|].
    rewrite IH. pose proof (split_nonempty c x). by destruct (PyStr.split c x).
Qed.

Lemma split_single c p :
  free_of (λ a, bool_decide (a = c)) p = true → PyStr.split c p = [p].
Proof.
  induction p as [|a p IH]; [done|]. unfold free_of. cbn [PyStr.forallb].
  intros [Ha Hp]%andb_prop. apply negb_true_iff, bool_decide_eq_false in Ha.
  cbn [PyStr.split]. rewrite decide_False by done. by rewrite (IH Hp).
Qed.

Lemma split_free c s :
  Forall (λ p, free_of (λ a, bool_decide (a = c)) p = true) (PyStr.split c s).
Proof.
  induction s as [|a s IH]; [by repeat constructor|].
  cbn [PyStr.split]. case_decide as Ha; [by constructor|].
  destruct (PyStr.split c s) as [|h t] eqn:Hs; [by apply split_nonempty in Hs|].
  apply Forall_cons in IH as [Hh Ht]. constructor; [|done].
  unfold free_of in *. cbn [PyStr.forallb]. by rewrite bool_decide_eq_false_2, Hh.
Qed.

Lemma endswith_app p s : PyStr.endswith p s = true → ∃ s', s = s' +:+ p.
Proof.
  induction s as [|c s IH]; cbn [PyStr.endswith]; intros [Heq|Hrec]%orb_prop.
  - apply bool_decide_eq_true in Heq as <-. by exists "".
  - done.
  - apply bool_decide_eq_true in Heq as <-. by exists "".
  - destruct (IH Hrec) as [s' ->]. by exists (String c s').
Qed.

(** a name without slash after a directory part that is empty or ends with
    a slash is the base name of the whole *)
Lemma after_last_slash_decomp a f :
  a = "" ∨ PyStr.endswith "/" a = true →
  free_of is_slash f = true →
  PyStr.after_last "/" (a +:+ f) = f.
Proof.
  intros Ha Hf. unfold PyStr.after_last.
  destruct Ha as [->|[a' ->]%endswith_app].
  - rewrite app_empty, (split_single "/" f Hf). done.
  - rewrite string_app_assoc.
    change ("/" +:+ f) with (String "/" f).
    rewrite split_app_sep, (split_single "/" f Hf).
    by rewrite last_last.
Qed.

Lemma basename_free p : free_of is_slash (basename p) = true.
Proof.
  unfold basename, PyStr.after_last.
  pose proof (split_free "/" p) as Hfree. pose proof (split_nonempty "/" p) as Hne.
  destruct (PyStr.split "/" p) as [|h t _] using rev_ind; [done|].
  rewrite last_last. rewrite Forall_app, Forall_singleton in Hfree.
  exact (proj2 Hfree).
Qed.

Lemma endswith_snoc a p : PyStr.endswith p (a +:+ p) = true.
Proof.
  induction a as [|c a IH].
  - rewrite app_empty. destruct p; cbn [PyStr.endswith]; by rewrite bool_decide_eq_true_2.
  - rewrite app_cons. cbn [PyStr.endswith]. by rewrite IH, orb_true_r.
Qed.

Lemma basename_path_join a f :
  free_of is_slash f = true → basename (path_join a f) = f.
Proof.
  intros Hf. unfold path_join, basename.
  assert (PyStr.startswith "/" f = false) as ->.
  { destruct f as [|c f]; [done|]. unfold free_of, is_slash in Hf. cbn [PyStr.forallb] in Hf.
    apply andb_prop in Hf as [Hc _]. apply negb_true_iff, bool_decide_eq_false in Hc.
    cbn [PyStr.startswith]. rewrite decide_False by done. done. }
  destruct (bool_decide (a = "") || PyStr.endswith "/" a) eqn:Ha.
  - apply after_last_slash_decomp; [|done].
    apply orb_prop in Ha as [Ha|Ha]; [left; by apply bool_decide_eq_true in Ha|by right].
  - rewrite <- string_app_assoc. apply after_last_slash_decomp; [|done].
    right. apply endswith_snoc.
Qed.

Lemma duplicate_file_differs matched_path :
  PyStr.contains "matched" (basename matched_path) = true →
  duplicate_file_of matched_path ≠ matched_path.
Proof.
  intros Hin Heq.
  assert (basename (duplicate_file_of matched_path) = basename matched_path) as Hbase
    by by rewrite Heq.
  unfold duplicate_file_of in Hbase. rewrite basename_path_join in Hbase.
  - pose proof (replace_length_contains "matched" "duplicate_matched" (basename matched_path))
      as Hlen.
    rewrite Hbase in Hlen. simpl in Hlen. specialize (Hlen ltac:(lia) ltac:(lia) Hin). lia.
  - apply replace_from_free; [done|apply basename_free].
Qed.

End DuplicateFile.

(** X13.  When the name of the matched file contains [matched], the
    duplicate file is a different file, and the pass leaves both tables on
    disk: the clean one in the matched file, the ambiguous one in the
    duplicate file. *)
Theorem dedup_writes_two_files (op : operation) (fs fs' : files) (df : DataFrame) :
  PyStr.contains "matched" (basename (matched_path op)) = true →
  fs !! matched_path op = Some df →
  process_matched_output_operation op fs = Ok fs' →
  duplicate_file_of (matched_path op) ≠ matched_path op
  ∧ ∃ clean ambiguous,
      split_duplicates df = Ok (clean, ambiguous)
      ∧ fs' !! matched_path op = Some clean
      ∧ fs' !! duplicate_file_of (matched_path op) = Some ambiguous.
Proof.
  intros Hname Hfile Hrun.
  pose proof (duplicate_file_differs _ Hname) as Hne. split; [done|].
  unfold process_matched_output_operation, process_matched_output, read_csv in Hrun.
  rewrite Hfile in Hrun. cbn [mbind result_bind] in Hrun.
  destruct (split_duplicates df) as [[clean ambiguous]|]; [|done].
  cbn [mbind result_bind] in Hrun. injection Hrun as <-. exists clean, ambiguous.
  split_and!; [done|by rewrite lookup_insert_eq|].
  rewrite lookup_insert_ne by done. by rewrite lookup_insert_eq.
Qed.

Lemma dedup_writes_two_files_witness :
  ∃ fs' clean ambiguous,
    process_matched_output_operation (demo_operation "right.csv")
      (<["crm_cb_matched.csv" := demo_matched]> ∅) = Ok fs'
    ∧ duplicate_file_of "crm_cb_matched.csv" = "crm_cb_duplicate_matched.csv"
    ∧ split_duplicates demo_matched = Ok (clean, ambiguous)
    ∧ fs' !! "crm_cb_matched.csv" = Some clean
    ∧ fs' !! "crm_cb_duplicate_matched.csv" = Some ambiguous.
Proof.
  destruct (process_matched_output_operation (demo_operation "right.csv")
              (<["crm_cb_matched.csv" := demo_matched]> ∅)) as [fs'|] eqn:Hrun;
    [|by vm_compute in Hrun].
  destruct (dedup_writes_two_files (demo_operation "right.csv")
              (<["crm_cb_matched.csv" := demo_matched]> ∅) fs' demo_matched)
    as (_ & clean & ambiguous & Hsplit & Hclean & Hamb); [done..|].
  by exists fs', clean, ambiguous.
Defined.

(** X14.  When the computed duplicate path is the matched path itself (a
    file name without [matched]), the ambiguous table is overwritten: the
    file ends up with the clean table only, and no other file changes. *)
Theorem dedup_same_path_loses_duplicates (op : operation) (fs fs' : files) (df : DataFrame) :
  duplicate_file_of (matched_path op) = matched_path op →
  fs !! matched_path op = Some df →
  process_matched_output_operation op fs = Ok fs' →
  ∃ clean ambiguous,
    split_duplicates df = Ok (clean, ambiguous)
    ∧ fs' = <[matched_path op := clean]> fs.
Proof.
  intros Hsame Hfile Hrun.
  unfold process_matched_output_operation, process_matched_output, read_csv in Hrun.
  rewrite Hsame, Hfile in Hrun. cbn [mbind result_bind] in Hrun.
  destruct (split_duplicates df) as [[clean ambiguous]|]; [|done].
  cbn [mbind result_bind] in Hrun. injection Hrun as <-. exists clean, ambiguous.
  split; [done|]. by rewrite insert_insert_eq.
Qed.

Lemma dedup_same_path_loses_duplicates_witness :
  ∃ fs' clean ambiguous,
    process_matched_output_operation demo_operation_unmarked
      (<["./match_tables/crm_cb_match.csv" := demo_matched]> ∅) = Ok fs'
    ∧ split_duplicates demo_matched = Ok (clean, ambiguous)
    ∧ length (rows ambiguous) = 2
    ∧ fs' = <["./match_tables/crm_cb_match.csv" := clean]>
              (<["./match_tables/crm_cb_match.csv" := demo_matched]> ∅).
Proof.
  destruct (process_matched_output_operation demo_operation_unmarked
              (<["./match_tables/crm_cb_match.csv" := demo_matched]> ∅)) as [fs'|] eqn:Hrun;
    [|by vm_compute in Hrun].
  destruct (dedup_same_path_loses_duplicates demo_operation_unmarked
              (<["./match_tables/crm_cb_match.csv" := demo_matched]> ∅) fs' demo_matched)
    as (clean & ambiguous & Hsplit & Hfs); [done..|].
  exists fs', clean, ambiguous. split_and!; [done..| |done].
  vm_compute in Hsplit. by injection Hsplit as <- <-.
Defined.

Section AllOutputs.

Lemma process_all_matched_outputs_app ops1 ops2 fs :
  process_all_matched_outputs (ops1 ++ ops2) fs
  = process_all_matched_outputs ops2 (process_all_matched_outputs ops1 fs).
Proof. unfold process_all_matched_outputs. apply foldl_app. Qed.

Lemma process_matched_output_frame matched_path duplicate_file fs fs' p :
  process_matched_output matched_path duplicate_file fs = Ok fs' →
  p ≠ matched_path → p ≠ duplicate_file →
  fs' !! p = fs !! p.
Proof.
  unfold process_matched_output. destruct (read_csv fs matched_path) as [df|]; [|done].
  cbn [mbind result_bind]. destruct (split_duplicates df) as [[clean ambiguous]|]; [|done].
  cbn [mbind result_bind]. intros [= <-] H1 H2. by rewrite !lookup_insert_ne.
Qed.

End AllOutputs.

(** X15.  One bad operation does not stop the pass over all matched
    outputs: an operation whose matched file is missing when its turn comes
    is skipped, and the result is that of the list without it. *)
Theorem missing_matched_file_is_skipped (before after : list operation) (op : operation)
    (fs : files) :
  process_all_matched_outputs before fs !! matched_path op = None →
  process_all_matched_outputs (before ++ op :: after) fs
  = process_all_matched_outputs (before ++ after) fs.
Proof.
  intros Hmissing. rewrite !process_all_matched_outputs_app.
  set (reached := process_all_matched_outputs before fs) in *.
  assert (process_matched_output_operation op reached
          = Raise (FileNotFoundError (matched_path op))) as Hraise.
  { unfold process_matched_output_operation, process_matched_output, read_csv.
    by rewrite Hmissing. }
  unfold process_all_matched_outputs. cbn [foldl]. by rewrite Hraise.
Qed.

Lemma missing_matched_file_is_skipped_witness :
  process_all_matched_outputs
    ([demo_operation_unmarked] ++ demo_operation "right.csv" :: [demo_operation_unmarked])
    (<["./match_tables/crm_cb_match.csv" := demo_matched]> ∅)
  = process_all_matched_outputs ([demo_operation_unmarked] ++ [demo_operation_unmarked])
      (<["./match_tables/crm_cb_match.csv" := demo_matched]> ∅).
Proof.
  apply missing_matched_file_is_skipped. vm_compute. reflexivity.
Defined.

(** X16.  The pass over all matched outputs writes nothing but the matched
    files and their duplicate files: every other file is left as it was. *)
Theorem process_all_matched_outputs_frame (operations : list operation) (fs : files)
    (p : string) :
  Forall (λ op, p ≠ matched_path op ∧ p ≠ duplicate_file_of (matched_path op)) operations →
  process_all_matched_outputs operations fs !! p = fs !! p.
Proof.
  intros Hother. revert fs. induction Hother as [|op ops [H1 H2] _ IH]; intros fs; [done|].
  change (op :: ops) with ([op] ++ ops).
  rewrite process_all_matched_outputs_app, IH.
  unfold process_all_matched_outputs. cbn [foldl].
  destruct (process_matched_output_operation op fs) as [fs'|] eqn:Hrun; [|done].
  by apply (process_matched_output_frame _ _ _ _ _ Hrun).
Qed.

Lemma process_all_matched_outputs_frame_witness :
  process_all_matched_outputs [demo_operation "right.csv"]
    (<["crm_cb_matched.csv" := demo_matched]> (<["left.csv" := demo_left]> ∅)) !! "left.csv"
  = (<["crm_cb_matched.csv" := demo_matched]> (<["left.csv" := demo_left]> ∅) : files)
      !! "left.csv".
Proof.
  apply process_all_matched_outputs_frame.
  apply (bool_decide_unpack _). vm_compute. exact I.
Defined.

(** X17.  [get_bd_linkedin_company_urls] writes, when the matched table and
    the two sources have rows and each source has an unmatched row, the two
    LinkedIn input tables: the rows of each source whose [ID] is not in the
    matched table, in their order, with the columns of the source; no other
    file changes. *)
Theorem linkedin_inputs_are_unmatched_rows (fs : files) (result_df crm_df bd_df : DataFrame) :
  fs !! crm_bd_comp_matched = Some result_df →
  fs !! vw_sf_crm_match = Some crm_df →
  fs !! vw_bd_company_match = Some bd_df →
  rows result_df ≠ [] →
  "CRM_ID" ∈ columns result_df → "ID" ∈ columns result_df →
  "ID" ∈ columns crm_df → "ID" ∈ columns bd_df →
  rows_not_in crm_df (column_values result_df "CRM_ID") ≠ [] →
  rows_not_in bd_df (column_values result_df "ID") ≠ [] →
  get_bd_linkedin_company_urls fs
  = <[linkedin_bd_comp :=
        {| columns := columns bd_df;
           rows := rows_not_in bd_df (column_values result_df "ID") |}]>
      (<[linkedin_crm_comp :=
           {| columns := columns crm_df;
              rows := rows_not_in crm_df (column_values result_df "CRM_ID") |}]> fs).
Proof.
  intros Hresult Hcrm Hbd Hrows Hc1 Hc2 Hc3 Hc4 Hu1 Hu2.
  assert (∀ df c, c ∈ columns df → rows df ≠ [] → empty df = false) as Hfull.
  { intros df c Hc Hr. unfold empty. apply orb_false_intro; apply bool_decide_eq_false; [|done].
    intros Hnil. rewrite Hnil in Hc. by apply elem_of_nil in Hc. }
  assert (∀ df ids, rows_not_in df ids ≠ [] → rows df ≠ []) as Hsome.
  { intros df ids Hne Hnil. apply Hne. unfold rows_not_in. by rewrite Hnil. }
  unfold get_bd_linkedin_company_urls, read_csv. rewrite Hresult, Hcrm, Hbd.
  cbn [mbind result_bind].
  rewrite (Hfull result_df _ Hc1 Hrows), (Hfull crm_df _ Hc3 (Hsome _ _ Hu1)),
    (Hfull bd_df _ Hc4 (Hsome _ _ Hu2)).
  cbn [orb]. unfold unmatched_sources, getitem.
  rewrite !bool_decide_eq_true_2 by done. cbn [mbind result_bind].
  fold (column_values crm_df "ID") (column_values bd_df "ID")
       (column_values result_df "CRM_ID") (column_values result_df "ID").
  assert (∀ df ids, boolean_index df (negb <$> isin (column_values df "ID") ids)
                    = {| columns := columns df; rows := rows_not_in df ids |}) as Hindex.
  { intros df ids. apply frame_eq; [done|]. apply not_isin_rows. }
  rewrite !Hindex.
  rewrite (Hfull {| columns := columns crm_df; rows := _ |} _ Hc3 Hu1),
    (Hfull {| columns := columns bd_df; rows := _ |} _ Hc4 Hu2).
  reflexivity.
Qed.

Lemma linkedin_inputs_are_unmatched_rows_witness :
  get_bd_linkedin_company_urls demo_bd_files
  = <[linkedin_bd_comp :=
        {| columns := columns demo_bd_source;
           rows := rows_not_in demo_bd_source (column_values demo_bd_matched "ID") |}]>
      (<[linkedin_crm_comp :=
           {| columns := columns demo_crm_source;
              rows := rows_not_in demo_crm_source (column_values demo_bd_matched "CRM_ID") |}]>
         demo_bd_files).
Proof.
  apply linkedin_inputs_are_unmatched_rows; try reflexivity; try discriminate;
    try (apply (bool_decide_unpack _); vm_compute; exact I).
Defined.

(** X18.  [get_bd_linkedin_company_urls] writes nothing at all when the
    matched table has no row, or when every row of the CRM source is matched,
    or when every row of the Brightdata source is matched, even if the other
    source still has unmatched rows. *)
Theorem linkedin_inputs_not_written (fs : files) (result_df crm_df bd_df : DataFrame) :
  fs !! crm_bd_comp_matched = Some result_df →
  fs !! vw_sf_crm_match = Some crm_df →
  fs !! vw_bd_company_match = Some bd_df →
  rows result_df = []
  ∨ rows_not_in crm_df (column_values result_df "CRM_ID") = []
  ∨ rows_not_in bd_df (column_values result_df "ID") = [] →
  get_bd_linkedin_company_urls fs = fs.
Proof.
  intros Hresult Hcrm Hbd Hcase.
  unfold get_bd_linkedin_company_urls, read_csv. rewrite Hresult, Hcrm, Hbd.
  cbn [mbind result_bind].
  destruct (empty result_df || empty crm_df || empty bd_df) eqn:Hempty; [done|].
  apply orb_false_elim in Hempty as [Hempty _].
  apply orb_false_elim in Hempty as [Hempty _].
  apply orb_false_elim in Hempty as [_ Hrows]. apply bool_decide_eq_false in Hrows.
  destruct Hcase as [Hnil|Hcase]; [done|].
  unfold unmatched_sources.
  destruct (getitem crm_df "ID") as [ids1|] eqn:H1; [|done].
  apply getitem_Ok in H1 as [_ ->]. cbn [mbind result_bind].
  destruct (getitem result_df "CRM_ID") as [mids1|] eqn:H2; [|done].
  apply getitem_Ok in H2 as [_ ->]. cbn [mbind result_bind].
  destruct (getitem bd_df "ID") as [ids2|] eqn:H3; [|done].
  apply getitem_Ok in H3 as [_ ->]. cbn [mbind result_bind].
  destruct (getitem result_df "ID") as [mids2|] eqn:H4; [|done].
  apply getitem_Ok in H4 as [_ ->]. cbn [mbind result_bind].
  assert (∀ df ids, rows_not_in df ids = [] →
            empty (boolean_index df (negb <$> isin (column_values df "ID") ids)) = true)
    as Hnone.
  { intros df ids Hnil. unfold empty. rewrite not_isin_rows.
    fold (rows_not_in df ids). rewrite Hnil. by rewrite orb_true_r. }
  destruct Hcase as [Hnil|Hnil]; rewrite (Hnone _ _ Hnil); by rewrite ?orb_true_r.
Qed.

Lemma linkedin_inputs_not_written_witness :
  get_bd_linkedin_company_urls
    (<[crm_bd_comp_matched := demo_bd_matched]>
       (<[vw_sf_crm_match := demo_crm_source]>
          (<[vw_bd_company_match :=
               {| columns := ["ID"]; rows := [ text_row [("ID", "7")] ] |}]> ∅)))
  = <[crm_bd_comp_matched := demo_bd_matched]>
      (<[vw_sf_crm_match := demo_crm_source]>
         (<[vw_bd_company_match :=
              {| columns := ["ID"]; rows := [ text_row [("ID", "7")] ] |}]> ∅)).
Proof.
  apply (linkedin_inputs_not_written _ demo_bd_matched demo_crm_source
           {| columns := ["ID"]; rows := [ text_row [("ID", "7")] ] |});
    try reflexivity.
  right. right. vm_compute. reflexivity.
Defined.

(** ** matcher.py: loading and key annotation *)

(** X19.  Renaming columns keeps the data: when the new names are pairwise
    distinct, the values under the new name of a column are the values the
    column had. *)
Theorem rename_keeps_values (df : DataFrame) (d : gmap string string) (c : string) :
  NoDup ((λ x, default x (d !! x)) <$> columns df) →
  c ∈ columns df →
  columns (rename df d) = (λ x, default x (d !! x)) <$> columns df
  ∧ column_values (rename df d) (default c (d !! c)) = column_values df c.
Proof.
  intros Hnd Hc. split; [done|].
  unfold column_values, rename. cbn [rows]. rewrite <- list_fmap_compose.
  apply list_fmap_ext. intros _ r _. unfold compose, cell_at at 1.
  rewrite (elem_of_list_to_map_1 _ (default c (d !! c)) (cell_at r c)); [done| |].
  - by rewrite <- list_fmap_compose.
  - apply list_elem_of_fmap. by exists c.
Qed.

Lemma rename_keeps_values_witness :
  column_values (rename demo_left {[ "ID" := "CRM_ID" ]}) "CRM_ID" = column_values demo_left "ID".
Proof.
  refine (proj2 (rename_keeps_values demo_left {[ "ID" := "CRM_ID" ]} "ID" _ _)).
  - apply (bool_decide_unpack _). vm_compute. exact I.
  - apply (bool_decide_unpack _). vm_compute. exact I.
Defined.

Section KeyColumn.

Variable tldextract_extract : string → ExtractResult.

Lemma extract_key_lower url :
  PyStr.lower (extract_domain_and_company tldextract_extract url)
  = extract_domain_and_company tldextract_extract url.
Proof.
  unfold extract_domain_and_company. case_bool_decide; [|apply domain_key_lower].
  destruct (negb _); [apply preprocess_linkedin_url_lower|apply domain_key_lower].
Qed.

End KeyColumn.

(** X20.  [preprocess_urls] keeps one row per input row and gives every row
    a company key: the key extracted from the text of its URL cell, a
    lowercase string, never null. *)
Theorem preprocess_urls_keys (tldextract_extract : string → ExtractResult)
    (df out : DataFrame) (url_column company_column : string) :
  preprocess_urls tldextract_extract (Some df) url_column company_column = Some out →
  length (rows out) = length (rows df)
  ∧ column_values out company_column
    = (λ r, Some (extract_domain_and_company tldextract_extract
                    (str_of_cell (cell_at r url_column)))) <$> rows df
  ∧ Forall (λ key, ∃ s, key = Some s ∧ PyStr.lower s = s) (column_values out company_column).
Proof.
  intros (_ & _ & _ & Hrows)%preprocess_urls_Some.
  assert (column_values out company_column
          = (λ r, Some (extract_domain_and_company tldextract_extract
                          (str_of_cell (cell_at r url_column)))) <$> rows df) as Hkeys.
  { unfold column_values. rewrite Hrows, <- list_fmap_compose.
    apply list_fmap_ext. intros _ r _. unfold compose, annotate. by rewrite cell_at_insert. }
  split_and!; [by rewrite Hrows, length_fmap|done|].
  rewrite Hkeys. apply Forall_fmap, Forall_forall. intros r _. simpl.
  eexists. split; [done|]. apply extract_key_lower.
Qed.

Lemma preprocess_urls_keys_witness :
  ∃ out,
    preprocess_urls TldExtract.extract (Some demo_right) "HOMEPAGE" "cb_company" = Some out
    ∧ column_values out "cb_company" = [Some "acme.com"; Some "acme.com"].
Proof.
  destruct (preprocess_urls TldExtract.extract (Some demo_right) "HOMEPAGE" "cb_company")
    as [out|] eqn:Hrun; [|by vm_compute in Hrun].
  exists out. split; [done|].
  destruct (preprocess_urls_keys TldExtract.extract demo_right out "HOMEPAGE" "cb_company" Hrun)
    as (_ & -> & _).
  vm_compute. reflexivity.
Defined.

(** ** matcher.py: the outputs of one operation *)

Section Outputs.

Variable tldextract_extract : string → ExtractResult.

Lemma merge_Ok_columns left right left_on right_on out :
  merge left right left_on right_on = Ok out →
  left_on ∈ columns left ∧ right_on ∈ columns right.
Proof.
  unfold merge. case_bool_decide; [|done]. case_bool_decide; [|done]. done.
Qed.

(** Without a column name in common, a right column of a joined row holds
    the value of the right row. *)
Lemma merged_row_right left right l r c :
  Forall (λ x, x ∉ columns right) (columns left) → c ∈ columns right →
  cell_at (merged_row left right l r) c = cell_at r c.
Proof.
  intros Hdisj Hc. unfold merged_row, cell_at at 1. rewrite list_to_map_app.
  assert (∀ x, x ∈ columns right → x ∉ columns left) as Hright.
  { intros x Hx Hx'. by apply (proj1 (Forall_forall _ _) Hdisj x Hx'). }
  assert ((λ x, (merged_name (columns right) "_x" x, cell_at l x)) <$> columns left
          = (λ x, (x, cell_at l x)) <$> columns left) as ->.
  { apply Forall_fmap_ext_1. eapply Forall_impl; [exact Hdisj|].
    intros x Hx. simpl. unfold merged_name. by rewrite bool_decide_eq_false_2. }
  assert ((λ x, (merged_name (columns left) "_y" x, cell_at r x)) <$> columns right
          = (λ x, (x, cell_at r x)) <$> columns right) as ->.
  { apply Forall_fmap_ext_1, Forall_forall. intros x Hx. simpl. unfold merged_name.
    by rewrite bool_decide_eq_false_2 by by apply Hright. }
  pose proof (project_lookup (columns left) l c) as Hleft.
  pose proof (project_lookup (columns right) r c) as Hlook.
  unfold project in Hleft, Hlook.
  rewrite bool_decide_eq_false_2 in Hleft by by apply Hright.
  rewrite bool_decide_eq_true_2 in Hlook by done.
  by rewrite lookup_union_r, Hlook.
Qed.


(** the rows of the left table after [match_companies] *)
Lemma match_companies_rows df1 df2 c1 c2 i1 i2 u1 u2 out1 matched :
  match_companies (Some df1) (Some df2) c1 c2 i1 i2 u1 u2 = (Some out1, Some matched) →
  rows out1
  = (λ r, <["exact_match" := exact_match_of (column_values df2 c2) (cell_at r c1)]> r)
      <$> rows df1
  ∧ ∀ x, x ∈ columns out1 ↔ x ∈ columns df1 ∨ x = "exact_match".
Proof.
  intros (_ & -> & _)%match_companies_Some. split; [apply setitem_rows|].
  intros x. apply setitem_columns.
Qed.

Lemma left_frame_has_rows op fs st :
  process_tables tldextract_extract op fs = Ok st → rows (left_frame st) ≠ [].
Proof.
  intros (l1 & l2 & keyed1 & _ & _ & Hkeyed1 & _ & Hmatch & _)%process_tables_Ok.
  apply preprocess_urls_Some in Hkeyed1 as (Hne & _ & _ & Hrows).
  apply match_companies_rows in Hmatch as [-> _]. rewrite Hrows.
  destruct (rows l1); [done|]. done.
Qed.

End Outputs.

(** X21.  Every row of the matched table joins a left record and a right
    record that carry the same company key: with no column name shared by
    the two tables, its left identifier and left key are those of a left
    row, its right key is that of a right row, and the two keys are equal.
    The matched table has exactly the six columns of the operation. *)
Theorem matched_rows_join_equal_keys
    (tldextract_extract : string → ExtractResult) (op : operation) (fs : files) (st : stage)
    (m : row) :
  process_tables tldextract_extract op fs = Ok st →
  Forall (λ c, c ∉ columns (right_frame st)) (columns (left_frame st)) →
  company_col1 op ≠ "exact_match" →
  m ∈ rows (matched_df st) →
  columns (matched_df st) = matched_columns op
  ∧ ∃ l r,
      l ∈ rows (left_frame st) ∧ r ∈ rows (right_frame st)
      ∧ cell_at m (id_col1 op) = cell_at l (id_col1 op)
      ∧ cell_at m (company_col1 op) = cell_at l (company_col1 op)
      ∧ cell_at m (company_col2 op) = cell_at r (company_col2 op)
      ∧ cell_at l (company_col1 op) = cell_at r (company_col2 op).
Proof.
  intros Hrun Hdisj Hname Hm.
  apply process_tables_Ok in Hrun
    as (l1 & l2 & keyed1 & _ & _ & _ & Hkeyed2 & Hmatch & Hid & _).
  apply preprocess_urls_Some in Hkeyed2 as (_ & _ & _ & Hrows2).
  pose proof (match_companies_rows _ _ _ _ _ _ _ _ _ _ Hmatch) as [Hrows1 Hcols1].
  apply match_companies_Some in Hmatch as (Hc1 & _ & merged & Hmerge & Hsel).
  pose proof (merge_Ok_columns _ _ _ _ _ Hmerge) as [_ Hc2].
  apply merge_Ok in Hmerge. apply select_Ok in Hsel as [_ Hmatched].
  rewrite Hmatched in Hm |- *. cbn [rows columns] in Hm |- *. split; [done|].
  apply list_elem_of_fmap in Hm as (joined & -> & Hjoined).
  rewrite Hmerge in Hjoined.
  apply list_elem_of_bind in Hjoined as (l & Hjoined & Hl).
  apply list_elem_of_fmap in Hjoined as (r & -> & Hr).
  apply elem_of_list_filter in Hr as [Hr Hkey]. apply bool_decide_eq_true in Hkey.
  assert (company_col1 op ∈ columns (left_frame st)) as Hc1' by (apply Hcols1; by left).
  exists l, r. unfold matched_columns.
  rewrite !project_cell_at by (rewrite !elem_of_cons; tauto).
  rewrite !merged_row_left, merged_row_right by done.
  split_and!; [done..|].
  rewrite Hrows1 in Hl. apply list_elem_of_fmap in Hl as (l0 & -> & _).
  rewrite cell_at_insert in Hkey. rewrite cell_at_insert_ne by done.
  unfold exact_match_of in Hkey. case_bool_decide; [done|].
  rewrite Hrows2 in Hr. apply list_elem_of_fmap in Hr as (r0 & -> & _).
  destruct (annotate_key tldextract_extract (url_col2 op) (company_col2 op) r0) as [k Hk].
  by rewrite Hk in Hkey.
Qed.

Lemma matched_rows_join_equal_keys_witness :
  ∃ st,
    process_tables TldExtract.extract (demo_operation "right.csv") demo_files = Ok st
    ∧ columns (matched_df st)
      = ["CRM_ID"; "UUID"; "URL"; "HOMEPAGE"; "crm_company"; "cb_company"]
    ∧ ∀ m, m ∈ rows (matched_df st) → cell_at m "crm_company" = cell_at m "cb_company".
Proof.
  destruct (process_tables TldExtract.extract (demo_operation "right.csv") demo_files)
    as [st|] eqn:Hrun; [|by vm_compute in Hrun].
  exists st. split; [done|].
  split; [by vm_compute in Hrun; injection Hrun as <-|].
  intros m Hm.
  destruct (matched_rows_join_equal_keys TldExtract.extract (demo_operation "right.csv")
              demo_files st m Hrun) as (_ & l & r & _ & _ & _ & H1 & H2 & H3);
    [|discriminate|done|simpl in H1, H2, H3; congruence].
  vm_compute in Hrun. injection Hrun as <-.
  apply (bool_decide_unpack _). vm_compute. exact I.
Defined.



Section Saving.

Variable tldextract_extract : string → ExtractResult.

(** After a run that went through, the matched or the unmatched table has a
    row. *)
Lemma outputs_not_both_empty op fs st :
  process_tables tldextract_extract op fs = Ok st →
  empty (matched_df st) && empty (unmatched_df st) = false.
Proof.
  intros Hrun. pose proof (left_frame_has_rows _ _ _ _ Hrun) as Hrows.
  apply process_tables_Ok in Hrun
    as (l1 & l2 & keyed1 & _ & _ & _ & _ & Hmatch & _ & Hsel).
  apply match_companies_Some in Hmatch as (_ & _ & merged & _ & Hmatched).
  apply select_Ok in Hmatched as [_ Hmatched]. apply select_Ok in Hsel as [_ Hunmatched].
  destruct (rows (left_frame st)) as [|r rest] eqn:Hleft; [done|].
  destruct (decide (cell_at r (id_col1 op) ∈ column_values (matched_df st) (id_col1 op)))
    as [Hin|Hout].
  - apply andb_false_intro1. unfold empty. apply orb_false_intro; apply bool_decide_eq_false.
    + by rewrite Hmatched.
    + intros Hnil. unfold column_values in Hin. rewrite Hnil in Hin. by apply elem_of_nil in Hin.
  - apply andb_false_intro2. unfold empty. apply orb_false_intro; apply bool_decide_eq_false.
    + by rewrite Hunmatched.
    + rewrite Hunmatched. cbn [rows]. rewrite not_isin_rows, Hleft. cbn [List.filter].
      by rewrite bool_decide_eq_false_2 by done.
Qed.

End Saving.

(** X23.  What an operation that goes through leaves on disk.  The guard of
    [save_results] against two empty tables cannot fire, since every left
    record is in one of them; the matched table is written first, the
    unmatched table second.  When both paths can be written, both files are
    written.  When the unmatched path cannot be written, the matched file is
    on disk alone; when the matched path cannot be written, nothing is
    written.  [process] reports no error in any of these cases. *)
Theorem process_writes_both_tables
    (tldextract_extract : string → ExtractResult) (writable : string → bool)
    (op : operation) (fs : files) (st : stage) :
  process_tables tldextract_extract op fs = Ok st →
  process tldextract_extract writable op fs
  = (if writable (matched_path op)
     then if writable (unmatched_path op)
          then <[unmatched_path op := unmatched_df st]>
                 (<[matched_path op := matched_df st]> fs)
          else <[matched_path op := matched_df st]> fs
     else fs,
     None).
Proof.
  intros Hrun. unfold process. rewrite Hrun. unfold save_results, to_csv.
  rewrite (outputs_not_both_empty tldextract_extract op fs st Hrun).
  by destruct (writable (matched_path op)), (writable (unmatched_path op)).
Qed.

(** Both files when every path can be written; the matched file alone when
    the unmatched file cannot be written. *)
Lemma process_writes_both_tables_witness :
  ∃ st,
    process_tables TldExtract.extract (demo_operation "right.csv") demo_files = Ok st
    ∧ (process TldExtract.extract always_writable (demo_operation "right.csv") demo_files).1
        !! "crm_cb_unmatched.csv" = Some (unmatched_df st)
    ∧ (process TldExtract.extract always_writable (demo_operation "right.csv") demo_files).1
        !! "crm_cb_matched.csv" = Some (matched_df st)
    ∧ (process TldExtract.extract matched_only (demo_operation "right.csv") demo_files).1
        !! "crm_cb_unmatched.csv" = None
    ∧ (process TldExtract.extract matched_only (demo_operation "right.csv") demo_files).1
        !! "crm_cb_matched.csv" = Some (matched_df st).
Proof.
  destruct (process_tables TldExtract.extract (demo_operation "right.csv") demo_files)
    as [st|] eqn:Hrun; [|by vm_compute in Hrun].
  exists st. split; [done|].
  rewrite (process_writes_both_tables TldExtract.extract always_writable
             (demo_operation "right.csv") demo_files st Hrun).
  rewrite (process_writes_both_tables TldExtract.extract matched_only
             (demo_operation "right.csv") demo_files st Hrun).
  change (always_writable (matched_path (demo_operation "right.csv"))) with true.
  change (always_writable (unmatched_path (demo_operation "right.csv"))) with true.
  change (matched_only (matched_path (demo_operation "right.csv"))) with true.
  change (matched_only (unmatched_path (demo_operation "right.csv"))) with false.
  change (matched_path (demo_operation "right.csv")) with "crm_cb_matched.csv".
  change (unmatched_path (demo_operation "right.csv")) with "crm_cb_unmatched.csv".
  cbn [fst]. split_and!.
  - by rewrite lookup_insert_eq.
  - rewrite lookup_insert_ne by discriminate. by rewrite lookup_insert_eq.
  - rewrite lookup_insert_ne by discriminate. by vm_compute.
  - by rewrite lookup_insert_eq.
Defined.

(** X24.  [process] writes nothing but its matched and its unmatched file:
    every other file, the two inputs included, is left as it was, whether
    the operation goes through or fails, and whether its writes succeed or
    not. *)
Theorem process_frame
    (tldextract_extract : string → ExtractResult) (writable : string → bool)
    (op : operation) (fs : files) (p : string) :
  p ≠ matched_path op → p ≠ unmatched_path op →
  (process tldextract_extract writable op fs).1 !! p = fs !! p.
Proof.
  intros H1 H2. unfold process.
  destruct (process_tables tldextract_extract op fs) as [st|]; [|done].
  cbn [fst]. unfold save_results, to_csv. destruct (empty _ && empty _); [done|].
  destruct (writable (matched_path op)), (writable (unmatched_path op));
    by rewrite ?lookup_insert_ne.
Qed.

Lemma process_frame_witness :
  (process TldExtract.extract always_writable (demo_operation "right.csv") demo_files).1
    !! "left.csv"
  = demo_files !! "left.csv".
Proof.
  apply (process_frame TldExtract.extract always_writable (demo_operation "right.csv")
           demo_files "left.csv");
    discriminate.
Defined.

(** X25.  A record with a null identifier or a null URL never reaches the
    unmatched table: every row of the unmatched table shows the identifier
    and the URL of a loaded left record, both non-null, and the table has
    exactly these two columns. *)
Theorem unmatched_rows_are_loaded_records
    (tldextract_extract : string → ExtractResult) (op : operation) (fs : files) (st : stage)
    (loaded1 : DataFrame) (u : row) :
  load_clean_and_rename_dataframe fs (file_path1 op) (id_col1 op) (url_col1 op)
    (rename_dict1 op) = Some loaded1 →
  process_tables tldextract_extract op fs = Ok st →
  id_col1 op ≠ company_col1 op → id_col1 op ≠ "exact_match" →
  url_col1 op ≠ company_col1 op → url_col1 op ≠ "exact_match" →
  u ∈ rows (unmatched_df st) →
  columns (unmatched_df st) = [id_col1 op; url_col1 op]
  ∧ ∃ r,
      r ∈ rows loaded1
      ∧ cell_at u (id_col1 op) = cell_at r (id_col1 op)
      ∧ cell_at u (url_col1 op) = cell_at r (url_col1 op)
      ∧ is_Some (cell_at r (id_col1 op))
      ∧ is_Some (cell_at r (url_col1 op)).
Proof.
  intros Hload Hrun Hid1 Hid2 Hurl1 Hurl2 Hu.
  apply process_tables_Ok in Hrun
    as (l1 & l2 & keyed1 & Hl1 & _ & Hkeyed1 & _ & Hmatch & _ & Hsel).
  rewrite Hload in Hl1. injection Hl1 as <-.
  apply load_Some in Hload as (_ & _ & Hnonnull).
  apply preprocess_urls_Some in Hkeyed1 as (_ & _ & _ & Hrows1).
  apply match_companies_rows in Hmatch as [Hleft _].
  apply select_Ok in Hsel as [_ Hunmatched].
  rewrite Hunmatched in Hu |- *. cbn [rows columns] in Hu |- *. split; [done|].
  apply list_elem_of_fmap in Hu as (l & -> & Hl).
  rewrite not_isin_rows in Hl. apply elem_of_list_filter in Hl as [Hl _].
  rewrite Hleft, Hrows1, <- list_fmap_compose in Hl.
  apply list_elem_of_fmap in Hl as (r & -> & Hr).
  destruct (Hnonnull r Hr) as [Hsome_id Hsome_url].
  exists r. rewrite !project_cell_at by (rewrite !elem_of_cons; tauto).
  unfold compose. rewrite !cell_at_insert_ne by done.
  rewrite !annotate_cell_at by done. done.
Qed.

Lemma unmatched_rows_are_loaded_records_witness :
  ∃ st,
    process_tables TldExtract.extract (demo_operation "right.csv") demo_files = Ok st
    ∧ ∀ u, u ∈ rows (unmatched_df st) →
        is_Some (cell_at u "CRM_ID") ∧ is_Some (cell_at u "URL").
Proof.
  destruct (process_tables TldExtract.extract (demo_operation "right.csv") demo_files)
    as [st|] eqn:Hrun; [|by vm_compute in Hrun].
  destruct (load_clean_and_rename_dataframe demo_files "left.csv" "CRM_ID" "URL"
              (Some {[ "ID" := "CRM_ID" ]})) as [loaded1|] eqn:Hload;
    [|by vm_compute in Hload].
  exists st. split; [done|]. intros u Hu.
  destruct (unmatched_rows_are_loaded_records TldExtract.extract (demo_operation "right.csv")
              demo_files st loaded1 u Hload Hrun)
    as (_ & r & _ & Hid & Hurl & Hsome_id & Hsome_url); [discriminate..|done|].
  simpl in Hid, Hurl, Hsome_id, Hsome_url. by rewrite Hid, Hurl.
Defined.
